(** * brasil_cvm_analise: the CVM statement pipeline

    A shallow embedding of [src/cvm/collector.py] and [src/cvm/processor.py]:
    the company universe filter, the per-year statement loader, the three
    statement reshapers and the four ratio families, together with the
    part of pandas they run on (boolean-mask filtering, [concat],
    [pivot], [assign], [reset_index], column selection, [sort_values]).

    Conventions of the model.
    - A Python [str] is a Rocq [string] holding its UTF-8 bytes; byte-wise
      lexicographic order on UTF-8 is code-point order, which is how Python
      compares [str].
    - A [float64] cell is a [spec_float] of the Standard Library with
      precision 53 and maximal exponent 1024, and the arithmetic is the
      IEEE 754 arithmetic [SFadd], [SFsub], [SFmul], [SFdiv].
    - A Python exception is a value [Raise e] of the result type [res]. *)

From Stdlib Require Import ZArith String Ascii List Bool Lia.
From Stdlib Require Import Floats.SpecFloat DecimalString.
From Stdlib Require OrderedTypeEx DecimalZ DecimalPos.
From stdpp Require Import base list sorting gmap strings.

(** ** float64 *)

Module Float64.

Definition prec : Z := 53.
Definition emax : Z := 1024.

Abbreviation float := spec_float.

Definition nan : float := S754_nan.
Definition add : float -> float -> float := SFadd prec emax.
Definition sub : float -> float -> float := SFsub prec emax.
Definition mul : float -> float -> float := SFmul prec emax.
Definition div : float -> float -> float := SFdiv prec emax.

(** An integer literal promoted to float64, as in [x * 100]. *)
Definition of_Z (z : Z) : float := binary_normalize prec emax z 0 false.

Definition is_zero (x : float) : bool :=
  match x with S754_zero _ => true | _ => false end.
Definition is_nan (x : float) : bool :=
  match x with S754_nan => true | _ => false end.
Definition is_inf (x : float) : bool :=
  match x with S754_infinity _ => true | _ => false end.

End Float64.

Abbreviation float := Float64.float.

(** ** Orders given by a three-way comparison *)

Class CmpOrder {A : Type} (cmp : A -> A -> comparison) : Prop := {
  cmp_eq_iff a b : cmp a b = Eq <-> a = b;
  cmp_opp a b : cmp b a = CompOpp (cmp a b);
  cmp_lt_trans a b c : cmp a b = Lt -> cmp b c = Lt -> cmp a c = Lt
}.

Definition cmp_le {A} (cmp : A -> A -> comparison) : relation A :=
  fun a b => cmp a b <> Gt.

Global Instance comparison_eq_dec : EqDecision comparison.
Proof. solve_decision. Defined.

Global Instance cmp_le_dec {A} (cmp : A -> A -> comparison) :
  RelDecision (cmp_le cmp).
Proof. intros a b. unfold cmp_le. apply _. Defined.

(** Tuples compare lexicographically, as Python tuples and the levels of
    a pandas MultiIndex do. *)
Definition lex_compare {A B} (ca : A -> A -> comparison)
    (cb : B -> B -> comparison) (x y : A * B) : comparison :=
  match ca x.1 y.1 with
  | Eq => cb x.2 y.2
  | c => c
  end.

(** [str.__le__]: lexicographic on code points. *)
Definition str_le : relation string := cmp_le String.compare.

(** ** Exceptions *)

Inductive exn : Type :=
  | KeyError (key : string)
  | ValueError (msg : string)
  | AttributeError (attr : string)
  | FileNotFoundError (path : string).

Inductive res (A : Type) : Type :=
  | Ok (a : A)
  | Raise (e : exn).
Arguments Ok {A} a.
Arguments Raise {A} e.

Definition bind {A B} (m : res A) (k : A -> res B) : res B :=
  match m with
  | Ok a => k a
  | Raise e => Raise e
  end.

Notation "'let*' x ':=' m 'in' k" := (bind m (fun x => k))
  (at level 10, x name, m at level 100, k at level 200).

(** [str(n)] and the [{n}] of an f-string, for an [int]. *)
Definition str (n : Z) : string := NilZero.string_of_int (Z.to_int n).

(** [range(start, stop)] *)
Definition range (start stop : Z) : list Z :=
  (fun i => (start + Z.of_nat i)%Z) <$> seq 0 (Z.to_nat (stop - start)).

(** ** pandas: long-format frames

    A row of a DFP statement file, with the six columns the pipeline
    reads; the files carry further columns (CNPJ_CIA, VERSAO, ...) that
    no function here looks at.  [VL_CONTA] is parsed as float64
    ([decimal=',']), the other columns are strings. *)

Record FilingRecord : Type := {
  DT_REFER : string;
  DENOM_CIA : string;
  CD_CONTA : string;
  DS_CONTA : string;
  VL_CONTA : float;
  ORDEM_EXERC : string
}.

Abbreviation LongFrame := (list FilingRecord).

Global Instance spec_float_eq_dec : EqDecision spec_float.
Proof. solve_decision. Defined.

Global Instance FilingRecord_eq_dec : EqDecision FilingRecord.
Proof. solve_decision. Defined.

(** ** pandas: wide frames

    The frame a pivot returns: the (DT_REFER, DENOM_CIA) key of every
    row, and the float64 columns by label, each as long as the index.
    [reset_index] turns the two index levels into plain columns of the
    same names; the model keeps them in [index] either way. *)

Abbreviation Key := (string * string)%type.
Abbreviation Series := (list float).

Record Frame : Type := {
  index : list Key;
  columns : list (string * Series)
}.

Definition key (r : FilingRecord) : Key := (DT_REFER r, DENOM_CIA r).

Definition key_le : relation Key :=
  cmp_le (lex_compare String.compare String.compare).

(** The value of the row of [df] at index [k] and column label [c], NaN
    where the frame has no such row. *)
Definition pivot_cell (col : FilingRecord -> string) (df : LongFrame)
    (k : Key) (c : string) : float :=
  match list_find (fun r => key r = k /\ col r = c) df with
  | Some (_, r) => VL_CONTA r
  | None => Float64.nan
  end.

(** [df.pivot(index=['DT_REFER', 'DENOM_CIA'], columns=col,
    values='VL_CONTA')]: pandas builds the MultiIndex (DT_REFER,
    DENOM_CIA, col) and unstacks its last level; it raises ValueError
    when two rows share an entry, and returns the index and the column
    labels sorted. *)
Definition pivot (col : FilingRecord -> string) (df : LongFrame) : res Frame :=
  if decide (NoDup ((fun r => (key r, col r)) <$> df)) then
    let idx := merge_sort key_le (remove_dups (key <$> df)) in
    let labels := merge_sort str_le (remove_dups (col <$> df)) in
    Ok {| index := idx;
          columns :=
            (fun c => (c, (fun k => pivot_cell col df k c) <$> idx)) <$> labels |}
  else Raise (ValueError "Index contains duplicate entries, cannot reshape").

Fixpoint lookup_col (c : string) (cols : list (string * Series)) : option Series :=
  match cols with
  | [] => None
  | (n, s) :: cols' => if decide (n = c) then Some s else lookup_col c cols'
  end.

(** [x[c] = s]: replaces the column in place, or appends it. *)
Fixpoint set_col (c : string) (s : Series) (cols : list (string * Series))
    : list (string * Series) :=
  match cols with
  | [] => [(c, s)]
  | (n, s0) :: cols' =>
      if decide (n = c) then (c, s) :: cols' else (n, s0) :: set_col c s cols'
  end.

(** [x[c]] *)
Definition getitem (x : Frame) (c : string) : res Series :=
  match lookup_col c (columns x) with
  | Some s => Ok s
  | None => Raise (KeyError c)
  end.

(** Series arithmetic.  The operands are evaluated left to right, so the
    first missing column is the one whose KeyError surfaces. *)
Definition series_binop (op : float -> float -> float)
    (a b : res Series) : res Series :=
  let* x := a in
  let* y := b in
  Ok (zip_with op x y).

Definition series_scale (a : res Series) (n : Z) : res Series :=
  let* x := a in
  Ok ((fun v => Float64.mul v (Float64.of_Z n)) <$> x).

Declare Scope series_scope.
Delimit Scope series_scope with series.
Infix "+" := (series_binop Float64.add) : series_scope.
Infix "-" := (series_binop Float64.sub) : series_scope.
Infix "/" := (series_binop Float64.div) : series_scope.
Infix "*" := series_scale : series_scope.

(** [x.assign(name=f)]: [f] is called on the frame as it stands.  An
    [assign] with several keywords sets them in order, each callable
    seeing the columns set before it, so it is a chain of these. *)
Definition assign (name : string) (f : Frame -> res Series) (x : Frame)
    : res Frame :=
  let* s := f x in
  Ok {| index := index x; columns := set_col name s (columns x) |}.

(** [x.reset_index()]: the levels are inserted as columns, last level
    first, and a column of that name in the way is a ValueError. *)
Definition reset_index (x : Frame) : res Frame :=
  if decide ("DENOM_CIA" ∈ (columns x).*1) then
    Raise (ValueError "cannot insert DENOM_CIA, already exists")
  else if decide ("DT_REFER" ∈ (columns x).*1) then
    Raise (ValueError "cannot insert DT_REFER, already exists")
  else Ok x.

Fixpoint select_cols (names : list string) (x : Frame)
    : res (list (string * Series)) :=
  match names with
  | [] => Ok []
  | c :: names' =>
      let* s := getitem x c in
      let* rest := select_cols names' x in
      Ok ((c, s) :: rest)
  end.

(** [x[['DT_REFER', 'DENOM_CIA'] + names]] on a frame whose index was reset. *)
Definition select (names : list string) (x : Frame) : res Frame :=
  let* cols := select_cols names x in
  Ok {| index := index x; columns := cols |}.

(** The cell of row [i] in column [c]. *)
Definition cell (x : Frame) (c : string) (i : nat) : option float :=
  s ← lookup_col c (columns x); s !! i.

(** A directory of parsed CSV files, by file name. *)
Abbreviation Directory := (gmap string LongFrame).

(** ** collector.py *)

Module CVMDataCollector.

(** A row of the company registry (cad_cia_aberta.csv), with the four
    columns the collector reads. *)
Record CompanyInfo : Type := {
  DENOM_SOCIAL : string;
  SIT : string;
  TP_MERC : string;
  SETOR_ATIV : string
}.

(** [download_company_info], from the parsed registry [info] on: the
    download and [read_csv] are taken as done.  [sort_values] is
    modelled by a merge sort; pandas promises no order among rows of
    equal name (its default sort is not stable). *)
Definition download_company_info (info : list CompanyInfo) : list CompanyInfo :=
  let excluded_sectors :=
    ["Bancos"; "Intermediação Financeira"; "Seguradoras e Corretoras"] in
  let companies :=
    merge_sort (fun a b => str_le (DENOM_SOCIAL a) (DENOM_SOCIAL b))
      (filter (fun c => SIT c = "ATIVO" /\ TP_MERC c = "BOLSA" /\
                        SETOR_ATIV c ∉ excluded_sectors) info) in
  companies.

(** [concatenate_statements]; [output_dir] is the directory the files
    were extracted to, and a file name absent from it is a path for
    which [filepath.exists()] is false. *)
Definition concatenate_statements (output_dir : Directory)
    (start_year end_year : Z) (statement_types : list string)
    : gmap string LongFrame :=
  foldl (fun result stmt_type =>
    let frames :=
      foldl (fun frames year =>
        let filepath :=
          "dfp_cia_aberta_" +:+ stmt_type +:+ "_" +:+ str year +:+ ".csv" in
        match output_dir !! filepath with
        | Some df => frames ++ [df]
        | None => frames
        end) [] (range start_year (end_year + 1)) in
    match frames with
    | [] => result
    | _ :: _ => <[stmt_type := concat frames]> result
    end) ∅ statement_types.

(** The column [run] writes to companies.csv. *)
Definition run_companies (info : list CompanyInfo) : list string :=
  DENOM_SOCIAL <$> download_company_info info.

End CVMDataCollector.

(** ** processor.py: FinancialProcessor *)

Module FinancialProcessor.

Record t : Type := {
  data_dir : Directory;
  companies : list string
}.

(** [load_companies]: [column] is the first column of companies.csv as
    [read_csv] returns it. *)
Definition load_companies (self : t) (column : list string) : t * list string :=
  ({| data_dir := data_dir self; companies := column |}, column).

Definition _load_statement (self : t) (filename : string) : res LongFrame :=
  match data_dir self !! filename with
  | Some df => Ok df
  | None => Raise (FileNotFoundError filename)
  end.

Definition process_balance_sheet (self : t) (start_year end_year : Z)
    : res Frame :=
  let* bpa := _load_statement self
    ("dfp_cia_aberta_BPA_con_" +:+ str start_year +:+ "-" +:+ str end_year +:+ ".csv") in
  let* bpp := _load_statement self
    ("dfp_cia_aberta_BPP_con_" +:+ str start_year +:+ "-" +:+ str end_year +:+ ".csv") in
  let bp := bpa ++ bpp in
  let accounts := [
    "Ativo Total";
    "Passivo Total";
    "Patrimônio Líquido Consolidado";
    "Ativo Circulante";
    "Ativo Não Circulante";
    "Passivo Circulante";
    "Passivo Não Circulante"
  ] in
  let* x := pivot DS_CONTA
    (filter (fun r => DS_CONTA r ∈ accounts /\
                      DENOM_CIA r ∈ companies self /\
                      ORDEM_EXERC r = "ÚLTIMO") bp) in
  let* x := assign "passivo" (fun x =>
    getitem x "Passivo Total" - getitem x "Patrimônio Líquido Consolidado")%series x in
  let* filtered := reset_index x in
  Ok filtered.

Definition process_income_statement (self : t) (start_year end_year : Z)
    : res Frame :=
  let* dre := _load_statement self
    ("dfp_cia_aberta_DRE_con_" +:+ str start_year +:+ "-" +:+ str end_year +:+ ".csv") in
  let accounts := [
    "Receita de Venda de Bens e/ou Serviços";
    "Custo dos Bens e/ou Serviços Vendidos";
    "Lucro/Prejuízo Consolidado do Período"
  ] in
  let* x := pivot DS_CONTA
    (filter (fun r => DS_CONTA r ∈ accounts /\
                      DENOM_CIA r ∈ companies self /\
                      CD_CONTA r ∈ ["3.11"; "3.01"; "3.02"] /\
                      ORDEM_EXERC r = "ÚLTIMO") dre) in
  let* filtered := reset_index x in
  Ok filtered.

Definition process_cash_flow (self : t) (start_year end_year : Z)
    : res Frame :=
  let* dfc := _load_statement self
    ("dfp_cia_aberta_DFC_MI_con_" +:+ str start_year +:+ "-" +:+ str end_year +:+ ".csv") in
  let accounts := [
    "Caixa Líquido Atividades Operacionais";
    "Caixa Líquido Atividades de Investimento";
    "Caixa Líquido Atividades de Financiamento";
    "Aumento (Redução) de Caixa e Equivalentes";
    "Saldo Inicial de Caixa e Equivalentes";
    "Saldo Final de Caixa e Equivalentes"
  ] in
  let* x := pivot DS_CONTA
    (filter (fun r => DS_CONTA r ∈ accounts /\
                      DENOM_CIA r ∈ companies self /\
                      ORDEM_EXERC r = "ÚLTIMO") dfc) in
  let* filtered := reset_index x in
  Ok filtered.

End FinancialProcessor.

(** ** processor.py: FinancialIndicators *)

Module FinancialIndicators.

Record t : Type := {
  companies : list string;
  _df_dfp : option LongFrame
}.

(** [__init__] *)
Definition init : t := {| companies := []; _df_dfp := None |}.

(** [load_data], on frames [bp] and [dre] that carry the long-format
    columns: the calculators below read CD_CONTA and ORDEM_EXERC from
    [_df_dfp]. *)
Definition load_data (self : t) (bp dre : LongFrame) (companies : list string) : t :=
  let _df_dfp := bp ++ dre in
  {| companies := companies;
     _df_dfp := Some (filter (fun r => DENOM_CIA r ∈ companies) _df_dfp) |}.

(** [self._df_dfp] where a frame is needed; before [load_data] it is
    [None], which has no columns. *)
Definition df_dfp (self : t) : res LongFrame :=
  match _df_dfp self with
  | Some df => Ok df
  | None => Raise (AttributeError "CD_CONTA")
  end.

Definition calculate_liquidity (self : t) : res Frame :=
  let accounts := ["1.01.01"; "2.01"; "1.01"; "1.01.04"; "1.01.07"; "1.02"; "2.02"] in
  let* _df_dfp := df_dfp self in
  let df := filter (fun r => CD_CONTA r ∈ accounts /\ ORDEM_EXERC r = "ÚLTIMO") _df_dfp in
  let* x := pivot DS_CONTA df in
  let* x := reset_index x in
  let* x := assign "liquidez_imediata" (fun x =>
    getitem x "Caixa e Equivalentes de Caixa" / getitem x "Passivo Circulante")%series x in
  let* x := assign "liquidez_seca" (fun x =>
    (getitem x "Ativo Circulante" - getitem x "Estoques" - getitem x "Despesas Antecipadas")
    / getitem x "Passivo Circulante")%series x in
  let* x := assign "liquidez_corrente" (fun x =>
    getitem x "Ativo Circulante" / getitem x "Passivo Circulante")%series x in
  let* x := assign "liquidez_geral" (fun x =>
    (getitem x "Ativo Circulante" + getitem x "Ativo Não Circulante")
    / (getitem x "Passivo Circulante" + getitem x "Passivo Não Circulante"))%series x in
  let* result := select
    ["liquidez_imediata"; "liquidez_seca"; "liquidez_corrente"; "liquidez_geral"] x in
  Ok result.

Definition calculate_debt (self : t) : res Frame :=
  let accounts := ["1"; "2.01"; "2.02"; "2.01.04"; "2.02.01"; "2.03"; "3.05"] in
  let* _df_dfp := df_dfp self in
  let df := filter (fun r => CD_CONTA r ∈ accounts /\ ORDEM_EXERC r = "ÚLTIMO") _df_dfp in
  let* x := pivot CD_CONTA df in
  let* x := reset_index x in
  let* x := assign "divida_pl" (fun x =>
    (getitem x "2.01.04" + getitem x "2.02.01") / getitem x "2.03")%series x in
  let* x := assign "divida_ativos" (fun x =>
    (getitem x "2.01.04" + getitem x "2.02.01") / getitem x "1")%series x in
  let* x := assign "divida_ebit" (fun x =>
    (getitem x "2.01.04" + getitem x "2.02.01") / getitem x "3.05")%series x in
  let* x := assign "pl_ativos" (fun x =>
    getitem x "2.03" / getitem x "1")%series x in
  let* x := assign "passivos_ativos" (fun x =>
    (getitem x "2.01" + getitem x "2.02") / getitem x "1")%series x in
  let* result := select
    ["divida_pl"; "divida_ativos"; "divida_ebit"; "pl_ativos"; "passivos_ativos"] x in
  Ok result.

Definition calculate_efficiency (self : t) : res Frame :=
  let accounts := ["3.01"; "3.03"; "3.05"; "3.11"] in
  let* _df_dfp := df_dfp self in
  let df := filter (fun r => CD_CONTA r ∈ accounts /\ ORDEM_EXERC r = "ÚLTIMO") _df_dfp in
  let* x := pivot CD_CONTA df in
  let* x := reset_index x in
  let* x := assign "margem_bruta" (fun x =>
    getitem x "3.03" / getitem x "3.01" * 100)%series x in
  let* x := assign "margem_liquida" (fun x =>
    getitem x "3.11" / getitem x "3.01" * 100)%series x in
  let* x := assign "margem_ebit" (fun x =>
    getitem x "3.05" / getitem x "3.01" * 100)%series x in
  let* result := select ["margem_bruta"; "margem_liquida"; "margem_ebit"] x in
  Ok result.

Definition calculate_profitability (self : t) : res Frame :=
  let accounts := ["1"; "2"; "2.03"; "3.05"; "3.08"; "3.11"] in
  let* _df_dfp := df_dfp self in
  let df := filter (fun r => CD_CONTA r ∈ accounts /\ ORDEM_EXERC r = "ÚLTIMO") _df_dfp in
  let* x := pivot CD_CONTA df in
  let* x := reset_index x in
  let* x := assign "roic" (fun x =>
    (getitem x "3.05" - getitem x "3.08") / getitem x "2" * 100)%series x in
  let* x := assign "roe" (fun x =>
    getitem x "3.11" / getitem x "2.03" * 100)%series x in
  let* x := assign "roa" (fun x =>
    getitem x "3.11" / getitem x "1" * 100)%series x in
  let* result := select ["roic"; "roe"; "roa"] x in
  Ok result.

End FinancialIndicators.

(** * Vocabulary of the statements *)

(** The (index, column) entries of the rows handed to a pivot. *)
Definition entries (col : FilingRecord -> string) (df : LongFrame)
    : list (Key * string) :=
  (fun r => (key r, col r)) <$> df.

(** ** The collector *)

Import CVMDataCollector.

(** What [download_company_info] keeps. *)
Definition eligible (c : CompanyInfo) : Prop :=
  SIT c = "ATIVO" /\ TP_MERC c = "BOLSA" /\
  SETOR_ATIV c ∉ ["Bancos"; "Intermediação Financeira"; "Seguradoras e Corretoras"].

Definition name_le (a b : CompanyInfo) : Prop :=
  str_le (DENOM_SOCIAL a) (DENOM_SOCIAL b).

(** The name of the file of a kind for a year. *)
Definition year_file (stmt_type : string) (year : Z) : string :=
  "dfp_cia_aberta_" +:+ stmt_type +:+ "_" +:+ str year +:+ ".csv".

(** The frames of the per-year files of a kind that exist, in year order. *)
Definition existing_frames (output_dir : Directory) (stmt_type : string)
    (start_year end_year : Z) : list LongFrame :=
  omap (fun year => output_dir !! year_file stmt_type year)
    (range start_year (end_year + 1)).

(** ** The ratio engine *)

Import FinancialIndicators.

(** The rows [calculate_liquidity] hands to its pivot. *)
Definition liquidity_rows (df : LongFrame) : LongFrame :=
  filter (fun r => CD_CONTA r ∈ ["1.01.01"; "2.01"; "1.01"; "1.01.04"; "1.01.07"; "1.02"; "2.02"]
                   /\ ORDEM_EXERC r = "ÚLTIMO") df.

(** The column labels the liquidity ratios read, in reading order. *)
Definition liquidity_labels : list string :=
  [ "Caixa e Equivalentes de Caixa"; "Passivo Circulante"; "Ativo Circulante";
    "Estoques"; "Despesas Antecipadas"; "Ativo Não Circulante";
    "Passivo Não Circulante" ].

(** The account codes of the code-keyed families. *)
Definition debt_codes : list string :=
  ["1"; "2.01"; "2.02"; "2.01.04"; "2.02.01"; "2.03"; "3.05"].
Definition efficiency_codes : list string := ["3.01"; "3.03"; "3.05"; "3.11"].
Definition profitability_codes : list string :=
  ["1"; "2"; "2.03"; "3.05"; "3.08"; "3.11"].

(** The rows a code-keyed family keeps: its codes, final records only. *)
Definition final_rows (codes : list string) (df : LongFrame) : LongFrame :=
  filter (fun r => CD_CONTA r ∈ codes /\ ORDEM_EXERC r = "ÚLTIMO") df.

(** The ratio tables the four families return once [load_data] was given
    the company list [companies]. *)
Inductive ratio_table (companies : list string) (t : Frame) : Prop :=
  | ratio_liquidity self bp dre :
      calculate_liquidity (load_data self bp dre companies) = Ok t ->
      ratio_table companies t
  | ratio_debt self bp dre :
      calculate_debt (load_data self bp dre companies) = Ok t ->
      ratio_table companies t
  | ratio_efficiency self bp dre :
      calculate_efficiency (load_data self bp dre companies) = Ok t ->
      ratio_table companies t
  | ratio_profitability self bp dre :
      calculate_profitability (load_data self bp dre companies) = Ok t ->
      ratio_table companies t.

(** ** The reshapers *)

Module FP := FinancialProcessor.

(** The range files the processor loads. *)
Definition bpa_file (s e : Z) : string :=
  "dfp_cia_aberta_BPA_con_" +:+ str s +:+ "-" +:+ str e +:+ ".csv".
Definition bpp_file (s e : Z) : string :=
  "dfp_cia_aberta_BPP_con_" +:+ str s +:+ "-" +:+ str e +:+ ".csv".
Definition dre_file (s e : Z) : string :=
  "dfp_cia_aberta_DRE_con_" +:+ str s +:+ "-" +:+ str e +:+ ".csv".
Definition dfc_file (s e : Z) : string :=
  "dfp_cia_aberta_DFC_MI_con_" +:+ str s +:+ "-" +:+ str e +:+ ".csv".

(** The rows each reshaper keeps. *)
Definition balance_sheet_rows (self : FP.t) (bp : LongFrame) : LongFrame :=
  filter (fun r =>
    DS_CONTA r ∈ [ "Ativo Total"; "Passivo Total"; "Patrimônio Líquido Consolidado";
                   "Ativo Circulante"; "Ativo Não Circulante";
                   "Passivo Circulante"; "Passivo Não Circulante" ] /\
    DENOM_CIA r ∈ FP.companies self /\
    ORDEM_EXERC r = "ÚLTIMO") bp.

Definition income_statement_rows (self : FP.t) (dre : LongFrame) : LongFrame :=
  filter (fun r =>
    DS_CONTA r ∈ [ "Receita de Venda de Bens e/ou Serviços";
                   "Custo dos Bens e/ou Serviços Vendidos";
                   "Lucro/Prejuízo Consolidado do Período" ] /\
    DENOM_CIA r ∈ FP.companies self /\
    CD_CONTA r ∈ ["3.11"; "3.01"; "3.02"] /\
    ORDEM_EXERC r = "ÚLTIMO") dre.

Definition cash_flow_rows (self : FP.t) (dfc : LongFrame) : LongFrame :=
  filter (fun r =>
    DS_CONTA r ∈ [ "Caixa Líquido Atividades Operacionais";
                   "Caixa Líquido Atividades de Investimento";
                   "Caixa Líquido Atividades de Financiamento";
                   "Aumento (Redução) de Caixa e Equivalentes";
                   "Saldo Inicial de Caixa e Equivalentes";
                   "Saldo Final de Caixa e Equivalentes" ] /\
    DENOM_CIA r ∈ FP.companies self /\
    ORDEM_EXERC r = "ÚLTIMO") dfc.

(** The filter of the balance-sheet reshaper, on one row. *)
Definition balance_sheet_keeps (self : FP.t) (r : FilingRecord) : Prop :=
  DS_CONTA r ∈ [ "Ativo Total"; "Passivo Total"; "Patrimônio Líquido Consolidado";
                 "Ativo Circulante"; "Ativo Não Circulante";
                 "Passivo Circulante"; "Passivo Não Circulante" ] /\
  DENOM_CIA r ∈ FP.companies self /\
  ORDEM_EXERC r = "ÚLTIMO".

(** The wide tables the three reshapers return for a processor whose
    company list is [companies]. *)
Inductive reshaped (companies : list string) (t : Frame) : Prop :=
  | reshaped_balance_sheet self s e :
      FP.companies self = companies ->
      FP.process_balance_sheet self s e = Ok t -> reshaped companies t
  | reshaped_income_statement self s e :
      FP.companies self = companies ->
      FP.process_income_statement self s e = Ok t -> reshaped companies t
  | reshaped_cash_flow self s e :
      FP.companies self = companies ->
      FP.process_cash_flow self s e = Ok t -> reshaped companies t.

(** Two directories with the same files, each with the same rows up to
    their order. *)
Definition same_rows (d d' : Directory) : Prop :=
  forall f,
    match d !! f, d' !! f with
    | Some a, Some b => a ≡ₚ b
    | None, None => True
    | _, _ => False
    end.

(** The same processor with the rows of every file in reverse order. *)
Definition reversed (self : FP.t) : FP.t :=
  {| FP.data_dir := reverse <$> FP.data_dir self;
     FP.companies := FP.companies self |}.

(** * Scenarios *)

(** A final row of ACME S.A. for the period 2023-12-31. *)
Definition acme (cd ds : string) (v : float) : FilingRecord :=
  {| DT_REFER := "2023-12-31"; DENOM_CIA := "ACME S.A.";
     CD_CONTA := cd; DS_CONTA := ds; VL_CONTA := v;
     ORDEM_EXERC := "ÚLTIMO" |}.

(** The two rows of the round-trip scenario. *)
Definition acme_two : LongFrame :=
  [ acme "1.01" "Ativo Circulante" (Float64.of_Z 100);
    acme "2.01" "Passivo Circulante" (Float64.of_Z 50) ].

(** Rows for the five other accounts [calculate_liquidity] reads. *)
Definition acme_others (cx es da anc pnc : float) : LongFrame :=
  [ acme "1.01.01" "Caixa e Equivalentes de Caixa" cx;
    acme "1.01.04" "Estoques" es;
    acme "1.01.07" "Despesas Antecipadas" da;
    acme "1.02" "Ativo Não Circulante" anc;
    acme "2.02" "Passivo Não Circulante" pnc ].

(** Every liquidity account present, Ativo Circulante 100 and Passivo
    Circulante 0. *)
Definition acme_zero_pc : LongFrame :=
  [ acme "1.01" "Ativo Circulante" (Float64.of_Z 100);
    acme "2.01" "Passivo Circulante" (Float64.of_Z 0) ]
  ++ acme_others (Float64.of_Z 10) (Float64.of_Z 20) (Float64.of_Z 5)
       (Float64.of_Z 300) (Float64.of_Z 150).

(** The liquidity accounts of ACME without any 'Estoques' row. *)
Definition acme_no_estoques : LongFrame :=
  acme_two ++
  [ acme "1.01.01" "Caixa e Equivalentes de Caixa" (Float64.of_Z 10);
    acme "1.01.07" "Despesas Antecipadas" (Float64.of_Z 5);
    acme "1.02" "Ativo Não Circulante" (Float64.of_Z 300);
    acme "2.02" "Passivo Não Circulante" (Float64.of_Z 150) ].

(** Two companies, of which only the first reports 'Estoques': the
    column exists, and the second company's liquidez_seca is NaN while
    its liquidez_corrente is 3.0. *)
Definition two_companies : LongFrame :=
  acme_two ++
  acme_others (Float64.of_Z 10) (Float64.of_Z 20) (Float64.of_Z 5)
    (Float64.of_Z 300) (Float64.of_Z 150) ++
  ((fun r => {| DT_REFER := DT_REFER r; DENOM_CIA := "BETA S.A.";
                CD_CONTA := CD_CONTA r; DS_CONTA := DS_CONTA r;
                VL_CONTA := VL_CONTA r; ORDEM_EXERC := ORDEM_EXERC r |})
     <$> [ acme "1.01" "Ativo Circulante" (Float64.of_Z 90);
           acme "2.01" "Passivo Circulante" (Float64.of_Z 30) ]).

(** The six accounts the profitability ratios read. *)
Definition acme_profit : LongFrame :=
  [ acme "1" "Ativo Total" (Float64.of_Z 400);
    acme "2" "Passivo Total" (Float64.of_Z 400);
    acme "2.03" "Patrimônio Líquido Consolidado" (Float64.of_Z 200);
    acme "3.05" "Resultado Antes do Resultado Financeiro e dos Tributos"
      (Float64.of_Z 300);
    acme "3.08" "Imposto de Renda e Contribuição Social sobre o Lucro"
      (Float64.of_Z 100);
    acme "3.11" "Lucro/Prejuízo Consolidado do Período" (Float64.of_Z 50) ].

(** The balance-sheet files of ACME for 2023. *)
Definition acme_dir : Directory :=
  {[ bpa_file 2023 2023 :=
       [ acme "1" "Ativo Total" (Float64.of_Z 400);
         acme "1.01" "Ativo Circulante" (Float64.of_Z 100) ];
     bpp_file 2023 2023 :=
       [ acme "2" "Passivo Total" (Float64.of_Z 400);
         acme "2.01" "Passivo Circulante" (Float64.of_Z 50);
         acme "2.03" "Patrimônio Líquido Consolidado" (Float64.of_Z 150) ] ]}.

Definition acme_processor : FP.t :=
  {| FP.data_dir := acme_dir; FP.companies := ["ACME S.A."] |}.

(** Two final 'Ativo Total' rows for the same period and company. *)
Definition duplicate_dir : Directory :=
  {[ bpa_file 2023 2023 :=
       [ acme "1" "Ativo Total" (Float64.of_Z 400);
         acme "1" "Ativo Total" (Float64.of_Z 401) ];
     bpp_file 2023 2023 :=
       [ acme "2" "Passivo Total" (Float64.of_Z 400);
         acme "2.03" "Patrimônio Líquido Consolidado" (Float64.of_Z 150) ] ]}.

Definition duplicate_processor : FP.t :=
  {| FP.data_dir := duplicate_dir; FP.companies := ["ACME S.A."] |}.

(** A registry with one eligible company and one bank, and filings of
    both in the raw balance-sheet files. *)
Definition registry : list CompanyInfo :=
  [ {| DENOM_SOCIAL := "BANCO X S.A."; SIT := "ATIVO"; TP_MERC := "BOLSA";
       SETOR_ATIV := "Bancos" |};
    {| DENOM_SOCIAL := "ACME S.A."; SIT := "ATIVO"; TP_MERC := "BOLSA";
       SETOR_ATIV := "Comércio (Atacado e Varejo)" |} ].

(** A final row of the bank for the same period. *)
Definition banco (cd ds : string) (v : float) : FilingRecord :=
  {| DT_REFER := "2023-12-31"; DENOM_CIA := "BANCO X S.A.";
     CD_CONTA := cd; DS_CONTA := ds; VL_CONTA := v;
     ORDEM_EXERC := "ÚLTIMO" |}.

Definition mixed_dir : Directory :=
  {[ bpa_file 2023 2023 :=
       [ banco "1" "Ativo Total" (Float64.of_Z 9000);
         acme "1" "Ativo Total" (Float64.of_Z 400) ];
     bpp_file 2023 2023 :=
       [ banco "2" "Passivo Total" (Float64.of_Z 9000);
         banco "2.03" "Patrimônio Líquido Consolidado" (Float64.of_Z 1000);
         acme "2" "Passivo Total" (Float64.of_Z 400);
         acme "2.03" "Patrimônio Líquido Consolidado" (Float64.of_Z 150) ] ]}.

Definition mixed_processor : FP.t :=
  {| FP.data_dir := mixed_dir; FP.companies := run_companies registry |}.

(** The table the reshaper returns on them: ACME only. *)
Definition mixed_balance_sheet : Frame :=
  {| index := [("2023-12-31", "ACME S.A.")];
     columns := [ ("Ativo Total", [Float64.of_Z 400]);
                  ("Passivo Total", [Float64.of_Z 400]);
                  ("Patrimônio Líquido Consolidado", [Float64.of_Z 150]);
                  ("passivo", [Float64.of_Z 250]) ] |}.

(** Two periods and two companies, filed out of order: the table comes
    out by period, then by company, from either order of the rows. *)
Definition unordered_dir : Directory :=
  {[ bpa_file 2022 2023 := [];
     bpp_file 2022 2023 :=
       (fun '(dt, cia, ds, v) =>
          {| DT_REFER := dt; DENOM_CIA := cia; CD_CONTA := "2"; DS_CONTA := ds;
             VL_CONTA := Float64.of_Z v; ORDEM_EXERC := "ÚLTIMO" |})
       <$> [ ("2023-12-31", "BETA S.A.", "Passivo Total", 8%Z);
             ("2022-12-31", "BETA S.A.", "Patrimônio Líquido Consolidado", 3%Z);
             ("2023-12-31", "ACME S.A.", "Passivo Total", 6%Z);
             ("2022-12-31", "BETA S.A.", "Passivo Total", 4%Z);
             ("2023-12-31", "ACME S.A.", "Patrimônio Líquido Consolidado", 1%Z);
             ("2022-12-31", "ACME S.A.", "Passivo Total", 2%Z) ] ]}.

Definition unordered_processor : FP.t :=
  {| FP.data_dir := unordered_dir; FP.companies := ["BETA S.A."; "ACME S.A."] |}.

(** One row per year, dated the last day of the year. *)
Definition year_row (y : Z) : FilingRecord :=
  {| DT_REFER := str y +:+ "-12-31"; DENOM_CIA := "ACME S.A.";
     CD_CONTA := "1"; DS_CONTA := "Ativo Total";
     VL_CONTA := Float64.of_Z y; ORDEM_EXERC := "ÚLTIMO" |}.

(** The files of 2016 to 2020 exist, those of 2021 to 2025 do not. *)
Definition backfill_dir : Directory :=
  list_to_map ((fun y => (year_file "BPA_con" y, [year_row y])) <$> range 2016 2021).

(** * Further vocabulary and scenarios *)

(** ** The ratio engine *)

(** The columns each code-keyed family reads, in the order its ratios
    first read them: the left operand of an operator before the right
    one, the keywords of [assign] from first to last.  For the liquidity
    family that order is [liquidity_labels]. *)
Definition debt_read_order : list string :=
  ["2.01.04"; "2.02.01"; "2.03"; "1"; "3.05"; "2.01"; "2.02"].
Definition efficiency_read_order : list string :=
  ["3.03"; "3.01"; "3.11"; "3.05"].
Definition profitability_read_order : list string :=
  ["3.05"; "3.08"; "2"; "3.11"; "2.03"; "1"].

(** [x * 100] on a float64 cell. *)
Definition percent (v : float) : float := Float64.mul v (Float64.of_Z 100).

(** Every account the four families read, for ACME in 2023. *)
Definition acme_full : LongFrame :=
  [ acme "1" "Ativo Total" (Float64.of_Z 400);
    acme "1.01" "Ativo Circulante" (Float64.of_Z 100);
    acme "1.01.01" "Caixa e Equivalentes de Caixa" (Float64.of_Z 10);
    acme "1.01.04" "Estoques" (Float64.of_Z 20);
    acme "1.01.07" "Despesas Antecipadas" (Float64.of_Z 5);
    acme "1.02" "Ativo Não Circulante" (Float64.of_Z 300);
    acme "2" "Passivo Total" (Float64.of_Z 400);
    acme "2.01" "Passivo Circulante" (Float64.of_Z 50);
    acme "2.01.04" "Empréstimos e Financiamentos" (Float64.of_Z 30);
    acme "2.02" "Passivo Não Circulante" (Float64.of_Z 150);
    acme "2.02.01" "Empréstimos e Financiamentos" (Float64.of_Z 70);
    acme "2.03" "Patrimônio Líquido Consolidado" (Float64.of_Z 200);
    acme "3.01" "Receita de Venda de Bens e/ou Serviços" (Float64.of_Z 1000);
    acme "3.03" "Resultado Bruto" (Float64.of_Z 400);
    acme "3.05" "Resultado Antes do Resultado Financeiro e dos Tributos"
      (Float64.of_Z 300);
    acme "3.08" "Imposto de Renda e Contribuição Social sobre o Lucro"
      (Float64.of_Z 100);
    acme "3.11" "Lucro/Prejuízo Consolidado do Período" (Float64.of_Z 50) ].

Definition acme_indicators : FinancialIndicators.t :=
  load_data init acme_full [] ["ACME S.A."].

(** What a ratio family keeps of the frames given to [load_data]: its
    account codes, final records, companies of the list. *)
Definition kept (codes companies : list string) (r : FilingRecord) : Prop :=
  (CD_CONTA r ∈ codes /\ ORDEM_EXERC r = "ÚLTIMO") /\ DENOM_CIA r ∈ companies.

Definition liquidity_codes : list string :=
  ["1.01.01"; "2.01"; "1.01"; "1.01.04"; "1.01.07"; "1.02"; "2.02"].

(** The accounts each ratio reads: descriptions for the liquidity
    ratios, codes for the others. *)
Definition liquidity_reads : list (string * list string) :=
  [ ("liquidez_imediata", ["Caixa e Equivalentes de Caixa"; "Passivo Circulante"]);
    ("liquidez_seca",
     ["Ativo Circulante"; "Estoques"; "Despesas Antecipadas"; "Passivo Circulante"]);
    ("liquidez_corrente", ["Ativo Circulante"; "Passivo Circulante"]);
    ("liquidez_geral",
     ["Ativo Circulante"; "Ativo Não Circulante"; "Passivo Circulante";
      "Passivo Não Circulante"]) ].
Definition debt_reads : list (string * list string) :=
  [ ("divida_pl", ["2.01.04"; "2.02.01"; "2.03"]);
    ("divida_ativos", ["2.01.04"; "2.02.01"; "1"]);
    ("divida_ebit", ["2.01.04"; "2.02.01"; "3.05"]);
    ("pl_ativos", ["2.03"; "1"]);
    ("passivos_ativos", ["2.01"; "2.02"; "1"]) ].
Definition efficiency_reads : list (string * list string) :=
  [ ("margem_bruta", ["3.03"; "3.01"]);
    ("margem_liquida", ["3.11"; "3.01"]);
    ("margem_ebit", ["3.05"; "3.01"]) ].
Definition profitability_reads : list (string * list string) :=
  [ ("roic", ["3.05"; "3.08"; "2"]);
    ("roe", ["3.11"; "2.03"]);
    ("roa", ["3.11"; "1"]) ].

(** The same accounts without the equity row, and without the revenue
    row. *)
Definition acme_no_equity : LongFrame :=
  filter (fun r => CD_CONTA r <> "2.03") acme_full.
Definition acme_no_revenue : LongFrame :=
  filter (fun r => CD_CONTA r <> "3.01") acme_full.

(** A frame whose columns are as long as its index, and whose index is
    in ascending order without repetition. *)
Definition well_shaped (t : Frame) : Prop :=
  Forall (fun c => length c.2 = length (index t)) (columns t) /\
  StronglySorted key_le (index t) /\ NoDup (index t).

(** ** The reshapers *)

(** The three statements the processor reshapes, each with its
    reshaper. *)
Inductive statement : Type := BalanceSheet | IncomeStatement | CashFlow.

Definition process (st : statement) : FP.t -> Z -> Z -> res Frame :=
  match st with
  | BalanceSheet => FP.process_balance_sheet
  | IncomeStatement => FP.process_income_statement
  | CashFlow => FP.process_cash_flow
  end.

(** The files a reshaper loads, in loading order. *)
Definition files (st : statement) (s e : Z) : list string :=
  match st with
  | BalanceSheet => [bpa_file s e; bpp_file s e]
  | IncomeStatement => [dre_file s e]
  | CashFlow => [dfc_file s e]
  end.

(** The rows a reshaper hands to the pivot, when its files are there. *)
Definition kept_rows (st : statement) (self : FP.t) (s e : Z)
    : option LongFrame :=
  match st with
  | BalanceSheet =>
      match FP.data_dir self !! bpa_file s e, FP.data_dir self !! bpp_file s e with
      | Some bpa, Some bpp => Some (balance_sheet_rows self (bpa ++ bpp))
      | _, _ => None
      end
  | IncomeStatement =>
      income_statement_rows self <$> FP.data_dir self !! dre_file s e
  | CashFlow =>
      cash_flow_rows self <$> FP.data_dir self !! dfc_file s e
  end.

(** The columns the derived passivo reads, in reading order. *)
Definition passivo_read_order : list string :=
  ["Passivo Total"; "Patrimônio Líquido Consolidado"].

(** The labels a reshaped table has after those of the pivot. *)
Definition derived_labels (st : statement) : list string :=
  match st with
  | BalanceSheet => ["passivo"]
  | IncomeStatement | CashFlow => []
  end.

(** The descriptions each reshaper lists. *)
Definition accounts (st : statement) : list string :=
  match st with
  | BalanceSheet =>
      [ "Ativo Total"; "Passivo Total"; "Patrimônio Líquido Consolidado";
        "Ativo Circulante"; "Ativo Não Circulante";
        "Passivo Circulante"; "Passivo Não Circulante" ]
  | IncomeStatement =>
      [ "Receita de Venda de Bens e/ou Serviços";
        "Custo dos Bens e/ou Serviços Vendidos";
        "Lucro/Prejuízo Consolidado do Período" ]
  | CashFlow =>
      [ "Caixa Líquido Atividades Operacionais";
        "Caixa Líquido Atividades de Investimento";
        "Caixa Líquido Atividades de Financiamento";
        "Aumento (Redução) de Caixa e Equivalentes";
        "Saldo Inicial de Caixa e Equivalentes";
        "Saldo Final de Caixa e Equivalentes" ]
  end.

(** A final row of a company of the processor's list: what every
    reshaper requires of a row, whatever else it asks. *)
Definition relevant (self : FP.t) (r : FilingRecord) : Prop :=
  DENOM_CIA r ∈ FP.companies self /\ ORDEM_EXERC r = "ÚLTIMO".

(** The processor with every file reduced to its relevant rows. *)
Definition relevant_only (self : FP.t) : FP.t :=
  {| FP.data_dir := filter (relevant self) <$> FP.data_dir self;
     FP.companies := FP.companies self |}.

(** The four range files of ACME for 2023: no equity row in the balance
    sheet, and the revenue twice in the income statement. *)
Definition acme_statements : Directory :=
  {[ bpa_file 2023 2023 :=
       [ acme "1" "Ativo Total" (Float64.of_Z 400);
         acme "1.01" "Ativo Circulante" (Float64.of_Z 100) ];
     bpp_file 2023 2023 :=
       [ acme "2" "Passivo Total" (Float64.of_Z 400);
         acme "2.01" "Passivo Circulante" (Float64.of_Z 50) ];
     dre_file 2023 2023 :=
       [ acme "3.01" "Receita de Venda de Bens e/ou Serviços" (Float64.of_Z 1000);
         acme "3.01" "Receita de Venda de Bens e/ou Serviços" (Float64.of_Z 1001);
         acme "3.11" "Lucro/Prejuízo Consolidado do Período" (Float64.of_Z 50) ];
     dfc_file 2023 2023 :=
       [ acme "6.01" "Caixa Líquido Atividades Operacionais" (Float64.of_Z 80);
         acme "6.05.02" "Saldo Final de Caixa e Equivalentes" (Float64.of_Z 10) ] ]}.

Definition statements_processor : FP.t :=
  {| FP.data_dir := acme_statements; FP.companies := ["ACME S.A."] |}.

(** The assets file alone. *)
Definition assets_only_processor : FP.t :=
  {| FP.data_dir :=
       {[ bpa_file 2023 2023 := [ acme "1" "Ativo Total" (Float64.of_Z 400) ] ]};
     FP.companies := ["ACME S.A."] |}.

(** ** collector.py: the downloads and the extraction

    The collector with what its directories hold.  An archive is a
    well-formed ZIP file, given by its members, each a CSV file as
    [read_csv] parses it.  The archives of [download_dir], the statement
    files of [output_dir] and the companies.csv that [run] writes there
    are kept apart, also when the two directories are the same one
    (data/raw): a member of an archive is taken to be a statement file,
    named neither like an archive nor companies.csv.  A path is written
    as the name of the file within its directory. *)

Module CVMDataCollectorState.

Abbreviation Archive := (gmap string LongFrame).

Record t : Type := {
  download_dir : gmap string Archive;
  output_dir : Directory;
  companies_csv : option (list string)
}.

Definition BASE_URL : string :=
  "https://dados.cvm.gov.br/dados/CIA_ABERTA/DOC/DFP/DADOS/".

(** [download_dfp]; [wget url] is the archive the server sends for
    [url], saved under the name the URL ends in, and [None] when
    [wget.download] raises, which leaves no file of that name. *)
Definition download_dfp (wget : string -> option Archive) (self : t)
    (start_year end_year : Z) : t * list string :=
  foldl (fun '(self, downloaded_files) year =>
    let filename := "dfp_cia_aberta_" +:+ str year +:+ ".zip" in
    let filepath := filename in
    let self :=
      match download_dir self !! filepath with
      | Some _ =>
          {| download_dir := delete filepath (download_dir self);
             output_dir := output_dir self;
             companies_csv := companies_csv self |}
      | None => self
      end in
    let url := BASE_URL +:+ filename in
    match wget url with
    | Some archive =>
        ({| download_dir := <[filepath := archive]> (download_dir self);
            output_dir := output_dir self;
            companies_csv := companies_csv self |},
         downloaded_files ++ [filepath])
    | None => (self, downloaded_files)
    end) (self, []) (range start_year (end_year + 1)).

(** [extract_files]: [extractall] writes every member of the archive,
    over a file of the same name if there is one. *)
Definition extract_files (self : t) (start_year end_year : Z) : t :=
  foldl (fun self year =>
    let zip_path := "dfp_cia_aberta_" +:+ str year +:+ ".zip" in
    match download_dir self !! zip_path with
    | Some zf =>
        {| download_dir := download_dir self;
           output_dir := zf ∪ output_dir self;
           companies_csv := companies_csv self |}
    | None => self
    end) self (range start_year (end_year + 1)).

(** [run], from the parsed registry [info] on, as
    [download_company_info] is; it returns the collector as it leaves
    it together with the tables. *)
Definition run (info : list CompanyInfo) (wget : string -> option Archive)
    (self : t) (start_year end_year : Z) (statements : option (list string))
    : t * gmap string LongFrame :=
  let statements :=
    match statements with
    | None => ["BPA_con"; "BPP_con"; "DRE_con"; "DFC_MI_con"]
    | Some statements => statements
    end in
  let companies := download_company_info info in
  let self :=
    {| download_dir := download_dir self;
       output_dir := output_dir self;
       companies_csv := Some (DENOM_SOCIAL <$> companies) |} in
  let self := (download_dfp wget self start_year end_year).1 in
  let self := extract_files self start_year end_year in
  let data :=
    concatenate_statements (output_dir self) start_year end_year statements in
  (self, data).

End CVMDataCollectorState.

Module CS := CVMDataCollectorState.

(** ** The collector's files *)

(** The archive of a year, and the URL it is fetched from. *)
Definition zip_name (year : Z) : string :=
  "dfp_cia_aberta_" +:+ str year +:+ ".zip".

Definition zip_url (year : Z) : string := CS.BASE_URL +:+ zip_name year.

(** The statement kinds [run] concatenates when it is given none. *)
Definition default_statements : list string :=
  ["BPA_con"; "BPP_con"; "DRE_con"; "DFC_MI_con"].

(** The collector after the downloads and the extraction of [run]. *)
Definition collected (wget : string -> option CS.Archive) (self : CS.t)
    (s e : Z) : CS.t :=
  CS.extract_files (CS.download_dfp wget self s e).1 s e.

(** A server with the archives of 2021 and 2023, each with a balance
    sheet file of its year; 2022 fails. *)
Definition two_year_server (url : string) : option CS.Archive :=
  if decide (url = zip_url 2021) then
    Some {[ year_file "BPA_con" 2021 := [year_row 2021] ]}
  else if decide (url = zip_url 2023) then
    Some {[ year_file "BPA_con" 2023 := [year_row 2023] ]}
  else None.

(** A collector with a stale archive and a stale statement file of
    2022, and an archive of 2019. *)
Definition stale_collector : CS.t :=
  {| CS.download_dir :=
       {[ zip_name 2019 := {[ year_file "BPA_con" 2019 := [year_row 2019] ]};
          zip_name 2022 := {[ year_file "BPA_con" 2022 := [year_row 2020] ]} ]};
     CS.output_dir := {[ year_file "BPA_con" 2022 := [year_row 2022] ]};
     CS.companies_csv := None |}.

(** One round of the loop of [download_dfp], and one of the loop of
    [extract_files]. *)
Definition download_year (wget : string -> option CS.Archive)
    : CS.t * list string -> Z -> CS.t * list string :=
  fun '(self, downloaded_files) year =>
  let self :=
    match CS.download_dir self !! zip_name year with
    | Some _ =>
        {| CS.download_dir := delete (zip_name year) (CS.download_dir self);
           CS.output_dir := CS.output_dir self;
           CS.companies_csv := CS.companies_csv self |}
    | None => self
    end in
  match wget (zip_url year) with
  | Some archive =>
      ({| CS.download_dir := <[zip_name year := archive]> (CS.download_dir self);
          CS.output_dir := CS.output_dir self;
          CS.companies_csv := CS.companies_csv self |},
       downloaded_files ++ [zip_name year])
  | None => (self, downloaded_files)
  end.

Definition extract_year (self : CS.t) (year : Z) : CS.t :=
  match CS.download_dir self !! zip_name year with
  | Some zf =>
      {| CS.download_dir := CS.download_dir self;
         CS.output_dir := zf ∪ CS.output_dir self;
         CS.companies_csv := CS.companies_csv self |}
  | None => self
  end.

(** The years of a range the server has an archive for. *)
Definition served (wget : string -> option CS.Archive) (s e : Z) : list Z :=
  filter (fun y => is_Some (wget (zip_url y))) (range s (e + 1)).

(** ** Quotients by zero *)

(** What IEEE 754 gives for a quotient [q] of numerator [n] whose
    denominator is a zero: NaN when the numerator is a zero or NaN, and
    otherwise an infinity. *)
Definition quotient_by_zero (n q : float) : Prop :=
  if Float64.is_nan n || Float64.is_zero n then q = Float64.nan
  else Float64.is_inf q = true.

(** Row [i] of [t] holds such a quotient in column [ratio]. *)
Definition ratio_by_zero (t : Frame) (i : nat) (ratio : string) (n : float)
    : Prop :=
  exists q, cell t ratio i = Some q /\ quotient_by_zero n q.

(** ** One name on two registry rows *)

(** The bank once more, its first registration cancelled and in the
    sector 'Bancos', its second one active and in another sector. *)
Definition twin_registry : list CompanyInfo :=
  [ {| DENOM_SOCIAL := "BANCO X S.A."; SIT := "CANCELADA"; TP_MERC := "BOLSA";
       SETOR_ATIV := "Bancos" |};
    {| DENOM_SOCIAL := "BANCO X S.A."; SIT := "ATIVO"; TP_MERC := "BOLSA";
       SETOR_ATIV := "Emp. Adm. Part. - Sem Setor Principal" |} ].

Definition twin_processor : FP.t :=
  {| FP.data_dir := mixed_dir; FP.companies := run_companies twin_registry |}.

(** The liquidity accounts of ACME without 'Estoques', and with a row
    whose description is the name of an index level. *)
Definition acme_index_named : LongFrame :=
  acme_no_estoques ++ [ acme "1.01" "DT_REFER" (Float64.of_Z 1) ].

(** * Properties *)

(** ** float64 arithmetic *)

Lemma sub_nan_r x : Float64.sub x Float64.nan = Float64.nan.
Proof. by destruct x. Qed.

Lemma sub_nan_l x : Float64.sub Float64.nan x = Float64.nan.
Proof. done. Qed.

Lemma div_nan_l x : Float64.div Float64.nan x = Float64.nan.
Proof. done. Qed.

(** Division by a zero: what IEEE 754, and numpy with its warnings
    silenced, returns. *)
Lemma div_zero_r x s :
  Float64.div x (S754_zero s) =
    match x with
    | S754_nan | S754_zero _ => Float64.nan
    | S754_infinity sx | S754_finite sx _ _ => S754_infinity (xorb sx s)
    end.
Proof. by destruct x. Qed.

(** ** The orders *)

Section cmp_order.
Context {A : Type} (cmp : A -> A -> comparison) `{!CmpOrder cmp}.

Lemma cmp_refl a : cmp a a = Eq.
Proof. by apply cmp_eq_iff. Qed.

Global Instance cmp_le_total : Total (cmp_le cmp).
Proof.
  intros a b. unfold cmp_le. rewrite (cmp_opp (cmp:=cmp) a b).
  destruct (cmp a b); simpl; [left|left|right]; congruence.
Qed.

Global Instance cmp_le_antisym : AntiSymm (=) (cmp_le cmp).
Proof.
  intros a b. unfold cmp_le. rewrite (cmp_opp (cmp:=cmp) a b).
  destruct (cmp a b) eqn:E; simpl; intros H1 H2; try congruence.
  by apply cmp_eq_iff.
Qed.

Global Instance cmp_le_trans : Transitive (cmp_le cmp).
Proof.
  intros a b c. unfold cmp_le. intros Hab Hbc Hac.
  destruct (cmp a b) eqn:E1; [| |done].
  - apply cmp_eq_iff in E1. by subst b.
  - destruct (cmp b c) eqn:E2; [| |done].
    + apply cmp_eq_iff in E2. subst c. by rewrite E1 in Hac.
    + rewrite (cmp_lt_trans _ _ _ E1 E2) in Hac. done.
Qed.

End cmp_order.

Global Instance string_cmp_order : CmpOrder String.compare.
Proof.
  split.
  - intros a b. split; [apply String.compare_eq_iff|].
    intros ->. by apply OrderedTypeEx.String_as_OT.cmp_eq.
  - intros a b. apply String.compare_antisym.
  - intros a b c Hab Hbc.
    apply OrderedTypeEx.String_as_OT.cmp_lt in Hab, Hbc.
    apply OrderedTypeEx.String_as_OT.cmp_lt.
    eapply OrderedTypeEx.String_as_OT.lt_trans; eauto.
Qed.

Global Instance lex_cmp_order {A B} (ca : A -> A -> comparison)
    (cb : B -> B -> comparison) `{!CmpOrder ca, !CmpOrder cb} :
  CmpOrder (lex_compare ca cb).
Proof.
  split.
  - intros [a1 b1] [a2 b2]. unfold lex_compare. simpl. split.
    + destruct (ca a1 a2) eqn:E; try done.
      intros H. apply cmp_eq_iff in E, H. by subst.
    + intros [= -> ->]. by rewrite (cmp_refl ca), (cmp_refl cb).
  - intros [a1 b1] [a2 b2]. unfold lex_compare. simpl.
    rewrite (cmp_opp (cmp:=ca) a1 a2).
    destruct (ca a1 a2); simpl; try done. apply cmp_opp.
  - intros [a1 b1] [a2 b2] [a3 b3]. unfold lex_compare. simpl.
    destruct (ca a1 a2) eqn:E1; try done;
      destruct (ca a2 a3) eqn:E2; try done; intros H1 H2.
    + apply cmp_eq_iff in E1, E2. subst. rewrite (cmp_refl ca).
      exact (cmp_lt_trans _ _ _ H1 H2).
    + apply cmp_eq_iff in E1. subst. by rewrite E2.
    + apply cmp_eq_iff in E2. subst. by rewrite E1.
    + by rewrite (cmp_lt_trans _ _ _ E1 E2).
Qed.

Global Instance str_le_total : Total str_le := _.
Global Instance str_le_trans : Transitive str_le := _.
Global Instance str_le_antisym : AntiSymm (=) str_le := _.
Global Instance key_le_total : Total key_le := _.
Global Instance key_le_trans : Transitive key_le := _.
Global Instance key_le_antisym : AntiSymm (=) key_le := _.

(** Sorting the distinct elements of a list does not depend on the order
    of the list. *)
Lemma sort_dups_perm {A} `{EqDecision A} (R : relation A)
    `{!RelDecision R, !Total R, !Transitive R, !AntiSymm (=) R} (l l' : list A) :
  l ≡ₚ l' ->
  merge_sort R (remove_dups l) = merge_sort R (remove_dups l').
Proof.
  intros Hp. apply (StronglySorted_unique R).
  - by apply StronglySorted_merge_sort.
  - by apply StronglySorted_merge_sort.
  - rewrite !merge_sort_Permutation.
    apply NoDup_Permutation; try apply NoDup_remove_dups.
    intros x. rewrite !elem_of_remove_dups. by rewrite Hp.
Qed.

Lemma elem_of_sort_dups {A} `{EqDecision A} (R : relation A)
    `{!RelDecision R} (l : list A) x :
  x ∈ merge_sort R (remove_dups l) <-> x ∈ l.
Proof. by rewrite merge_sort_Permutation, elem_of_remove_dups. Qed.

Lemma NoDup_sort_dups {A} `{EqDecision A} (R : relation A)
    `{!RelDecision R} (l : list A) :
  NoDup (merge_sort R (remove_dups l)).
Proof. rewrite merge_sort_Permutation. apply NoDup_remove_dups. Qed.

(** ** The result monad *)

Lemma bind_ok {A B} (m : res A) (k : A -> res B) b :
  bind m k = Ok b -> exists a, m = Ok a /\ k a = Ok b.
Proof. destruct m; simpl; [eauto|done]. Qed.

Lemma not_ok_raise {A} (m : res A) :
  (forall a, m <> Ok a) -> exists e, m = Raise e.
Proof. destruct m as [a|e]; [intros H; by destruct (H a)|eauto]. Qed.

(** ** Columns *)

Lemma lookup_col_set_col c s cols :
  lookup_col c (set_col c s cols) = Some s.
Proof.
  induction cols as [|[n s0] cols IH]; simpl.
  - by rewrite decide_True.
  - destruct (decide (n = c)); simpl.
    + by rewrite decide_True.
    + by rewrite decide_False.
Qed.

Lemma lookup_col_set_col_ne c c' s cols :
  c <> c' -> lookup_col c' (set_col c s cols) = lookup_col c' cols.
Proof.
  intros Hne. induction cols as [|[n s0] cols IH]; simpl.
  - by rewrite decide_False.
  - destruct (decide (n = c)) as [->|]; simpl.
    + by rewrite !decide_False.
    + destruct (decide (n = c')); done.
Qed.

Lemma lookup_col_cons c n s cols :
  lookup_col c ((n, s) :: cols) =
    if decide (n = c) then Some s else lookup_col c cols.
Proof. done. Qed.

Lemma lookup_col_labels (f : string -> Series) c labels :
  lookup_col c ((fun c => (c, f c)) <$> labels) =
    if decide (c ∈ labels) then Some (f c) else None.
Proof.
  induction labels as [|n labels IH].
  - by rewrite decide_False by apply not_elem_of_nil.
  - rewrite fmap_cons, lookup_col_cons.
    destruct (decide (n = c)) as [->|Hne].
    + by rewrite decide_True by left.
    + rewrite IH. destruct (decide (c ∈ labels)).
      * by rewrite decide_True by by right.
      * rewrite decide_False; [done|]. rewrite elem_of_cons. naive_solver.
Qed.

Lemma getitem_ok x c s :
  getitem x c = Ok s <-> lookup_col c (columns x) = Some s.
Proof. unfold getitem. destruct (lookup_col c (columns x)); naive_solver. Qed.

Lemma series_binop_ok op a b s :
  series_binop op a b = Ok s ->
  exists x y, a = Ok x /\ b = Ok y /\ s = zip_with op x y.
Proof.
  unfold series_binop. intros H.
  apply bind_ok in H as (x & -> & H). apply bind_ok in H as (y & -> & H).
  injection H as <-. eauto.
Qed.

Lemma series_scale_ok a n s :
  series_scale a n = Ok s ->
  exists x, a = Ok x /\ s = (fun v => Float64.mul v (Float64.of_Z n)) <$> x.
Proof.
  unfold series_scale. intros H.
  apply bind_ok in H as (x & -> & H). injection H as <-. eauto.
Qed.

Lemma assign_ok name f x x' :
  assign name f x = Ok x' ->
  exists s, f x = Ok s /\ index x' = index x /\
            columns x' = set_col name s (columns x).
Proof.
  unfold assign. intros H. apply bind_ok in H as (s & Hs & H).
  injection H as <-. eauto.
Qed.

Lemma reset_index_ok x x' :
  reset_index x = Ok x' ->
  x' = x /\ ("DENOM_CIA" ∉ (columns x).*1) /\ ("DT_REFER" ∉ (columns x).*1).
Proof.
  unfold reset_index. repeat case_decide; try done. by intros [= <-].
Qed.

Lemma select_cols_ok names x cols :
  select_cols names x = Ok cols ->
  forall c, c ∈ names -> lookup_col c cols = lookup_col c (columns x).
Proof.
  revert cols. induction names as [|n names IH]; simpl; intros cols H c Hc.
  - by apply elem_of_nil in Hc.
  - apply bind_ok in H as (s & Hs & H). apply bind_ok in H as (rest & Hr & H).
    injection H as <-. simpl. apply getitem_ok in Hs.
    destruct (decide (n = c)) as [->|Hne]; [done|].
    apply (IH _ Hr). apply elem_of_cons in Hc as [->|]; done.
Qed.

Lemma select_ok names x t :
  select names x = Ok t ->
  index t = index x /\
  forall c, c ∈ names -> lookup_col c (columns t) = lookup_col c (columns x).
Proof.
  unfold select. intros H. apply bind_ok in H as (cols & Hc & H).
  injection H as <-. simpl. split; [done|]. by apply select_cols_ok.
Qed.

(** ** The pivot *)

Lemma pivot_ok col df x :
  pivot col df = Ok x ->
  NoDup (entries col df) /\
  index x = merge_sort key_le (remove_dups (key <$> df)) /\
  columns x =
    (fun c => (c, (fun k => pivot_cell col df k c) <$> index x))
      <$> merge_sort str_le (remove_dups (col <$> df)).
Proof. unfold pivot. case_decide; [|done]. by intros [= <-]. Qed.

Lemma pivot_NoDup col df :
  NoDup (entries col df) -> exists x, pivot col df = Ok x.
Proof. intros H. unfold pivot. rewrite decide_True by done. eauto. Qed.

Lemma pivot_duplicate col df :
  ~ NoDup (entries col df) ->
  pivot col df =
    Raise (ValueError "Index contains duplicate entries, cannot reshape").
Proof. intros H. unfold pivot. by rewrite decide_False. Qed.

Lemma pivot_index col df x k :
  pivot col df = Ok x -> k ∈ index x <-> exists r, r ∈ df /\ key r = k.
Proof.
  intros (_ & -> & _)%pivot_ok. rewrite elem_of_sort_dups, list_elem_of_fmap.
  naive_solver.
Qed.

Lemma pivot_index_NoDup col df x : pivot col df = Ok x -> NoDup (index x).
Proof. intros (_ & -> & _)%pivot_ok. apply NoDup_sort_dups. Qed.

Lemma pivot_index_sorted col df x :
  pivot col df = Ok x -> StronglySorted key_le (index x).
Proof.
  intros (_ & -> & _)%pivot_ok. apply StronglySorted_merge_sort; apply _.
Qed.

Lemma pivot_lookup_col col df x c :
  pivot col df = Ok x ->
  lookup_col c (columns x) =
    if decide (c ∈ col <$> df)
    then Some ((fun k => pivot_cell col df k c) <$> index x) else None.
Proof.
  intros (_ & _ & ->)%pivot_ok.
  rewrite (lookup_col_labels (fun c => (fun k => pivot_cell col df k c) <$> index x)).
  destruct (decide (c ∈ col <$> df)) as [Hc|Hc].
  - by rewrite decide_True by by apply elem_of_sort_dups.
  - by rewrite decide_False by by rewrite elem_of_sort_dups.
Qed.

Lemma pivot_labels col df x c :
  pivot col df = Ok x -> c ∈ (columns x).*1 -> c ∈ col <$> df.
Proof.
  intros (_ & _ & ->)%pivot_ok. rewrite <- list_fmap_compose.
  intros (c' & -> & Hc)%list_elem_of_fmap. simpl.
  by apply elem_of_sort_dups in Hc.
Qed.

Lemma pivot_cell_in col df r :
  NoDup (entries col df) -> r ∈ df ->
  pivot_cell col df (key r) (col r) = VL_CONTA r.
Proof.
  intros Hnd Hr. unfold pivot_cell.
  destruct (list_find _ df) as [[i r']|] eqn:Hf.
  - apply list_find_Some in Hf as (Hi & [Hk Hc] & _).
    apply list_elem_of_lookup in Hr as [j Hj].
    assert (i = j) as ->; [|congruence].
    apply (NoDup_lookup _ _ _ (key r, col r) Hnd); unfold entries;
      rewrite list_lookup_fmap; [rewrite Hi|rewrite Hj]; simpl; congruence.
  - apply list_find_None in Hf. rewrite Forall_forall in Hf.
    by destruct (Hf r Hr).
Qed.

Lemma pivot_cell_absent col df k c :
  (forall r, r ∈ df -> key r = k -> col r <> c) ->
  pivot_cell col df k c = Float64.nan.
Proof.
  intros H. unfold pivot_cell.
  destruct (list_find _ df) as [[i r']|] eqn:Hf; [|done].
  apply list_find_Some in Hf as (Hi & [Hk Hc] & _).
  destruct (H r'); [by eapply list_elem_of_lookup_2|done..].
Qed.

Lemma entries_perm col df df' : df ≡ₚ df' -> entries col df ≡ₚ entries col df'.
Proof. intros H. unfold entries. by rewrite H. Qed.

Lemma pivot_cell_perm col df df' k c :
  NoDup (entries col df) -> df ≡ₚ df' ->
  pivot_cell col df k c = pivot_cell col df' k c.
Proof.
  intros Hnd Hp.
  assert (NoDup (entries col df')) as Hnd' by by rewrite <- (entries_perm col _ _ Hp).
  destruct (decide (Exists (fun r => key r = k /\ col r = c) df)) as [He|He].
  - apply Exists_exists in He as (r & Hr & <- & <-).
    rewrite !pivot_cell_in; try done. by rewrite <- Hp.
  - rewrite !pivot_cell_absent; try done.
    + intros r Hr Hk Hc. apply He, Exists_exists. exists r. by rewrite Hp.
    + intros r Hr Hk Hc. apply He, Exists_exists. by exists r.
Qed.

(** The pivot is a function of the set of rows. *)
Lemma pivot_perm col df df' : df ≡ₚ df' -> pivot col df = pivot col df'.
Proof.
  intros Hp. unfold pivot.
  destruct (decide (NoDup ((fun r => (key r, col r)) <$> df))) as [Hnd|Hnd].
  - rewrite decide_True by by rewrite <- Hp.
    rewrite (sort_dups_perm key_le (key <$> df) (key <$> df')) by by rewrite Hp.
    rewrite (sort_dups_perm str_le (col <$> df) (col <$> df')) by by rewrite Hp.
    do 2 f_equal. apply list_fmap_ext. intros _ c _. f_equal.
    apply list_fmap_ext. intros _ k' _. by apply pivot_cell_perm.
  - rewrite decide_False; [done|]. by rewrite <- Hp.
Qed.

(** ** The company universe *)

Global Instance name_le_total : Total name_le.
Proof. intros a b. apply (total str_le). Qed.

Global Instance name_le_trans : Transitive name_le.
Proof. intros a b c. apply (transitivity (R:=str_le)). Qed.

Lemma download_company_info_perm info :
  download_company_info info ≡ₚ filter eligible info.
Proof. unfold download_company_info. by rewrite merge_sort_Permutation. Qed.

(** C5. The universe filter keeps exactly the registry rows that are
    active, listed on the exchange and outside the three excluded
    sectors (each as often as the registry has it), and returns them in
    ascending order of company name. *)
Theorem download_company_info_correct (info : list CompanyInfo) :
  (forall c, c ∈ download_company_info info <->
     c ∈ info /\ SIT c = "ATIVO" /\ TP_MERC c = "BOLSA" /\
     SETOR_ATIV c ∉ ["Bancos"; "Intermediação Financeira"; "Seguradoras e Corretoras"]) /\
  download_company_info info ≡ₚ filter eligible info /\
  StronglySorted str_le (DENOM_SOCIAL <$> download_company_info info).
Proof.
  split_and!.
  - intros c. rewrite download_company_info_perm, list_elem_of_filter.
    unfold eligible. tauto.
  - apply download_company_info_perm.
  - assert (StronglySorted name_le (download_company_info info)) as Hs.
    { unfold download_company_info. apply StronglySorted_merge_sort; apply _. }
    induction Hs as [|c l Hs IH Hc]; simpl; constructor; [done|].
    apply Forall_fmap. eapply Forall_impl; [exact Hc|]. by intros c'.
Qed.

Lemma run_companies_eligible info name :
  name ∈ run_companies info <->
  exists c, c ∈ info /\ DENOM_SOCIAL c = name /\ eligible c.
Proof.
  unfold run_companies. rewrite list_elem_of_fmap. split.
  - intros (c & -> & Hc). rewrite download_company_info_perm in Hc.
    apply list_elem_of_filter in Hc. naive_solver.
  - intros (c & Hc & <- & He). exists c. split; [done|].
    rewrite download_company_info_perm. by apply list_elem_of_filter.
Qed.

(** ** The statement loader *)

Lemma frames_loop (output_dir : Directory) stmt_type years acc :
  foldl (fun frames year =>
    match output_dir !! year_file stmt_type year with
    | Some df => frames ++ [df]
    | None => frames
    end) acc years
  = acc ++ omap (fun year => output_dir !! year_file stmt_type year) years.
Proof.
  revert acc. induction years as [|y years IH]; intros acc; simpl.
  - by rewrite app_nil_r.
  - rewrite IH. destruct (output_dir !! year_file stmt_type y); [|done].
    by rewrite <- app_assoc.
Qed.

Lemma statements_loop (output_dir : Directory) s e types kind
    (acc : gmap string LongFrame) :
  foldl (fun result stmt_type =>
    match existing_frames output_dir stmt_type s e with
    | [] => result
    | _ :: _ => <[stmt_type := concat (existing_frames output_dir stmt_type s e)]> result
    end) acc types !! kind
  = match existing_frames output_dir kind s e with
    | [] => acc !! kind
    | _ :: _ =>
        if decide (kind ∈ types)
        then Some (concat (existing_frames output_dir kind s e))
        else acc !! kind
    end.
Proof.
  revert acc. induction types as [|ty types IH]; intros acc; cbn [foldl].
  - rewrite decide_False by apply not_elem_of_nil.
    by destruct (existing_frames output_dir kind s e).
  - rewrite IH. clear IH.
    destruct (existing_frames output_dir kind s e) as [|f fs] eqn:Hk.
    + destruct (existing_frames output_dir ty s e) eqn:Ht; [done|].
      apply lookup_insert_ne. intros ->. congruence.
    + destruct (decide (kind ∈ types)) as [Hin|Hin].
      * by rewrite decide_True by by right.
      * destruct (decide (ty = kind)) as [->|Hne].
        -- rewrite decide_True by left. rewrite Hk. by rewrite lookup_insert_eq.
        -- rewrite decide_False by (rewrite elem_of_cons; naive_solver).
           destruct (existing_frames output_dir ty s e); [done|].
           by apply lookup_insert_ne.
Qed.

Lemma concatenate_statements_unfold output_dir s e types :
  concatenate_statements output_dir s e types =
  foldl (fun result stmt_type =>
    match existing_frames output_dir stmt_type s e with
    | [] => result
    | _ :: _ => <[stmt_type := concat (existing_frames output_dir stmt_type s e)]> result
    end) ∅ types.
Proof.
  unfold concatenate_statements. generalize (∅ : gmap string LongFrame).
  induction types as [|ty types IH]; intros acc; cbn [foldl]; [done|].
  rewrite <- IH. f_equal.
  pose proof (frames_loop output_dir ty (range s (e + 1)) []) as H.
  unfold year_file in H. unfold existing_frames, year_file. by rewrite H.
Qed.

(** C6, as the code has it.  For a requested kind of which at least one
    per-year file exists in [start, end], the result maps the kind to
    the concatenation, in year order, of exactly the files that exist;
    a kind none of whose files exists, like a kind that was not
    requested, gets no entry at all.  No case raises. *)
Theorem concatenate_statements_lookup (output_dir : Directory)
    (start_year end_year : Z) (statement_types : list string) (kind : string) :
  concatenate_statements output_dir start_year end_year statement_types !! kind =
    match existing_frames output_dir kind start_year end_year with
    | [] => None
    | _ :: _ =>
        if decide (kind ∈ statement_types)
        then Some (concat (existing_frames output_dir kind start_year end_year))
        else None
    end.
Proof.
  rewrite concatenate_statements_unfold, statements_loop.
  by rewrite lookup_empty.
Qed.

(** ** The ratio engine *)

Ltac inv_res :=
  repeat match goal with
  | H : bind _ _ = Ok _ |- _ =>
      let H' := fresh H in apply bind_ok in H as (? & H' & H)
  | H : assign _ _ _ = Ok _ |- _ =>
      let Hi := fresh "Hidx" in let Hc := fresh "Hcols" in
      apply assign_ok in H as (? & H & Hi & Hc); cbv beta in H
  | H : series_binop _ _ _ = Ok _ |- _ =>
      let H1 := fresh H in let H2 := fresh H in
      apply series_binop_ok in H as (? & ? & H1 & H2 & ->)
  | H : series_scale _ _ = Ok _ |- _ =>
      let H1 := fresh H in
      apply series_scale_ok in H as (? & H1 & ->)
  | H : getitem _ _ = Ok _ |- _ => apply getitem_ok in H
  | H : reset_index _ = Ok _ |- _ =>
      let H1 := fresh H in let H2 := fresh H in
      apply reset_index_ok in H as (-> & H1 & H2)
  | H : select _ _ = Ok _ |- _ =>
      let Hi := fresh "Hidx" in let Hs := fresh "Hsel" in
      apply select_ok in H as (Hi & Hs)
  | H : df_dfp _ = Ok _ |- _ =>
      unfold df_dfp in H
  | H : Ok _ = Ok _ |- _ => injection H as H; subst
  end.

Lemma bind_ok_eq {A B} (m : res A) (k : A -> res B) a :
  m = Ok a -> bind m k = k a.
Proof. by intros ->. Qed.

Lemma assign_intro name f x s :
  f x = Ok s ->
  assign name f x = Ok {| index := index x; columns := set_col name s (columns x) |}.
Proof. unfold assign. by intros ->. Qed.

Lemma series_binop_intro op a b x y :
  a = Ok x -> b = Ok y -> series_binop op a b = Ok (zip_with op x y).
Proof. by intros -> ->. Qed.

Lemma series_scale_intro a n x :
  a = Ok x ->
  series_scale a n = Ok ((fun v => Float64.mul v (Float64.of_Z n)) <$> x).
Proof. by intros ->. Qed.

Lemma reset_index_intro x :
  "DENOM_CIA" ∉ (columns x).*1 -> "DT_REFER" ∉ (columns x).*1 ->
  reset_index x = Ok x.
Proof. intros H1 H2. unfold reset_index. by rewrite !decide_False. Qed.

(** Run the next step of a chain whose operands are all there. *)
Ltac col_lookup :=
  apply getitem_ok; cbn [columns];
  rewrite ?lookup_col_set_col_ne by done;
  first [eassumption | apply lookup_col_set_col].

Ltac series_expr :=
  repeat first [eapply series_binop_intro | eapply series_scale_intro];
  col_lookup.

Ltac step_assign :=
  erewrite (bind_ok_eq (assign _ _ _));
  [|apply assign_intro; cbv beta; series_expr].

Ltac step_select :=
  unfold select; cbn [select_cols];
  repeat (erewrite (bind_ok_eq (getitem _ _)); [|col_lookup]);
  cbn [bind].

(** Bring every column lookup back to the pivoted frame. *)
Ltac norm_cols :=
  repeat match goal with
  | Hc : columns ?x = set_col _ _ _ |- _ => rewrite Hc in *; clear Hc
  end;
  repeat match goal with
  | H : lookup_col _ (set_col _ _ _) = _ |- _ =>
      rewrite lookup_col_set_col_ne in H by done
  end;
  simplify_eq.

Ltac sel_col Hsel :=
  rewrite Hsel by (rewrite !elem_of_cons; tauto);
  rewrite ?lookup_col_set_col_ne by done;
  apply lookup_col_set_col.

Lemma calculate_liquidity_inv self t :
  calculate_liquidity self = Ok t ->
  exists df x cx pc ac es da anc pnc,
    _df_dfp self = Some df /\
    pivot DS_CONTA (liquidity_rows df) = Ok x /\
    index t = index x /\
    lookup_col "Caixa e Equivalentes de Caixa" (columns x) = Some cx /\
    lookup_col "Passivo Circulante" (columns x) = Some pc /\
    lookup_col "Ativo Circulante" (columns x) = Some ac /\
    lookup_col "Estoques" (columns x) = Some es /\
    lookup_col "Despesas Antecipadas" (columns x) = Some da /\
    lookup_col "Ativo Não Circulante" (columns x) = Some anc /\
    lookup_col "Passivo Não Circulante" (columns x) = Some pnc /\
    lookup_col "liquidez_imediata" (columns t) = Some (zip_with Float64.div cx pc) /\
    lookup_col "liquidez_seca" (columns t) =
      Some (zip_with Float64.div
              (zip_with Float64.sub (zip_with Float64.sub ac es) da) pc) /\
    lookup_col "liquidez_corrente" (columns t) = Some (zip_with Float64.div ac pc) /\
    lookup_col "liquidez_geral" (columns t) =
      Some (zip_with Float64.div (zip_with Float64.add ac anc)
              (zip_with Float64.add pc pnc)).
Proof.
  unfold calculate_liquidity. intros H. inv_res. norm_cols.
  destruct (_df_dfp self) as [df|]; [|done]. inv_res.
  do 9 eexists. split_and!; try done.
  - congruence.
  - sel_col Hsel.
  - sel_col Hsel.
  - sel_col Hsel.
  - sel_col Hsel.
Qed.

Lemma pivot_column_cell col df x c s i k :
  pivot col df = Ok x ->
  lookup_col c (columns x) = Some s ->
  index x !! i = Some k ->
  s !! i = Some (pivot_cell col df k c).
Proof.
  intros Hp Hs Hi. rewrite (pivot_lookup_col _ _ _ _ Hp) in Hs.
  case_decide; [|done]. injection Hs as <-.
  by rewrite list_lookup_fmap, Hi.
Qed.

Lemma pivot_column_present col df x c s :
  pivot col df = Ok x -> lookup_col c (columns x) = Some s -> c ∈ col <$> df.
Proof.
  intros Hp Hs. rewrite (pivot_lookup_col _ _ _ _ Hp) in Hs. by case_decide.
Qed.

(** What a row of the liquidity table holds, from the rows of the input:
    [pivot_cell] is the value the (period, company) has for the account,
    NaN when it has none. *)
Lemma liquidity_cells self df t i k :
  _df_dfp self = Some df ->
  calculate_liquidity self = Ok t ->
  index t !! i = Some k ->
  let v := pivot_cell DS_CONTA (liquidity_rows df) k in
  cell t "liquidez_corrente" i =
    Some (Float64.div (v "Ativo Circulante") (v "Passivo Circulante")) /\
  cell t "liquidez_seca" i =
    Some (Float64.div
            (Float64.sub (Float64.sub (v "Ativo Circulante") (v "Estoques"))
               (v "Despesas Antecipadas"))
            (v "Passivo Circulante")).
Proof.
  intros Hdf Ht Hi.
  apply calculate_liquidity_inv in Ht
    as (df' & x & cx & pc & ac & es & da & anc & pnc & Hdf' & Hp & Hidx
        & Hcx & Hpc & Hac & Hes & Hda & Hanc & Hpnc & _ & Hseca & Hcor & _).
  assert (df' = df) as -> by congruence. rewrite Hidx in Hi.
  pose proof (pivot_column_cell _ _ _ _ _ _ _ Hp Hpc Hi) as Epc.
  pose proof (pivot_column_cell _ _ _ _ _ _ _ Hp Hac Hi) as Eac.
  pose proof (pivot_column_cell _ _ _ _ _ _ _ Hp Hes Hi) as Ees.
  pose proof (pivot_column_cell _ _ _ _ _ _ _ Hp Hda Hi) as Eda.
  unfold cell. rewrite Hcor, Hseca. simpl.
  rewrite !lookup_zip_with, Eac, Epc, Ees, Eda. done.
Qed.

(** *** The round-trip scenario *)

(** C1, as the spec states it, fails: on the two rows alone the pivoted
    frame has no column 'Caixa e Equivalentes de Caixa', the first column
    the first ratio reads, and the computation raises KeyError instead of
    returning a liquidity table. *)
Lemma acme_two_rows_raise :
  calculate_liquidity (load_data init acme_two [] ["ACME S.A."])
    = Raise (KeyError "Caixa e Equivalentes de Caixa") /\
  ~ exists t i,
      calculate_liquidity (load_data init acme_two [] ["ACME S.A."]) = Ok t /\
      index t !! i = Some ("2023-12-31", "ACME S.A.") /\
      cell t "liquidez_corrente" i = Some (Float64.of_Z 2).
Proof.
  assert (calculate_liquidity (load_data init acme_two [] ["ACME S.A."])
            = Raise (KeyError "Caixa e Equivalentes de Caixa")) as H
    by (vm_compute; reflexivity).
  split; [exact H|]. intros (t & i & Ht & _). congruence.
Qed.

(** C1, amended.  When the input also holds a row for each of the five
    other accounts the liquidity ratios read, whatever their values, the
    liquidity table has the single row (2023-12-31, ACME S.A.) and its
    liquidez_corrente is 2.0. *)
Theorem acme_liquidez_corrente (cx es da anc pnc : float) :
  exists t,
    calculate_liquidity
      (load_data init (acme_two ++ acme_others cx es da anc pnc) []
         ["ACME S.A."]) = Ok t /\
    index t = [("2023-12-31", "ACME S.A.")] /\
    cell t "liquidez_corrente" 0 = Some (Float64.of_Z 2).
Proof.
  eexists. split.
  { cbv -[Float64.div Float64.sub Float64.add Float64.mul Float64.of_Z].
    reflexivity. }
  split; [reflexivity|]. vm_compute. reflexivity.
Qed.

Lemma pivot_column_Some col df x c :
  pivot col df = Ok x -> c ∈ col <$> df ->
  exists s, lookup_col c (columns x) = Some s.
Proof.
  intros Hp Hc. rewrite (pivot_lookup_col _ _ _ _ Hp).
  rewrite decide_True by done. eauto.
Qed.

(** Whether [calculate_liquidity] returns depends on which rows the input
    has, never on their values. *)
Lemma calculate_liquidity_ok self df :
  _df_dfp self = Some df ->
  NoDup (entries DS_CONTA (liquidity_rows df)) ->
  (forall c, c ∈ liquidity_labels -> c ∈ DS_CONTA <$> liquidity_rows df) ->
  "DENOM_CIA" ∉ DS_CONTA <$> liquidity_rows df ->
  "DT_REFER" ∉ DS_CONTA <$> liquidity_rows df ->
  exists t, calculate_liquidity self = Ok t.
Proof.
  intros Hdf Hnd Hall Hr1 Hr2.
  destruct (pivot_NoDup _ _ Hnd) as [x Hp].
  assert (forall c, c ∈ liquidity_labels -> exists s, lookup_col c (columns x) = Some s)
    as Hcols by (intros c Hc; eapply pivot_column_Some; eauto).
  unfold liquidity_labels in Hcols.
  destruct (Hcols "Caixa e Equivalentes de Caixa") as [cx Hcx]; [set_solver|].
  destruct (Hcols "Passivo Circulante") as [pc Hpc]; [set_solver|].
  destruct (Hcols "Ativo Circulante") as [ac Hac]; [set_solver|].
  destruct (Hcols "Estoques") as [es Hes]; [set_solver|].
  destruct (Hcols "Despesas Antecipadas") as [da Hda]; [set_solver|].
  destruct (Hcols "Ativo Não Circulante") as [anc Hanc]; [set_solver|].
  destruct (Hcols "Passivo Não Circulante") as [pnc Hpnc]; [set_solver|].
  unfold calculate_liquidity, df_dfp. rewrite Hdf. cbn [bind].
  fold (liquidity_rows df). rewrite Hp. cbn [bind].
  rewrite reset_index_intro by (intros ?%(pivot_labels _ _ _ _ Hp); done).
  cbn [bind]. destruct x as [idx cols]. cbn [columns] in *.
  do 4 (step_assign; cbv beta). step_select. eauto.
Qed.

Ltac solve_dec := apply (bool_decide_unpack _); vm_compute; exact I.

Lemma index_lookup_key col df x r :
  pivot col df = Ok x -> r ∈ df -> exists i, index x !! i = Some (key r).
Proof.
  intros Hp Hr. apply list_elem_of_lookup, (pivot_index _ _ _ _ Hp). eauto.
Qed.

(** *** Zero denominators *)

(** C2, as the spec states it, fails: with Passivo Circulante = 0 and
    Ativo Circulante = 100 the liquidity table is returned and its
    liquidez_corrente is plus infinity, not NaN. *)
Lemma zero_denominator_gives_infinity :
  exists t,
    calculate_liquidity (load_data init acme_zero_pc [] ["ACME S.A."]) = Ok t /\
    index t = [("2023-12-31", "ACME S.A.")] /\
    cell t "liquidez_corrente" 0 = Some (S754_infinity false) /\
    cell t "liquidez_corrente" 0 <> Some Float64.nan.
Proof.
  eexists. split; [vm_compute; reflexivity|].
  split; [reflexivity|]. split; [vm_compute; reflexivity|]. vm_compute. discriminate.
Qed.

(** *** The other ratio families *)

Lemma final_rows_code codes df c :
  c ∈ CD_CONTA <$> final_rows codes df -> c ∈ codes.
Proof.
  intros (r & -> & Hr)%list_elem_of_fmap.
  apply list_elem_of_filter in Hr. tauto.
Qed.

Ltac reads_cols :=
  let c := fresh "c" in let Hc := fresh "Hc" in
  intros c Hc; rewrite !elem_of_cons in Hc; rewrite elem_of_nil in Hc;
  destruct_or!; subst; try done; eauto.

Lemma calculate_liquidity_reads self t :
  calculate_liquidity self = Ok t ->
  exists df x,
    _df_dfp self = Some df /\ pivot DS_CONTA (liquidity_rows df) = Ok x /\
    index t = index x /\
    forall c, c ∈ liquidity_labels -> is_Some (lookup_col c (columns x)).
Proof.
  intros (df & x & ? & ? & ? & ? & ? & ? & ? & Hdf & Hp & Hi & H)%calculate_liquidity_inv.
  exists df, x. split_and!; try done. unfold liquidity_labels.
  destruct_and!. reads_cols.
Qed.

Lemma calculate_debt_reads self t :
  calculate_debt self = Ok t ->
  exists df x,
    _df_dfp self = Some df /\ pivot CD_CONTA (final_rows debt_codes df) = Ok x /\
    index t = index x /\
    forall c, c ∈ debt_codes -> is_Some (lookup_col c (columns x)).
Proof.
  unfold calculate_debt. intros H. inv_res. norm_cols.
  destruct (_df_dfp self) as [df|]; [|done]. inv_res.
  do 2 eexists. split_and!; try done; [congruence|].
  unfold debt_codes. reads_cols.
Qed.

Lemma calculate_efficiency_reads self t :
  calculate_efficiency self = Ok t ->
  exists df x,
    _df_dfp self = Some df /\
    pivot CD_CONTA (final_rows efficiency_codes df) = Ok x /\
    index t = index x /\
    forall c, c ∈ efficiency_codes -> is_Some (lookup_col c (columns x)).
Proof.
  unfold calculate_efficiency. intros H. inv_res. norm_cols.
  destruct (_df_dfp self) as [df|]; [|done]. inv_res.
  do 2 eexists. split_and!; try done; [congruence|].
  unfold efficiency_codes. reads_cols.
Qed.

Lemma calculate_profitability_inv self t :
  calculate_profitability self = Ok t ->
  exists df x c1 c2 c203 c305 c308 c311,
    _df_dfp self = Some df /\
    pivot CD_CONTA (final_rows profitability_codes df) = Ok x /\
    index t = index x /\
    lookup_col "1" (columns x) = Some c1 /\
    lookup_col "2" (columns x) = Some c2 /\
    lookup_col "2.03" (columns x) = Some c203 /\
    lookup_col "3.05" (columns x) = Some c305 /\
    lookup_col "3.08" (columns x) = Some c308 /\
    lookup_col "3.11" (columns x) = Some c311 /\
    lookup_col "roic" (columns t) =
      Some ((fun v => Float64.mul v (Float64.of_Z 100)) <$>
              zip_with Float64.div (zip_with Float64.sub c305 c308) c2) /\
    lookup_col "roe" (columns t) =
      Some ((fun v => Float64.mul v (Float64.of_Z 100)) <$>
              zip_with Float64.div c311 c203) /\
    lookup_col "roa" (columns t) =
      Some ((fun v => Float64.mul v (Float64.of_Z 100)) <$>
              zip_with Float64.div c311 c1).
Proof.
  unfold calculate_profitability. intros H. inv_res. norm_cols.
  destruct (_df_dfp self) as [df|]; [|done]. inv_res.
  do 8 eexists. split_and!; try done.
  - congruence.
  - sel_col Hsel.
  - sel_col Hsel.
  - sel_col Hsel.
Qed.

Lemma calculate_profitability_reads self t :
  calculate_profitability self = Ok t ->
  exists df x,
    _df_dfp self = Some df /\
    pivot CD_CONTA (final_rows profitability_codes df) = Ok x /\
    index t = index x /\
    forall c, c ∈ profitability_codes -> is_Some (lookup_col c (columns x)).
Proof.
  intros (df & x & ? & ? & ? & ? & ? & ? & Hdf & Hp & Hi & H)%calculate_profitability_inv.
  exists df, x. split_and!; try done. unfold profitability_codes.
  destruct_and!. reads_cols.
Qed.

Lemma absent_column_raises {A} col (rows : LongFrame) (m : res A)
    (labels : list string) (c : string) :
  (forall t, m = Ok t ->
     exists x, pivot col rows = Ok x /\
       forall c, c ∈ labels -> is_Some (lookup_col c (columns x))) ->
  c ∈ labels -> c ∉ col <$> rows -> exists e, m = Raise e.
Proof.
  intros H Hc Habs. apply not_ok_raise. intros t Ht.
  destruct (H t Ht) as (x & Hp & Hl). destruct (Hl c Hc) as [s Hs].
  apply Habs. by eapply pivot_column_present.
Qed.

(** *** Absent accounts *)

(** C3, as the spec states it, fails: with no 'Estoques' row in the
    input the pivoted frame has no such column, and the liquidity
    computation raises KeyError rather than returning a table with
    undefined values. *)
Lemma absent_estoques_raises :
  ("Estoques" ∉ DS_CONTA <$> acme_no_estoques) /\
  calculate_liquidity (load_data init acme_no_estoques [] ["ACME S.A."])
    = Raise (KeyError "Estoques") /\
  ~ exists t,
      calculate_liquidity (load_data init acme_no_estoques [] ["ACME S.A."]) = Ok t.
Proof.
  assert (calculate_liquidity (load_data init acme_no_estoques [] ["ACME S.A."])
            = Raise (KeyError "Estoques")) as H by (vm_compute; reflexivity).
  split; [solve_dec|]. split; [exact H|]. intros [t Ht]. congruence.
Qed.

Example missing_for_one_company :
  exists t,
    calculate_liquidity
      (load_data init two_companies [] ["ACME S.A."; "BETA S.A."]) = Ok t /\
    index t = [("2023-12-31", "ACME S.A."); ("2023-12-31", "BETA S.A.")] /\
    cell t "liquidez_seca" 1 = Some Float64.nan /\
    cell t "liquidez_corrente" 1 = Some (Float64.of_Z 3).
Proof.
  eexists. split; [vm_compute; reflexivity|].
  split; [reflexivity|]. split; vm_compute; reflexivity.
Qed.

(** *** Profitability *)

Lemma calculate_profitability_ok self df :
  _df_dfp self = Some df ->
  NoDup (entries CD_CONTA (final_rows profitability_codes df)) ->
  (forall c, c ∈ profitability_codes ->
     c ∈ CD_CONTA <$> final_rows profitability_codes df) ->
  exists t, calculate_profitability self = Ok t.
Proof.
  intros Hdf Hnd Hall.
  destruct (pivot_NoDup _ _ Hnd) as [x Hp].
  assert (forall c, c ∈ profitability_codes -> exists s, lookup_col c (columns x) = Some s)
    as Hcols by (intros c Hc; eapply pivot_column_Some; eauto).
  unfold profitability_codes in Hcols.
  destruct (Hcols "1") as [c1 Hc1]; [set_solver|].
  destruct (Hcols "2") as [c2 Hc2]; [set_solver|].
  destruct (Hcols "2.03") as [c203 Hc203]; [set_solver|].
  destruct (Hcols "3.05") as [c305 Hc305]; [set_solver|].
  destruct (Hcols "3.08") as [c308 Hc308]; [set_solver|].
  destruct (Hcols "3.11") as [c311 Hc311]; [set_solver|].
  unfold calculate_profitability, df_dfp. rewrite Hdf. cbn [bind].
  fold profitability_codes. fold (final_rows profitability_codes df).
  rewrite Hp. cbn [bind].
  rewrite reset_index_intro
    by (intros ?%(pivot_labels _ _ _ _ Hp)%final_rows_code; set_solver).
  cbn [bind]. destruct x as [idx cols]. cbn [columns] in *.
  do 3 (step_assign; cbv beta). step_select. eauto.
Qed.

(** C8. Whenever the pivot by account code succeeds and has the six
    code columns, [calculate_profitability] returns a table in which
    every row has ROIC = (3.05 - 3.08) / 2 * 100, ROE = 3.11 / 2.03 * 100
    and ROA = 3.11 / 1 * 100, computed in float64 on the values the row's
    (period, company) has for those codes ([pivot_cell]: the value of
    the one final row with that key and code, NaN if there is none), the
    multiplication by 100 coming after the division. *)
Theorem calculate_profitability_correct self df :
  _df_dfp self = Some df ->
  NoDup (entries CD_CONTA (final_rows profitability_codes df)) ->
  (forall c, c ∈ profitability_codes ->
     c ∈ CD_CONTA <$> final_rows profitability_codes df) ->
  exists t,
    calculate_profitability self = Ok t /\
    (forall k, k ∈ index t <->
       exists r, r ∈ final_rows profitability_codes df /\ key r = k) /\
    forall i k, index t !! i = Some k ->
      let v := pivot_cell CD_CONTA (final_rows profitability_codes df) k in
      cell t "roic" i =
        Some (Float64.mul
                (Float64.div (Float64.sub (v "3.05") (v "3.08")) (v "2"))
                (Float64.of_Z 100)) /\
      cell t "roe" i =
        Some (Float64.mul (Float64.div (v "3.11") (v "2.03")) (Float64.of_Z 100)) /\
      cell t "roa" i =
        Some (Float64.mul (Float64.div (v "3.11") (v "1")) (Float64.of_Z 100)).
Proof.
  intros Hdf Hnd Hall.
  destruct (calculate_profitability_ok self df) as [t Ht]; try done.
  exists t. split; [done|].
  apply calculate_profitability_inv in Ht
    as (df' & x & c1 & c2 & c203 & c305 & c308 & c311 & Hdf' & Hp & Hidx
        & H1 & H2 & H203 & H305 & H308 & H311 & Hroic & Hroe & Hroa).
  assert (df' = df) as -> by congruence. rewrite Hidx. split.
  { intros k. apply (pivot_index _ _ _ _ Hp). }
  intros i k Hi v. unfold cell. rewrite Hroic, Hroe, Hroa. simpl.
  rewrite !list_lookup_fmap, !lookup_zip_with.
  rewrite (pivot_column_cell _ _ _ _ _ _ _ Hp H1 Hi).
  rewrite (pivot_column_cell _ _ _ _ _ _ _ Hp H2 Hi).
  rewrite (pivot_column_cell _ _ _ _ _ _ _ Hp H203 Hi).
  rewrite (pivot_column_cell _ _ _ _ _ _ _ Hp H305 Hi).
  rewrite (pivot_column_cell _ _ _ _ _ _ _ Hp H308 Hi).
  rewrite (pivot_column_cell _ _ _ _ _ _ _ Hp H311 Hi).
  done.
Qed.

Lemma calculate_profitability_correct_witness :
  exists t,
    calculate_profitability (load_data init acme_profit [] ["ACME S.A."]) = Ok t /\
    (forall k, k ∈ index t <->
       exists r, r ∈ final_rows profitability_codes acme_profit /\ key r = k) /\
    forall i k, index t !! i = Some k ->
      let v := pivot_cell CD_CONTA (final_rows profitability_codes acme_profit) k in
      cell t "roic" i =
        Some (Float64.mul
                (Float64.div (Float64.sub (v "3.05") (v "3.08")) (v "2"))
                (Float64.of_Z 100)) /\
      cell t "roe" i =
        Some (Float64.mul (Float64.div (v "3.11") (v "2.03")) (Float64.of_Z 100)) /\
      cell t "roa" i =
        Some (Float64.mul (Float64.div (v "3.11") (v "1")) (Float64.of_Z 100)).
Proof.
  apply (calculate_profitability_correct
           (load_data init acme_profit [] ["ACME S.A."]) acme_profit).
  - reflexivity.
  - solve_dec.
  - apply Forall_forall. solve_dec.
Defined.

(** ROIC = (300 - 100) / 400 * 100 = 50, ROE = 50 / 200 * 100 = 25,
    ROA = 50 / 400 * 100 = 12.5. *)
Example acme_profitability :
  calculate_profitability (load_data init acme_profit [] ["ACME S.A."])
  = Ok {| index := [("2023-12-31", "ACME S.A.")];
          columns := [ ("roic", [Float64.of_Z 50]);
                       ("roe", [Float64.of_Z 25]);
                       ("roa", [Float64.div (Float64.of_Z 25) (Float64.of_Z 2)]) ] |}.
Proof. vm_compute. reflexivity. Qed.

(** ** The statement reshapers *)

Lemma load_statement_ok self filename df :
  FP._load_statement self filename = Ok df <->
  FP.data_dir self !! filename = Some df.
Proof.
  unfold FP._load_statement. destruct (FP.data_dir self !! filename); naive_solver.
Qed.

Ltac inv_load :=
  repeat match goal with
  | H : FP._load_statement _ _ = Ok _ |- _ => apply load_statement_ok in H
  end.

Lemma process_balance_sheet_inv self s e t :
  FP.process_balance_sheet self s e = Ok t ->
  exists bpa bpp x pt pl,
    FP.data_dir self !! bpa_file s e = Some bpa /\
    FP.data_dir self !! bpp_file s e = Some bpp /\
    pivot DS_CONTA (balance_sheet_rows self (bpa ++ bpp)) = Ok x /\
    index t = index x /\
    lookup_col "Passivo Total" (columns x) = Some pt /\
    lookup_col "Patrimônio Líquido Consolidado" (columns x) = Some pl /\
    columns t = set_col "passivo" (zip_with Float64.sub pt pl) (columns x).
Proof.
  unfold FP.process_balance_sheet. intros H. inv_res. inv_load.
  do 5 eexists. split_and!; try done.
Qed.

Lemma process_income_statement_inv self s e t :
  FP.process_income_statement self s e = Ok t ->
  exists dre,
    FP.data_dir self !! dre_file s e = Some dre /\
    pivot DS_CONTA (income_statement_rows self dre) = Ok t.
Proof.
  unfold FP.process_income_statement. intros H. inv_res. inv_load. eauto.
Qed.

Lemma process_cash_flow_inv self s e t :
  FP.process_cash_flow self s e = Ok t ->
  exists dfc,
    FP.data_dir self !! dfc_file s e = Some dfc /\
    pivot DS_CONTA (cash_flow_rows self dfc) = Ok t.
Proof.
  unfold FP.process_cash_flow. intros H. inv_res. inv_load. eauto.
Qed.

Lemma set_col_labels c n s cols :
  c ∈ (set_col n s cols).*1 -> c = n \/ c ∈ cols.*1.
Proof.
  induction cols as [|[n0 s0] cols IH]; simpl.
  - rewrite elem_of_cons, elem_of_nil. tauto.
  - destruct (decide (n0 = n)) as [->|Hne]; simpl; rewrite !elem_of_cons; tauto.
Qed.

Lemma balance_sheet_rows_label self bp c :
  c ∈ DS_CONTA <$> balance_sheet_rows self bp ->
  c ∈ [ "Ativo Total"; "Passivo Total"; "Patrimônio Líquido Consolidado";
        "Ativo Circulante"; "Ativo Não Circulante";
        "Passivo Circulante"; "Passivo Não Circulante" ].
Proof.
  intros (r & -> & Hr)%list_elem_of_fmap.
  apply list_elem_of_filter in Hr. tauto.
Qed.

(** The balance-sheet reshaper returns whenever its two files are there,
    no (period, company, description) entry is repeated among the rows it
    keeps, and the two columns of the derived one exist. *)
Lemma process_balance_sheet_ok self s e bpa bpp :
  FP.data_dir self !! bpa_file s e = Some bpa ->
  FP.data_dir self !! bpp_file s e = Some bpp ->
  NoDup (entries DS_CONTA (balance_sheet_rows self (bpa ++ bpp))) ->
  "Passivo Total" ∈ DS_CONTA <$> balance_sheet_rows self (bpa ++ bpp) ->
  "Patrimônio Líquido Consolidado" ∈ DS_CONTA <$> balance_sheet_rows self (bpa ++ bpp) ->
  exists t, FP.process_balance_sheet self s e = Ok t.
Proof.
  intros Ha Hb Hnd Hpt Hpl.
  destruct (pivot_NoDup _ _ Hnd) as [x Hp].
  destruct (pivot_column_Some _ _ _ _ Hp Hpt) as [pt Ept].
  destruct (pivot_column_Some _ _ _ _ Hp Hpl) as [pl Epl].
  unfold FP.process_balance_sheet, FP._load_statement.
  fold (bpa_file s e). fold (bpp_file s e). rewrite Ha, Hb. cbn [bind].
  fold (balance_sheet_rows self (bpa ++ bpp)). rewrite Hp. cbn [bind].
  step_assign. cbv beta.
  rewrite reset_index_intro; [cbn [bind]; eauto| |]; cbn [columns].
  all: intros [?|Hin%(pivot_labels _ _ _ _ Hp)%balance_sheet_rows_label]%set_col_labels;
    [done|set_solver].
Qed.

(** Passivo Total 400 and Patrimônio Líquido Consolidado 150 give
    passivo 250; the columns come out in label order. *)
Example acme_balance_sheet :
  FP.process_balance_sheet acme_processor 2023 2023
  = Ok {| index := [("2023-12-31", "ACME S.A.")];
          columns := [ ("Ativo Circulante", [Float64.of_Z 100]);
                       ("Ativo Total", [Float64.of_Z 400]);
                       ("Passivo Circulante", [Float64.of_Z 50]);
                       ("Passivo Total", [Float64.of_Z 400]);
                       ("Patrimônio Líquido Consolidado", [Float64.of_Z 150]);
                       ("passivo", [Float64.of_Z 250]) ] |}.
Proof. vm_compute. reflexivity. Qed.

(** *** Duplicate entries *)

Lemma duplicate_after_filter_lt {A B} (P : A -> Prop) `{!forall x, Decision (P x)}
    (f : A -> B) (l : list A) i j r1 r2 :
  i < j -> l !! i = Some r1 -> l !! j = Some r2 ->
  P r1 -> P r2 -> f r1 = f r2 ->
  ~ NoDup (f <$> filter P l).
Proof.
  intros Hij Hi Hj H1 H2 Hf Hnd.
  assert (r2 ∈ drop (S i) l) as Hr2.
  { apply list_elem_of_lookup. exists (j - S i).
    rewrite lookup_drop. rewrite <- Hj. f_equal. lia. }
  rewrite <- (take_drop_middle l i r1 Hi) in Hnd.
  rewrite filter_app, filter_cons_True, fmap_app, fmap_cons in Hnd by done.
  apply NoDup_app in Hnd as (_ & _ & Hnd).
  apply NoDup_cons in Hnd as [Hnd _]. apply Hnd.
  rewrite Hf. apply list_elem_of_fmap. exists r2. split; [done|].
  by apply list_elem_of_filter.
Qed.

Lemma duplicate_after_filter {A B} (P : A -> Prop) `{!forall x, Decision (P x)}
    (f : A -> B) (l : list A) i j r1 r2 :
  i <> j -> l !! i = Some r1 -> l !! j = Some r2 ->
  P r1 -> P r2 -> f r1 = f r2 ->
  ~ NoDup (f <$> filter P l).
Proof.
  intros Hij Hi Hj H1 H2 Hf.
  destruct (decide (i < j)).
  - by eapply (duplicate_after_filter_lt P f l i j).
  - eapply (duplicate_after_filter_lt P f l j i); eauto. lia.
Qed.

Lemma reshaped_index_NoDup :
  forall self s e t,
    (FP.process_balance_sheet self s e = Ok t \/
     FP.process_income_statement self s e = Ok t \/
     FP.process_cash_flow self s e = Ok t) ->
    NoDup (index t).
Proof.
  intros self s e t [H|[H|H]].
  - apply process_balance_sheet_inv in H as (? & ? & x & ? & ? & _ & _ & Hp & -> & _).
    by eapply pivot_index_NoDup.
  - apply process_income_statement_inv in H as (? & _ & Hp).
    by eapply pivot_index_NoDup.
  - apply process_cash_flow_inv in H as (? & _ & Hp).
    by eapply pivot_index_NoDup.
Qed.

(** C4. When two distinct rows of the concatenated balance-sheet input
    pass the reshaper's filters and agree on (DT_REFER, DENOM_CIA,
    DS_CONTA), [process_balance_sheet] raises the pivot's ValueError; it
    does not pick one of the two values.  And a wide table that a
    reshaper does return has each (period, company) pair on exactly one
    row. *)
Theorem duplicate_rows_fail_fast self start_year end_year bpa bpp i j r1 r2 :
  FP.data_dir self !! bpa_file start_year end_year = Some bpa ->
  FP.data_dir self !! bpp_file start_year end_year = Some bpp ->
  i <> j ->
  (bpa ++ bpp) !! i = Some r1 ->
  (bpa ++ bpp) !! j = Some r2 ->
  balance_sheet_keeps self r1 ->
  balance_sheet_keeps self r2 ->
  DT_REFER r1 = DT_REFER r2 ->
  DENOM_CIA r1 = DENOM_CIA r2 ->
  DS_CONTA r1 = DS_CONTA r2 ->
  FP.process_balance_sheet self start_year end_year
    = Raise (ValueError "Index contains duplicate entries, cannot reshape") /\
  forall self' s e t,
    (FP.process_balance_sheet self' s e = Ok t \/
     FP.process_income_statement self' s e = Ok t \/
     FP.process_cash_flow self' s e = Ok t) ->
    NoDup (index t) /\
    forall k, k ∈ index t -> exists! i, index t !! i = Some k.
Proof.
  intros Ha Hb Hij Hi Hj H1 H2 Hdt Hcia Hds. split.
  - unfold FP.process_balance_sheet, FP._load_statement.
    fold (bpa_file start_year end_year). fold (bpp_file start_year end_year).
    rewrite Ha, Hb. cbn [bind].
    rewrite pivot_duplicate; [done|].
    apply (duplicate_after_filter _ (fun r => (key r, DS_CONTA r)) _ i j r1 r2);
      try done.
    unfold key. congruence.
  - intros self' s e t H. pose proof (reshaped_index_NoDup _ _ _ _ H) as Hnd.
    split; [done|]. intros k [n Hn]%list_elem_of_lookup.
    exists n. split; [done|]. intros n' Hn'. by eapply NoDup_lookup.
Qed.

Lemma duplicate_rows_fail_fast_witness :
  FP.process_balance_sheet duplicate_processor 2023 2023
    = Raise (ValueError "Index contains duplicate entries, cannot reshape") /\
  forall self' s e t,
    (FP.process_balance_sheet self' s e = Ok t \/
     FP.process_income_statement self' s e = Ok t \/
     FP.process_cash_flow self' s e = Ok t) ->
    NoDup (index t) /\
    forall k, k ∈ index t -> exists! i, index t !! i = Some k.
Proof.
  apply (duplicate_rows_fail_fast duplicate_processor 2023 2023
           [ acme "1" "Ativo Total" (Float64.of_Z 400);
             acme "1" "Ativo Total" (Float64.of_Z 401) ]
           [ acme "2" "Passivo Total" (Float64.of_Z 400);
             acme "2.03" "Patrimônio Líquido Consolidado" (Float64.of_Z 150) ]
           0 1
           (acme "1" "Ativo Total" (Float64.of_Z 400))
           (acme "1" "Ativo Total" (Float64.of_Z 401))).
  - vm_compute. reflexivity.
  - vm_compute. reflexivity.
  - lia.
  - reflexivity.
  - reflexivity.
  - split_and!; [solve_dec|solve_dec|reflexivity].
  - split_and!; [solve_dec|solve_dec|reflexivity].
  - reflexivity.
  - reflexivity.
  - reflexivity.
Defined.

(** *** Every output row belongs to the universe *)

Lemma pivot_index_company col P `{!forall r, Decision (P r)} (df : LongFrame)
    (companies : list string) x k :
  (forall r, P r -> DENOM_CIA r ∈ companies) ->
  pivot col (filter P df) = Ok x -> k ∈ index x -> k.2 ∈ companies.
Proof.
  intros HP Hp Hk. apply (pivot_index _ _ _ _ Hp) in Hk as (r & Hr & <-).
  apply list_elem_of_filter in Hr as [Hr _]. by apply HP.
Qed.

Lemma reshaped_company companies t k :
  reshaped companies t -> k ∈ index t -> k.2 ∈ companies.
Proof.
  intros [self s e <- H|self s e <- H|self s e <- H] Hk.
  - apply process_balance_sheet_inv in H as (? & ? & x & ? & ? & _ & _ & Hp & Hi & _).
    rewrite Hi in Hk. eapply pivot_index_company; [|exact Hp|exact Hk].
    simpl. tauto.
  - apply process_income_statement_inv in H as (? & _ & Hp).
    eapply pivot_index_company; [|exact Hp|exact Hk]. simpl. tauto.
  - apply process_cash_flow_inv in H as (? & _ & Hp).
    eapply pivot_index_company; [|exact Hp|exact Hk]. simpl. tauto.
Qed.

Lemma ratio_rows_company col codes (df : LongFrame) (companies : list string) x k :
  pivot col (final_rows codes (filter (fun r => DENOM_CIA r ∈ companies) df)) = Ok x ->
  k ∈ index x -> k.2 ∈ companies.
Proof.
  intros Hp Hk. apply (pivot_index _ _ _ _ Hp) in Hk as (r & Hr & <-).
  apply list_elem_of_filter in Hr as [_ Hr].
  apply list_elem_of_filter in Hr as [Hr _]. done.
Qed.

Lemma ratio_table_company companies t k :
  ratio_table companies t -> k ∈ index t -> k.2 ∈ companies.
Proof.
  intros [self bp dre H|self bp dre H|self bp dre H|self bp dre H] Hk.
  - apply calculate_liquidity_reads in H as (df & x & Hdf & Hp & Hi & _).
    simpl in Hdf. injection Hdf as <-. rewrite Hi in Hk.
    by eapply (ratio_rows_company DS_CONTA).
  - apply calculate_debt_reads in H as (df & x & Hdf & Hp & Hi & _).
    simpl in Hdf. injection Hdf as <-. rewrite Hi in Hk.
    by eapply (ratio_rows_company CD_CONTA).
  - apply calculate_efficiency_reads in H as (df & x & Hdf & Hp & Hi & _).
    simpl in Hdf. injection Hdf as <-. rewrite Hi in Hk.
    by eapply (ratio_rows_company CD_CONTA).
  - apply calculate_profitability_reads in H as (df & x & Hdf & Hp & Hi & _).
    simpl in Hdf. injection Hdf as <-. rewrite Hi in Hk.
    by eapply (ratio_rows_company CD_CONTA).
Qed.

(** C9, amended.  With the company list that [run] writes from the
    registry [info], every row of every reshaped table and of every
    ratio table carries a company name of that list, hence the name of a
    registry row that is active, listed on the exchange and outside the
    excluded sectors.  A name all of whose registry rows are excluded
    (sector 'Bancos' or another excluded one, status not active, or
    venue not the exchange) is on no output row, whatever filing rows
    the raw input holds for it.  A name is in the list exactly when one
    registry row of that name is eligible, whatever its other rows
    say. *)
Theorem outputs_within_universe (info : list CompanyInfo) (t : Frame) :
  reshaped (run_companies info) t \/ ratio_table (run_companies info) t ->
  (forall k, k ∈ index t ->
     k.2 ∈ run_companies info /\
     exists c, c ∈ info /\ DENOM_SOCIAL c = k.2 /\
       SIT c = "ATIVO" /\ TP_MERC c = "BOLSA" /\
       SETOR_ATIV c ∉ ["Bancos"; "Intermediação Financeira"; "Seguradoras e Corretoras"]) /\
  (forall name,
     (forall c, c ∈ info -> DENOM_SOCIAL c = name ->
        SETOR_ATIV c ∈ ["Bancos"; "Intermediação Financeira"; "Seguradoras e Corretoras"]
        \/ SIT c <> "ATIVO" \/ TP_MERC c <> "BOLSA") ->
     name ∉ (index t).*2) /\
  (forall name,
     name ∈ run_companies info <->
     exists c, c ∈ info /\ DENOM_SOCIAL c = name /\
       SIT c = "ATIVO" /\ TP_MERC c = "BOLSA" /\
       SETOR_ATIV c ∉ ["Bancos"; "Intermediação Financeira"; "Seguradoras e Corretoras"]).
Proof.
  intros Ht.
  assert (forall k, k ∈ index t -> k.2 ∈ run_companies info) as Hu.
  { intros k Hk. destruct Ht; [by eapply reshaped_company|by eapply ratio_table_company]. }
  split_and!; [| |intros name; apply run_companies_eligible].
  - intros k Hk. split; [by apply Hu|].
    apply Hu, run_companies_eligible in Hk as (c & Hc & Hn & He).
    exists c. unfold eligible in He. tauto.
  - intros name Hex (k & -> & Hk)%list_elem_of_fmap.
    apply Hu, run_companies_eligible in Hk as (c & Hc & Hn & He1 & He2 & He3).
    destruct (Hex c Hc Hn) as [?|[?|?]]; done.
Qed.

Example bank_rows_dropped :
  run_companies registry = ["ACME S.A."] /\
  FP.process_balance_sheet mixed_processor 2023 2023 = Ok mixed_balance_sheet.
Proof. split; vm_compute; reflexivity. Qed.

Lemma outputs_within_universe_witness :
  (forall k, k ∈ index mixed_balance_sheet ->
     k.2 ∈ run_companies registry /\
     exists c, c ∈ registry /\ DENOM_SOCIAL c = k.2 /\
       SIT c = "ATIVO" /\ TP_MERC c = "BOLSA" /\
       SETOR_ATIV c ∉ ["Bancos"; "Intermediação Financeira"; "Seguradoras e Corretoras"]) /\
  (forall name,
     (forall c, c ∈ registry -> DENOM_SOCIAL c = name ->
        SETOR_ATIV c ∈ ["Bancos"; "Intermediação Financeira"; "Seguradoras e Corretoras"]
        \/ SIT c <> "ATIVO" \/ TP_MERC c <> "BOLSA") ->
     name ∉ (index mixed_balance_sheet).*2) /\
  (forall name,
     name ∈ run_companies registry <->
     exists c, c ∈ registry /\ DENOM_SOCIAL c = name /\
       SIT c = "ATIVO" /\ TP_MERC c = "BOLSA" /\
       SETOR_ATIV c ∉ ["Bancos"; "Intermediação Financeira"; "Seguradoras e Corretoras"]).
Proof.
  apply (outputs_within_universe registry mixed_balance_sheet).
  left. apply (reshaped_balance_sheet _ _ mixed_processor 2023 2023).
  - reflexivity.
  - vm_compute. reflexivity.
Defined.

(** *** The order of the input rows *)

Lemma load_statement_same_rows self self' f :
  same_rows (FP.data_dir self) (FP.data_dir self') ->
  match FP._load_statement self f, FP._load_statement self' f with
  | Ok a, Ok b => a ≡ₚ b
  | Raise e, Raise e' => e = e'
  | _, _ => False
  end.
Proof.
  intros H. specialize (H f). unfold FP._load_statement.
  by destruct (FP.data_dir self !! f), (FP.data_dir self' !! f).
Qed.

Lemma process_balance_sheet_perm self self' s e :
  FP.companies self = FP.companies self' ->
  same_rows (FP.data_dir self) (FP.data_dir self') ->
  FP.process_balance_sheet self s e = FP.process_balance_sheet self' s e.
Proof.
  intros Hc Hd. unfold FP.process_balance_sheet.
  pose proof (load_statement_same_rows self self' (bpa_file s e) Hd) as Ha.
  pose proof (load_statement_same_rows self self' (bpp_file s e) Hd) as Hb.
  unfold bpa_file, bpp_file in Ha, Hb.
  destruct (FP._load_statement self _) as [bpa|], (FP._load_statement self' _) as [bpa'|];
    try done; cbn [bind]; [|congruence].
  destruct (FP._load_statement self _) as [bpp|], (FP._load_statement self' _) as [bpp'|];
    try done; cbn [bind]; [|congruence].
  rewrite <- Hc.
  erewrite (pivot_perm DS_CONTA); [done|]. by rewrite Ha, Hb.
Qed.

Lemma process_income_statement_perm self self' s e :
  FP.companies self = FP.companies self' ->
  same_rows (FP.data_dir self) (FP.data_dir self') ->
  FP.process_income_statement self s e = FP.process_income_statement self' s e.
Proof.
  intros Hc Hd. unfold FP.process_income_statement.
  pose proof (load_statement_same_rows self self' (dre_file s e) Hd) as Ha.
  unfold dre_file in Ha.
  destruct (FP._load_statement self _) as [dre|], (FP._load_statement self' _) as [dre'|];
    try done; cbn [bind]; [|congruence].
  rewrite <- Hc.
  erewrite (pivot_perm DS_CONTA); [done|]. by rewrite Ha.
Qed.

Lemma process_cash_flow_perm self self' s e :
  FP.companies self = FP.companies self' ->
  same_rows (FP.data_dir self) (FP.data_dir self') ->
  FP.process_cash_flow self s e = FP.process_cash_flow self' s e.
Proof.
  intros Hc Hd. unfold FP.process_cash_flow.
  pose proof (load_statement_same_rows self self' (dfc_file s e) Hd) as Ha.
  unfold dfc_file in Ha.
  destruct (FP._load_statement self _) as [dfc|], (FP._load_statement self' _) as [dfc'|];
    try done; cbn [bind]; [|congruence].
  rewrite <- Hc.
  erewrite (pivot_perm DS_CONTA); [done|]. by rewrite Ha.
Qed.

Lemma reshaped_index_sorted self s e t :
  (FP.process_balance_sheet self s e = Ok t \/
   FP.process_income_statement self s e = Ok t \/
   FP.process_cash_flow self s e = Ok t) ->
  StronglySorted key_le (index t).
Proof.
  intros [H|[H|H]].
  - apply process_balance_sheet_inv in H as (? & ? & x & ? & ? & _ & _ & Hp & -> & _).
    by eapply pivot_index_sorted.
  - apply process_income_statement_inv in H as (? & _ & Hp).
    by eapply pivot_index_sorted.
  - apply process_cash_flow_inv in H as (? & _ & Hp).
    by eapply pivot_index_sorted.
Qed.

(** C10. When the files of two runs hold the same rows in a different
    order, a reshaper that returns a table on the one returns the very
    same table on the other, and the rows of that table are in ascending
    lexicographic order of (DT_REFER, DENOM_CIA), each pair once. *)
Theorem reshape_order_independent self self' start_year end_year t :
  FP.companies self = FP.companies self' ->
  same_rows (FP.data_dir self) (FP.data_dir self') ->
  FP.process_balance_sheet self start_year end_year = Ok t \/
  FP.process_income_statement self start_year end_year = Ok t \/
  FP.process_cash_flow self start_year end_year = Ok t ->
  (FP.process_balance_sheet self start_year end_year = Ok t ->
   FP.process_balance_sheet self' start_year end_year = Ok t) /\
  (FP.process_income_statement self start_year end_year = Ok t ->
   FP.process_income_statement self' start_year end_year = Ok t) /\
  (FP.process_cash_flow self start_year end_year = Ok t ->
   FP.process_cash_flow self' start_year end_year = Ok t) /\
  StronglySorted key_le (index t) /\ NoDup (index t).
Proof.
  intros Hc Hd Ht. split_and!.
  - by rewrite <- (process_balance_sheet_perm self self').
  - by rewrite <- (process_income_statement_perm self self').
  - by rewrite <- (process_cash_flow_perm self self').
  - by eapply reshaped_index_sorted.
  - by eapply reshaped_index_NoDup.
Qed.

Lemma same_rows_reversed self :
  same_rows (FP.data_dir self) (FP.data_dir (reversed self)).
Proof.
  intros f. simpl. rewrite lookup_fmap.
  destruct (FP.data_dir self !! f); simpl; [|done].
  by rewrite reverse_Permutation.
Qed.

Lemma reshape_order_independent_witness :
  (FP.process_balance_sheet mixed_processor 2023 2023 = Ok mixed_balance_sheet ->
   FP.process_balance_sheet (reversed mixed_processor) 2023 2023
     = Ok mixed_balance_sheet) /\
  (FP.process_income_statement mixed_processor 2023 2023 = Ok mixed_balance_sheet ->
   FP.process_income_statement (reversed mixed_processor) 2023 2023
     = Ok mixed_balance_sheet) /\
  (FP.process_cash_flow mixed_processor 2023 2023 = Ok mixed_balance_sheet ->
   FP.process_cash_flow (reversed mixed_processor) 2023 2023
     = Ok mixed_balance_sheet) /\
  StronglySorted key_le (index mixed_balance_sheet) /\
  NoDup (index mixed_balance_sheet).
Proof.
  apply (reshape_order_independent mixed_processor (reversed mixed_processor)
           2023 2023 mixed_balance_sheet).
  - reflexivity.
  - apply same_rows_reversed.
  - left. vm_compute. reflexivity.
Defined.

Example unordered_rows_sorted :
  exists t,
    FP.process_balance_sheet unordered_processor 2022 2023 = Ok t /\
    FP.process_balance_sheet (reversed unordered_processor) 2022 2023 = Ok t /\
    index t = [ ("2022-12-31", "ACME S.A."); ("2022-12-31", "BETA S.A.");
                ("2023-12-31", "ACME S.A."); ("2023-12-31", "BETA S.A.") ] /\
    lookup_col "passivo" (columns t)
      = Some [ Float64.nan; Float64.of_Z 1; Float64.of_Z 5; Float64.nan ].
Proof.
  eexists. split; [vm_compute; reflexivity|].
  split; [vm_compute; reflexivity|]. split; vm_compute; reflexivity.
Qed.

(** *** The loader on missing years *)

Lemma elem_of_range (a b y : Z) : y ∈ range a b <-> (a <= y < b)%Z.
Proof.
  unfold range. rewrite list_elem_of_fmap. split.
  - intros (i & -> & Hi). apply elem_of_seq in Hi. lia.
  - intros Hy. exists (Z.to_nat (y - a)). split; [lia|].
    apply elem_of_seq. lia.
Qed.

Lemma elem_of_concat {A} (ls : list (list A)) (x : A) :
  x ∈ concat ls <-> exists l, x ∈ l /\ l ∈ ls.
Proof.
  induction ls as [|l ls IH]; simpl.
  - split; [by intros ?%elem_of_nil|]. by intros (l & _ & ?%elem_of_nil).
  - rewrite elem_of_app, IH. split.
    + intros [H|(l' & H1 & H2)]; [exists l; split; [done|by left]|].
      exists l'. split; [done|by right].
    + intros (l' & H1 & [->|H2]%elem_of_cons); [by left|right; eauto].
Qed.

(** The rows of the concatenation are the rows of the files of the
    range that exist, and no others. *)
Lemma existing_frames_rows (output_dir : Directory) kind s e r :
  r ∈ concat (existing_frames output_dir kind s e) <->
  exists y df, (s <= y <= e)%Z /\
    output_dir !! year_file kind y = Some df /\ r ∈ df.
Proof.
  unfold existing_frames. rewrite elem_of_concat. split.
  - intros (df & Hr & Hdf). apply list_elem_of_omap in Hdf as (y & Hy & Hdf).
    apply elem_of_range in Hy. exists y, df. split_and!; [lia|lia|done..].
  - intros (y & df & Hy & Hdf & Hr). exists df. split; [done|].
    apply list_elem_of_omap. exists y. split; [|done].
    apply elem_of_range. lia.
Qed.

(** C6, as the spec states it, fails on a requested kind none of whose
    files exists: the result has no table for that kind, not even an
    empty one. *)
Lemma no_file_no_table :
  concatenate_statements ∅ 2016 2025 ["BPA_con"] !! "BPA_con" = None /\
  ~ forall (output_dir : Directory) s e types kind,
      kind ∈ types ->
      exists table,
        concatenate_statements output_dir s e types !! kind = Some table /\
        table = concat (existing_frames output_dir kind s e).
Proof.
  assert (concatenate_statements ∅ 2016 2025 ["BPA_con"] !! "BPA_con" = None)
    as H by (vm_compute; reflexivity).
  split; [exact H|]. intros Hall.
  destruct (Hall ∅ 2016%Z 2025%Z ["BPA_con"] "BPA_con") as (table & Ht & _).
  - by left.
  - congruence.
Qed.

(** Requesting [2016, 2025] yields the rows of 2016 to 2020 only, and a
    kind with no file yields no entry. *)
Example missing_years_skipped :
  concatenate_statements backfill_dir 2016 2025 ["BPA_con"; "DRE_con"] !! "BPA_con"
    = Some (year_row <$> [2016; 2017; 2018; 2019; 2020]%Z) /\
  concatenate_statements backfill_dir 2016 2025 ["BPA_con"; "DRE_con"] !! "DRE_con"
    = None.
Proof. split; vm_compute; reflexivity. Qed.

(** * More of the ratio engine *)

Lemma bind_raise_eq {A B} (m : res A) (k : A -> res B) e :
  m = Raise e -> bind m k = Raise e.
Proof. by intros ->. Qed.

Lemma getitem_absent x c :
  lookup_col c (columns x) = None -> getitem x c = Raise (KeyError c).
Proof. unfold getitem. by intros ->. Qed.

Lemma series_binop_raise_l op a b e :
  a = Raise e -> series_binop op a b = Raise e.
Proof. by intros ->. Qed.

Lemma series_binop_raise_r op a b x e :
  a = Ok x -> b = Raise e -> series_binop op a b = Raise e.
Proof. by intros -> ->. Qed.

Lemma series_scale_raise a n e : a = Raise e -> series_scale a n = Raise e.
Proof. by intros ->. Qed.

Lemma assign_raise name f x e : f x = Raise e -> assign name f x = Raise e.
Proof. unfold assign. by intros ->. Qed.

(** The operand that is not there. *)
Ltac absent_col :=
  apply getitem_absent; cbn [columns];
  rewrite ?lookup_col_set_col_ne by done; eassumption.

Ltac series_fail :=
  first [ absent_col
        | eapply series_scale_raise; series_fail
        | eapply series_binop_raise_l; series_fail
        | eapply series_binop_raise_r; [series_expr|series_fail] ].

Ltac fail_assign :=
  erewrite (bind_raise_eq (assign _ _ _));
  [reflexivity|apply assign_raise; cbv beta; series_fail].

Lemma pivot_column_None col df x c :
  pivot col df = Ok x -> c ∉ col <$> df -> lookup_col c (columns x) = None.
Proof.
  intros Hp Hc. rewrite (pivot_lookup_col _ _ _ _ Hp). by rewrite decide_False.
Qed.

Lemma calculate_debt_eq self df x a b c d e f g :
  _df_dfp self = Some df ->
  pivot CD_CONTA (final_rows debt_codes df) = Ok x ->
  lookup_col "2.01.04" (columns x) = Some a ->
  lookup_col "2.02.01" (columns x) = Some b ->
  lookup_col "2.03" (columns x) = Some c ->
  lookup_col "1" (columns x) = Some d ->
  lookup_col "3.05" (columns x) = Some e ->
  lookup_col "2.01" (columns x) = Some f ->
  lookup_col "2.02" (columns x) = Some g ->
  calculate_debt self =
    Ok {| index := index x;
          columns :=
            [ ("divida_pl", zip_with Float64.div (zip_with Float64.add a b) c);
              ("divida_ativos", zip_with Float64.div (zip_with Float64.add a b) d);
              ("divida_ebit", zip_with Float64.div (zip_with Float64.add a b) e);
              ("pl_ativos", zip_with Float64.div c d);
              ("passivos_ativos", zip_with Float64.div (zip_with Float64.add f g) d) ] |}.
Proof.
  intros Hdf Hp Ha Hb Hc Hd He Hf Hg.
  unfold calculate_debt, df_dfp. rewrite Hdf. cbn [bind].
  fold debt_codes. fold (final_rows debt_codes df). rewrite Hp. cbn [bind].
  rewrite reset_index_intro
    by (intros ?%(pivot_labels _ _ _ _ Hp)%final_rows_code; set_solver).
  cbn [bind]. destruct x as [idx cols]. cbn [columns index] in *.
  do 5 (step_assign; cbv beta). step_select. reflexivity.
Qed.

(** The columns read before the first absent one are there. *)
Lemma read_before_present col (df : LongFrame) x (order : list string) i c :
  pivot col df = Ok x ->
  list_find (fun c => c ∉ col <$> df) order = Some (i, c) ->
  lookup_col c (columns x) = None /\
  forall j y, order !! j = Some y -> j < i ->
    exists s, lookup_col y (columns x) = Some s.
Proof.
  intros Hp (Hi & Hc & Hbefore)%list_find_Some. split.
  - by eapply pivot_column_None.
  - intros j y Hj Hlt. eapply pivot_column_Some; [done|].
    destruct (decide (y ∈ col <$> df)) as [|Hn]; [done|].
    by destruct (Hbefore j y Hj Hlt).
Qed.

Ltac have_col Hbefore j :=
  let s := fresh "s" in let H := fresh "Hs" in
  edestruct (Hbefore j) as [s H]; [reflexivity|lia|].

Ltac have_cols Hbefore :=
  try have_col Hbefore 0; try have_col Hbefore 1; try have_col Hbefore 2;
  try have_col Hbefore 3; try have_col Hbefore 4; try have_col Hbefore 5;
  try have_col Hbefore 6.

(** X5. When the pivot of [calculate_debt] succeeds but lacks one of the
    code columns, the exception is the KeyError of the first absent code
    in reading order: 2.01.04, 2.02.01, 2.03, 1, 3.05, 2.01, 2.02. *)
Theorem calculate_debt_first_absent self df i c :
  _df_dfp self = Some df ->
  NoDup (entries CD_CONTA (final_rows debt_codes df)) ->
  list_find (fun c => c ∉ CD_CONTA <$> final_rows debt_codes df) debt_read_order
    = Some (i, c) ->
  calculate_debt self = Raise (KeyError c).
Proof.
  intros Hdf Hnd Hfind.
  destruct (pivot_NoDup _ _ Hnd) as [x Hp].
  destruct (read_before_present _ _ _ _ _ _ Hp Hfind) as [Hc Hbefore].
  apply list_find_Some in Hfind as (Hi & _ & _).
  unfold calculate_debt, df_dfp. rewrite Hdf. cbn [bind].
  fold debt_codes. fold (final_rows debt_codes df). rewrite Hp. cbn [bind].
  rewrite reset_index_intro
    by (intros ?%(pivot_labels _ _ _ _ Hp)%final_rows_code; set_solver).
  cbn [bind]. destruct x as [idx cols]. cbn [columns index] in *.
  unfold debt_read_order in *.
  do 7 (destruct i as [|i]; [injection Hi as <-; have_cols Hbefore;
    repeat (step_assign; cbv beta); by fail_assign|]).
  done.
Qed.

Lemma calculate_efficiency_eq self df x a b c d :
  _df_dfp self = Some df ->
  pivot CD_CONTA (final_rows efficiency_codes df) = Ok x ->
  lookup_col "3.03" (columns x) = Some a ->
  lookup_col "3.01" (columns x) = Some b ->
  lookup_col "3.11" (columns x) = Some c ->
  lookup_col "3.05" (columns x) = Some d ->
  calculate_efficiency self =
    Ok {| index := index x;
          columns :=
            [ ("margem_bruta", percent <$> zip_with Float64.div a b);
              ("margem_liquida", percent <$> zip_with Float64.div c b);
              ("margem_ebit", percent <$> zip_with Float64.div d b) ] |}.
Proof.
  intros Hdf Hp Ha Hb Hc Hd.
  unfold calculate_efficiency, df_dfp. rewrite Hdf. cbn [bind].
  fold efficiency_codes. fold (final_rows efficiency_codes df). rewrite Hp. cbn [bind].
  rewrite reset_index_intro
    by (intros ?%(pivot_labels _ _ _ _ Hp)%final_rows_code; set_solver).
  cbn [bind]. destruct x as [idx cols]. cbn [columns index] in *.
  do 3 (step_assign; cbv beta). step_select. reflexivity.
Qed.

Lemma calculate_profitability_eq self df x c1 c2 c203 c305 c308 c311 :
  _df_dfp self = Some df ->
  pivot CD_CONTA (final_rows profitability_codes df) = Ok x ->
  lookup_col "1" (columns x) = Some c1 ->
  lookup_col "2" (columns x) = Some c2 ->
  lookup_col "2.03" (columns x) = Some c203 ->
  lookup_col "3.05" (columns x) = Some c305 ->
  lookup_col "3.08" (columns x) = Some c308 ->
  lookup_col "3.11" (columns x) = Some c311 ->
  calculate_profitability self =
    Ok {| index := index x;
          columns :=
            [ ("roic", percent <$> zip_with Float64.div (zip_with Float64.sub c305 c308) c2);
              ("roe", percent <$> zip_with Float64.div c311 c203);
              ("roa", percent <$> zip_with Float64.div c311 c1) ] |}.
Proof.
  intros Hdf Hp H1 H2 H203 H305 H308 H311.
  unfold calculate_profitability, df_dfp. rewrite Hdf. cbn [bind].
  fold profitability_codes. fold (final_rows profitability_codes df).
  rewrite Hp. cbn [bind].
  rewrite reset_index_intro
    by (intros ?%(pivot_labels _ _ _ _ Hp)%final_rows_code; set_solver).
  cbn [bind]. destruct x as [idx cols]. cbn [columns index] in *.
  do 3 (step_assign; cbv beta). step_select. reflexivity.
Qed.

Lemma calculate_liquidity_eq self df x cx pc ac es da anc pnc :
  _df_dfp self = Some df ->
  pivot DS_CONTA (liquidity_rows df) = Ok x ->
  "DENOM_CIA" ∉ (columns x).*1 -> "DT_REFER" ∉ (columns x).*1 ->
  lookup_col "Caixa e Equivalentes de Caixa" (columns x) = Some cx ->
  lookup_col "Passivo Circulante" (columns x) = Some pc ->
  lookup_col "Ativo Circulante" (columns x) = Some ac ->
  lookup_col "Estoques" (columns x) = Some es ->
  lookup_col "Despesas Antecipadas" (columns x) = Some da ->
  lookup_col "Ativo Não Circulante" (columns x) = Some anc ->
  lookup_col "Passivo Não Circulante" (columns x) = Some pnc ->
  calculate_liquidity self =
    Ok {| index := index x;
          columns :=
            [ ("liquidez_imediata", zip_with Float64.div cx pc);
              ("liquidez_seca",
               zip_with Float64.div
                 (zip_with Float64.sub (zip_with Float64.sub ac es) da) pc);
              ("liquidez_corrente", zip_with Float64.div ac pc);
              ("liquidez_geral",
               zip_with Float64.div (zip_with Float64.add ac anc)
                 (zip_with Float64.add pc pnc)) ] |}.
Proof.
  intros Hdf Hp Hr1 Hr2 Hcx Hpc Hac Hes Hda Hanc Hpnc.
  unfold calculate_liquidity, df_dfp. rewrite Hdf. cbn [bind].
  fold (liquidity_rows df). rewrite Hp. cbn [bind].
  rewrite reset_index_intro by done.
  cbn [bind]. destruct x as [idx cols]. cbn [columns index] in *.
  do 4 (step_assign; cbv beta). step_select. reflexivity.
Qed.

(** X6. When the pivot of [calculate_efficiency] succeeds but lacks one
    of the code columns, the exception is the KeyError of the first
    absent code in reading order: 3.03, 3.01, 3.11, 3.05. *)
Theorem calculate_efficiency_first_absent self df i c :
  _df_dfp self = Some df ->
  NoDup (entries CD_CONTA (final_rows efficiency_codes df)) ->
  list_find (fun c => c ∉ CD_CONTA <$> final_rows efficiency_codes df)
    efficiency_read_order = Some (i, c) ->
  calculate_efficiency self = Raise (KeyError c).
Proof.
  intros Hdf Hnd Hfind.
  destruct (pivot_NoDup _ _ Hnd) as [x Hp].
  destruct (read_before_present _ _ _ _ _ _ Hp Hfind) as [Hc Hbefore].
  apply list_find_Some in Hfind as (Hi & _ & _).
  unfold calculate_efficiency, df_dfp. rewrite Hdf. cbn [bind].
  fold efficiency_codes. fold (final_rows efficiency_codes df). rewrite Hp. cbn [bind].
  rewrite reset_index_intro
    by (intros ?%(pivot_labels _ _ _ _ Hp)%final_rows_code; set_solver).
  cbn [bind]. destruct x as [idx cols]. cbn [columns index] in *.
  unfold efficiency_read_order in *.
  do 4 (destruct i as [|i]; [injection Hi as <-; have_cols Hbefore;
    repeat (step_assign; cbv beta); by fail_assign|]).
  done.
Qed.

(** X7. When the pivot of [calculate_profitability] succeeds but lacks
    one of the code columns, the exception is the KeyError of the first
    absent code in reading order: 3.05, 3.08, 2, 3.11, 2.03, 1. *)
Theorem calculate_profitability_first_absent self df i c :
  _df_dfp self = Some df ->
  NoDup (entries CD_CONTA (final_rows profitability_codes df)) ->
  list_find (fun c => c ∉ CD_CONTA <$> final_rows profitability_codes df)
    profitability_read_order = Some (i, c) ->
  calculate_profitability self = Raise (KeyError c).
Proof.
  intros Hdf Hnd Hfind.
  destruct (pivot_NoDup _ _ Hnd) as [x Hp].
  destruct (read_before_present _ _ _ _ _ _ Hp Hfind) as [Hc Hbefore].
  apply list_find_Some in Hfind as (Hi & _ & _).
  unfold calculate_profitability, df_dfp. rewrite Hdf. cbn [bind].
  fold profitability_codes. fold (final_rows profitability_codes df).
  rewrite Hp. cbn [bind].
  rewrite reset_index_intro
    by (intros ?%(pivot_labels _ _ _ _ Hp)%final_rows_code; set_solver).
  cbn [bind]. destruct x as [idx cols]. cbn [columns index] in *.
  unfold profitability_read_order in *.
  do 6 (destruct i as [|i]; [injection Hi as <-; have_cols Hbefore;
    repeat (step_assign; cbv beta); by fail_assign|]).
  done.
Qed.

Ltac eval_lookup :=
  repeat (rewrite lookup_col_cons;
          first [rewrite decide_True by done|rewrite decide_False by done]).

(** X2. When the rows [calculate_debt] keeps have no repeated (period,
    company, code) entry and hold its seven codes, it returns one row
    per (period, company), with divida_pl = (2.01.04 + 2.02.01) / 2.03,
    divida_ativos = (2.01.04 + 2.02.01) / 1, divida_ebit = (2.01.04 +
    2.02.01) / 3.05, pl_ativos = 2.03 / 1 and passivos_ativos = (2.01 +
    2.02) / 1. *)
Theorem calculate_debt_correct self df :
  _df_dfp self = Some df ->
  NoDup (entries CD_CONTA (final_rows debt_codes df)) ->
  (forall c, c ∈ debt_codes -> c ∈ CD_CONTA <$> final_rows debt_codes df) ->
  exists t,
    calculate_debt self = Ok t /\
    (forall k, k ∈ index t <->
       exists r, r ∈ final_rows debt_codes df /\ key r = k) /\
    forall i k, index t !! i = Some k ->
      let v := pivot_cell CD_CONTA (final_rows debt_codes df) k in
      let divida := Float64.add (v "2.01.04") (v "2.02.01") in
      cell t "divida_pl" i = Some (Float64.div divida (v "2.03")) /\
      cell t "divida_ativos" i = Some (Float64.div divida (v "1")) /\
      cell t "divida_ebit" i = Some (Float64.div divida (v "3.05")) /\
      cell t "pl_ativos" i = Some (Float64.div (v "2.03") (v "1")) /\
      cell t "passivos_ativos" i =
        Some (Float64.div (Float64.add (v "2.01") (v "2.02")) (v "1")).
Proof.
  intros Hdf Hnd Hall.
  destruct (pivot_NoDup _ _ Hnd) as [x Hp].
  assert (forall c, c ∈ debt_codes -> exists s, lookup_col c (columns x) = Some s)
    as Hcols by (intros c Hc; eapply pivot_column_Some; eauto).
  unfold debt_codes in Hcols.
  destruct (Hcols "2.01.04") as [a Ha]; [set_solver|].
  destruct (Hcols "2.02.01") as [b Hb]; [set_solver|].
  destruct (Hcols "2.03") as [c Hc]; [set_solver|].
  destruct (Hcols "1") as [d Hd]; [set_solver|].
  destruct (Hcols "3.05") as [e He]; [set_solver|].
  destruct (Hcols "2.01") as [f Hf]; [set_solver|].
  destruct (Hcols "2.02") as [g Hg]; [set_solver|].
  eexists. split; [by eapply calculate_debt_eq|]. cbn [index columns].
  split; [intros k; apply (pivot_index _ _ _ _ Hp)|].
  intros i k Hi. cbv zeta. unfold cell. cbn [columns]. eval_lookup. simpl.
  rewrite !lookup_zip_with.
  rewrite (pivot_column_cell _ _ _ _ _ _ _ Hp Ha Hi).
  rewrite (pivot_column_cell _ _ _ _ _ _ _ Hp Hb Hi).
  rewrite (pivot_column_cell _ _ _ _ _ _ _ Hp Hc Hi).
  rewrite (pivot_column_cell _ _ _ _ _ _ _ Hp Hd Hi).
  rewrite (pivot_column_cell _ _ _ _ _ _ _ Hp He Hi).
  rewrite (pivot_column_cell _ _ _ _ _ _ _ Hp Hf Hi).
  rewrite (pivot_column_cell _ _ _ _ _ _ _ Hp Hg Hi).
  done.
Qed.

(** What each calculator returns, read back from a returned table. *)
Lemma calculate_liquidity_spec self t :
  calculate_liquidity self = Ok t ->
  exists df x cx pc ac es da anc pnc,
    _df_dfp self = Some df /\
    pivot DS_CONTA (liquidity_rows df) = Ok x /\
    lookup_col "Caixa e Equivalentes de Caixa" (columns x) = Some cx /\
    lookup_col "Passivo Circulante" (columns x) = Some pc /\
    lookup_col "Ativo Circulante" (columns x) = Some ac /\
    lookup_col "Estoques" (columns x) = Some es /\
    lookup_col "Despesas Antecipadas" (columns x) = Some da /\
    lookup_col "Ativo Não Circulante" (columns x) = Some anc /\
    lookup_col "Passivo Não Circulante" (columns x) = Some pnc /\
    t = {| index := index x;
           columns :=
             [ ("liquidez_imediata", zip_with Float64.div cx pc);
               ("liquidez_seca",
                zip_with Float64.div
                  (zip_with Float64.sub (zip_with Float64.sub ac es) da) pc);
               ("liquidez_corrente", zip_with Float64.div ac pc);
               ("liquidez_geral",
                zip_with Float64.div (zip_with Float64.add ac anc)
                  (zip_with Float64.add pc pnc)) ] |}.
Proof.
  intros Ht. pose proof Ht as Ht'.
  unfold calculate_liquidity in Ht'. inv_res. norm_cols.
  destruct (_df_dfp self) as [df|] eqn:Hdf; [|done]. inv_res.
  do 9 eexists. split_and!; try done.
  erewrite calculate_liquidity_eq in Ht; try done. by injection Ht as <-.
Qed.

Lemma calculate_debt_spec self t :
  calculate_debt self = Ok t ->
  exists df x a b c d e f g,
    _df_dfp self = Some df /\
    pivot CD_CONTA (final_rows debt_codes df) = Ok x /\
    lookup_col "2.01.04" (columns x) = Some a /\
    lookup_col "2.02.01" (columns x) = Some b /\
    lookup_col "2.03" (columns x) = Some c /\
    lookup_col "1" (columns x) = Some d /\
    lookup_col "3.05" (columns x) = Some e /\
    lookup_col "2.01" (columns x) = Some f /\
    lookup_col "2.02" (columns x) = Some g /\
    t = {| index := index x;
           columns :=
             [ ("divida_pl", zip_with Float64.div (zip_with Float64.add a b) c);
               ("divida_ativos", zip_with Float64.div (zip_with Float64.add a b) d);
               ("divida_ebit", zip_with Float64.div (zip_with Float64.add a b) e);
               ("pl_ativos", zip_with Float64.div c d);
               ("passivos_ativos",
                zip_with Float64.div (zip_with Float64.add f g) d) ] |}.
Proof.
  intros Ht. pose proof Ht as Ht'.
  unfold calculate_debt in Ht'. inv_res. norm_cols.
  destruct (_df_dfp self) as [df|] eqn:Hdf; [|done]. inv_res.
  do 9 eexists. split_and!; try done.
  erewrite calculate_debt_eq in Ht; try done. by injection Ht as <-.
Qed.

Lemma calculate_efficiency_spec self t :
  calculate_efficiency self = Ok t ->
  exists df x a b c d,
    _df_dfp self = Some df /\
    pivot CD_CONTA (final_rows efficiency_codes df) = Ok x /\
    lookup_col "3.03" (columns x) = Some a /\
    lookup_col "3.01" (columns x) = Some b /\
    lookup_col "3.11" (columns x) = Some c /\
    lookup_col "3.05" (columns x) = Some d /\
    t = {| index := index x;
           columns :=
             [ ("margem_bruta", percent <$> zip_with Float64.div a b);
               ("margem_liquida", percent <$> zip_with Float64.div c b);
               ("margem_ebit", percent <$> zip_with Float64.div d b) ] |}.
Proof.
  intros Ht. pose proof Ht as Ht'.
  unfold calculate_efficiency in Ht'. inv_res. norm_cols.
  destruct (_df_dfp self) as [df|] eqn:Hdf; [|done]. inv_res.
  do 6 eexists. split_and!; try done.
  erewrite calculate_efficiency_eq in Ht; try done. by injection Ht as <-.
Qed.

Lemma calculate_profitability_spec self t :
  calculate_profitability self = Ok t ->
  exists df x c1 c2 c203 c305 c308 c311,
    _df_dfp self = Some df /\
    pivot CD_CONTA (final_rows profitability_codes df) = Ok x /\
    lookup_col "1" (columns x) = Some c1 /\
    lookup_col "2" (columns x) = Some c2 /\
    lookup_col "2.03" (columns x) = Some c203 /\
    lookup_col "3.05" (columns x) = Some c305 /\
    lookup_col "3.08" (columns x) = Some c308 /\
    lookup_col "3.11" (columns x) = Some c311 /\
    t = {| index := index x;
           columns :=
             [ ("roic", percent <$> zip_with Float64.div (zip_with Float64.sub c305 c308) c2);
               ("roe", percent <$> zip_with Float64.div c311 c203);
               ("roa", percent <$> zip_with Float64.div c311 c1) ] |}.
Proof.
  intros Ht. pose proof Ht as Ht'.
  unfold calculate_profitability in Ht'. inv_res. norm_cols.
  destruct (_df_dfp self) as [df|] eqn:Hdf; [|done]. inv_res.
  do 8 eexists. split_and!; try done.
  erewrite calculate_profitability_eq in Ht; try done. by injection Ht as <-.
Qed.

Ltac pivot_cells Hp Hi :=
  repeat match goal with
  | H : lookup_col ?c (columns _) = Some ?s |- context [?s !! _] =>
      rewrite (pivot_column_cell _ _ _ _ _ _ _ Hp H Hi)
  end.

(** X1. When the rows [calculate_liquidity] keeps have no repeated
    (period, company, description) entry and hold the seven descriptions
    it reads (none of them named like an index level), it returns one
    row per (period, company) of those rows, with
    liquidez_imediata = Caixa / PC, liquidez_seca = (AC - Estoques -
    Despesas Antecipadas) / PC, liquidez_corrente = AC / PC and
    liquidez_geral = (AC + ANC) / (PC + PNC), in float64 on the values of
    that (period, company), NaN standing for a missing one. *)
Theorem calculate_liquidity_correct self df :
  _df_dfp self = Some df ->
  NoDup (entries DS_CONTA (liquidity_rows df)) ->
  (forall c, c ∈ liquidity_labels -> c ∈ DS_CONTA <$> liquidity_rows df) ->
  "DENOM_CIA" ∉ DS_CONTA <$> liquidity_rows df ->
  "DT_REFER" ∉ DS_CONTA <$> liquidity_rows df ->
  exists t,
    calculate_liquidity self = Ok t /\
    (forall k, k ∈ index t <->
       exists r, r ∈ liquidity_rows df /\ key r = k) /\
    forall i k, index t !! i = Some k ->
      let v := pivot_cell DS_CONTA (liquidity_rows df) k in
      cell t "liquidez_imediata" i =
        Some (Float64.div (v "Caixa e Equivalentes de Caixa") (v "Passivo Circulante")) /\
      cell t "liquidez_seca" i =
        Some (Float64.div
                (Float64.sub (Float64.sub (v "Ativo Circulante") (v "Estoques"))
                   (v "Despesas Antecipadas"))
                (v "Passivo Circulante")) /\
      cell t "liquidez_corrente" i =
        Some (Float64.div (v "Ativo Circulante") (v "Passivo Circulante")) /\
      cell t "liquidez_geral" i =
        Some (Float64.div
                (Float64.add (v "Ativo Circulante") (v "Ativo Não Circulante"))
                (Float64.add (v "Passivo Circulante") (v "Passivo Não Circulante"))).
Proof.
  intros Hdf Hnd Hall Hr1 Hr2.
  destruct (calculate_liquidity_ok self df) as [t Ht]; try done.
  exists t. split; [done|].
  apply calculate_liquidity_spec in Ht
    as (df' & x & cx & pc & ac & es & da & anc & pnc & Hdf' & Hp
        & Hcx & Hpc & Hac & Hes & Hda & Hanc & Hpnc & ->).
  assert (df' = df) as -> by congruence. cbn [index columns].
  split; [intros k; apply (pivot_index _ _ _ _ Hp)|].
  intros i k Hi. cbv zeta. unfold cell. cbn [columns]. eval_lookup. simpl.
  rewrite !lookup_zip_with. pivot_cells Hp Hi. done.
Qed.

(** X3. When the rows [calculate_efficiency] keeps have no repeated
    entry and hold its four codes, it returns one row per (period,
    company), with margem_bruta = 3.03 / 3.01 * 100, margem_liquida =
    3.11 / 3.01 * 100 and margem_ebit = 3.05 / 3.01 * 100, the scaling
    after the division. *)
Theorem calculate_efficiency_correct self df :
  _df_dfp self = Some df ->
  NoDup (entries CD_CONTA (final_rows efficiency_codes df)) ->
  (forall c, c ∈ efficiency_codes ->
     c ∈ CD_CONTA <$> final_rows efficiency_codes df) ->
  exists t,
    calculate_efficiency self = Ok t /\
    (forall k, k ∈ index t <->
       exists r, r ∈ final_rows efficiency_codes df /\ key r = k) /\
    forall i k, index t !! i = Some k ->
      let v := pivot_cell CD_CONTA (final_rows efficiency_codes df) k in
      cell t "margem_bruta" i = Some (percent (Float64.div (v "3.03") (v "3.01"))) /\
      cell t "margem_liquida" i = Some (percent (Float64.div (v "3.11") (v "3.01"))) /\
      cell t "margem_ebit" i = Some (percent (Float64.div (v "3.05") (v "3.01"))).
Proof.
  intros Hdf Hnd Hall.
  destruct (pivot_NoDup _ _ Hnd) as [x Hp].
  assert (forall c, c ∈ efficiency_codes -> exists s, lookup_col c (columns x) = Some s)
    as Hcols by (intros c Hc; eapply pivot_column_Some; eauto).
  unfold efficiency_codes in Hcols.
  destruct (Hcols "3.03") as [a Ha]; [set_solver|].
  destruct (Hcols "3.01") as [b Hb]; [set_solver|].
  destruct (Hcols "3.11") as [c Hc]; [set_solver|].
  destruct (Hcols "3.05") as [d Hd]; [set_solver|].
  eexists. split; [by eapply calculate_efficiency_eq|]. cbn [index columns].
  split; [intros k; apply (pivot_index _ _ _ _ Hp)|].
  intros i k Hi. cbv zeta. unfold cell. cbn [columns]. eval_lookup. simpl.
  rewrite !list_lookup_fmap, !lookup_zip_with. pivot_cells Hp Hi. done.
Qed.

(** *** The shape of a ratio table *)

Lemma pivot_column_length col df x c s :
  pivot col df = Ok x -> lookup_col c (columns x) = Some s ->
  length s = length (index x).
Proof.
  intros Hp Hs. rewrite (pivot_lookup_col _ _ _ _ Hp) in Hs.
  case_decide; [|done]. injection Hs as <-. by rewrite length_fmap.
Qed.

Ltac col_lengths Hp :=
  repeat match goal with
  | H : lookup_col _ (columns _) = Some ?s |- _ =>
      lazymatch goal with
      | _ : length s = _ |- _ => fail
      | _ => pose proof (pivot_column_length _ _ _ _ _ Hp H)
      end
  end.

(** X8. A table a ratio family returns has exactly the family's ratio
    columns, in the order of the final selection (the account columns
    are gone), each with one value per row, and its rows are in ascending
    order of (DT_REFER, DENOM_CIA), each pair once. *)
Theorem ratio_table_shape self t :
  (calculate_liquidity self = Ok t ->
   (columns t).*1 =
     ["liquidez_imediata"; "liquidez_seca"; "liquidez_corrente"; "liquidez_geral"]
   /\ well_shaped t) /\
  (calculate_debt self = Ok t ->
   (columns t).*1 =
     ["divida_pl"; "divida_ativos"; "divida_ebit"; "pl_ativos"; "passivos_ativos"]
   /\ well_shaped t) /\
  (calculate_efficiency self = Ok t ->
   (columns t).*1 = ["margem_bruta"; "margem_liquida"; "margem_ebit"]
   /\ well_shaped t) /\
  (calculate_profitability self = Ok t ->
   (columns t).*1 = ["roic"; "roe"; "roa"] /\ well_shaped t).
Proof.
  split_and!.
  - intros (df & x & cx & pc & ac & es & da & anc & pnc & _ & Hp
            & ? & ? & ? & ? & ? & ? & ? & ->)%calculate_liquidity_spec.
    split; [done|]. unfold well_shaped. cbn [index columns]. col_lengths Hp.
    split_and!; [|by eapply pivot_index_sorted|by eapply pivot_index_NoDup].
    repeat constructor; cbn [snd]; rewrite ?length_fmap, ?length_zip_with; lia.
  - intros (df & x & a & b & c & d & e & f & g & _ & Hp
            & ? & ? & ? & ? & ? & ? & ? & ->)%calculate_debt_spec.
    split; [done|]. unfold well_shaped. cbn [index columns]. col_lengths Hp.
    split_and!; [|by eapply pivot_index_sorted|by eapply pivot_index_NoDup].
    repeat constructor; cbn [snd]; rewrite ?length_fmap, ?length_zip_with; lia.
  - intros (df & x & a & b & c & d & _ & Hp & ? & ? & ? & ? & ->)%calculate_efficiency_spec.
    split; [done|]. unfold well_shaped. cbn [index columns]. col_lengths Hp.
    split_and!; [|by eapply pivot_index_sorted|by eapply pivot_index_NoDup].
    repeat constructor; cbn [snd]; rewrite ?length_fmap, ?length_zip_with; lia.
  - intros (df & x & c1 & c2 & c203 & c305 & c308 & c311 & _ & Hp
            & ? & ? & ? & ? & ? & ? & ->)%calculate_profitability_spec.
    split; [done|]. unfold well_shaped. cbn [index columns]. col_lengths Hp.
    split_and!; [|by eapply pivot_index_sorted|by eapply pivot_index_NoDup].
    repeat constructor; cbn [snd]; rewrite ?length_fmap, ?length_zip_with; lia.
Qed.

(** *** What the ratio tables depend on *)

Lemma load_data_rows codes self bp dre companies :
  exists df,
    _df_dfp (load_data self bp dre companies) = Some df /\
    final_rows codes df = filter (kept codes companies) (bp ++ dre).
Proof.
  eexists. split; [reflexivity|]. unfold final_rows, kept.
  by rewrite list_filter_filter.
Qed.

Ltac same_pivot H :=
  unfold calculate_liquidity, calculate_debt, calculate_efficiency,
    calculate_profitability, df_dfp, load_data; cbn [_df_dfp bind];
  rewrite !list_filter_filter;
  erewrite pivot_perm; [reflexivity|exact H].

(** The ratio tables are a function of the rows each family keeps, as a
    set. *)
Lemma ratio_tables_depend_on_kept_rows self self' bp dre bp' dre' companies :
  (filter (kept liquidity_codes companies) (bp ++ dre)
     ≡ₚ filter (kept liquidity_codes companies) (bp' ++ dre') ->
   calculate_liquidity (load_data self bp dre companies)
     = calculate_liquidity (load_data self' bp' dre' companies)) /\
  (filter (kept debt_codes companies) (bp ++ dre)
     ≡ₚ filter (kept debt_codes companies) (bp' ++ dre') ->
   calculate_debt (load_data self bp dre companies)
     = calculate_debt (load_data self' bp' dre' companies)) /\
  (filter (kept efficiency_codes companies) (bp ++ dre)
     ≡ₚ filter (kept efficiency_codes companies) (bp' ++ dre') ->
   calculate_efficiency (load_data self bp dre companies)
     = calculate_efficiency (load_data self' bp' dre' companies)) /\
  (filter (kept profitability_codes companies) (bp ++ dre)
     ≡ₚ filter (kept profitability_codes companies) (bp' ++ dre') ->
   calculate_profitability (load_data self bp dre companies)
     = calculate_profitability (load_data self' bp' dre' companies)).
Proof.
  split_and!; intros H; same_pivot H.
Qed.

(** X10. The four ratio computations give the same result, table or
    exception, whatever the order of the rows given to [load_data] and
    however they are split between [bp] and [dre]. *)
Theorem ratio_tables_order_independent self self' bp dre bp' dre' companies :
  bp ++ dre ≡ₚ bp' ++ dre' ->
  calculate_liquidity (load_data self bp dre companies)
    = calculate_liquidity (load_data self' bp' dre' companies) /\
  calculate_debt (load_data self bp dre companies)
    = calculate_debt (load_data self' bp' dre' companies) /\
  calculate_efficiency (load_data self bp dre companies)
    = calculate_efficiency (load_data self' bp' dre' companies) /\
  calculate_profitability (load_data self bp dre companies)
    = calculate_profitability (load_data self' bp' dre' companies).
Proof.
  intros H.
  destruct (ratio_tables_depend_on_kept_rows self self' bp dre bp' dre' companies)
    as (H1 & H2 & H3 & H4).
  split_and!; [apply H1|apply H2|apply H3|apply H4]; by rewrite H.
Qed.

Lemma filter_kept_idem codes companies (bp dre : LongFrame) :
  filter (kept codes companies) (bp ++ dre)
  = filter (kept codes companies)
      (filter (kept codes companies) bp ++ filter (kept codes companies) dre).
Proof.
  rewrite <- filter_app, list_filter_filter. apply list_filter_iff. tauto.
Qed.

(** X11. Rows that are not final, belong to a company outside the list,
    or carry an account code the family does not read never change what
    a ratio family returns or raises: dropping them from [bp] and [dre]
    beforehand gives the same result. *)
Theorem ratio_tables_ignore_other_rows self bp dre companies :
  calculate_liquidity (load_data self bp dre companies)
    = calculate_liquidity
        (load_data self (filter (kept liquidity_codes companies) bp)
           (filter (kept liquidity_codes companies) dre) companies) /\
  calculate_debt (load_data self bp dre companies)
    = calculate_debt
        (load_data self (filter (kept debt_codes companies) bp)
           (filter (kept debt_codes companies) dre) companies) /\
  calculate_efficiency (load_data self bp dre companies)
    = calculate_efficiency
        (load_data self (filter (kept efficiency_codes companies) bp)
           (filter (kept efficiency_codes companies) dre) companies) /\
  calculate_profitability (load_data self bp dre companies)
    = calculate_profitability
        (load_data self (filter (kept profitability_codes companies) bp)
           (filter (kept profitability_codes companies) dre) companies).
Proof.
  split_and!.
  - eapply (ratio_tables_depend_on_kept_rows self self bp dre).
    by rewrite <- filter_kept_idem.
  - eapply (ratio_tables_depend_on_kept_rows self self bp dre).
    by rewrite <- filter_kept_idem.
  - eapply (ratio_tables_depend_on_kept_rows self self bp dre).
    by rewrite <- filter_kept_idem.
  - eapply (ratio_tables_depend_on_kept_rows self self bp dre).
    by rewrite <- filter_kept_idem.
Qed.

(** X9. Two distinct final rows of a listed company, in [bp] or [dre],
    for the same period, make a ratio family raise the pivot's
    ValueError as soon as the family keeps them and they agree on its
    pivot column: the description for liquidity, the code for the three
    others. *)
Theorem ratio_duplicate_rows_fail self bp dre companies i j r1 r2 :
  i <> j ->
  (bp ++ dre) !! i = Some r1 ->
  (bp ++ dre) !! j = Some r2 ->
  DT_REFER r1 = DT_REFER r2 ->
  DENOM_CIA r1 = DENOM_CIA r2 ->
  DENOM_CIA r1 ∈ companies ->
  ORDEM_EXERC r1 = "ÚLTIMO" ->
  ORDEM_EXERC r2 = "ÚLTIMO" ->
  let duplicate :=
    Raise (ValueError "Index contains duplicate entries, cannot reshape") in
  (DS_CONTA r1 = DS_CONTA r2 ->
   CD_CONTA r1 ∈ liquidity_codes -> CD_CONTA r2 ∈ liquidity_codes ->
   calculate_liquidity (load_data self bp dre companies) = duplicate) /\
  (CD_CONTA r1 = CD_CONTA r2 ->
   (CD_CONTA r1 ∈ debt_codes ->
    calculate_debt (load_data self bp dre companies) = duplicate) /\
   (CD_CONTA r1 ∈ efficiency_codes ->
    calculate_efficiency (load_data self bp dre companies) = duplicate) /\
   (CD_CONTA r1 ∈ profitability_codes ->
    calculate_profitability (load_data self bp dre companies) = duplicate)).
Proof.
  intros Hij Hi Hj Hdt Hcia Hc H1 H2 duplicate.
  assert (key r1 = key r2) as Hk by (unfold key; congruence).
  assert (forall (col : FilingRecord -> string) (codes : list string),
    col r1 = col r2 -> CD_CONTA r1 ∈ codes -> CD_CONTA r2 ∈ codes ->
    pivot col (filter (fun r => CD_CONTA r ∈ codes /\ ORDEM_EXERC r = "ÚLTIMO")
                 (filter (fun r => DENOM_CIA r ∈ companies) (bp ++ dre)))
    = duplicate) as Hdup.
  { intros col codes Hcol Hc1 Hc2. apply pivot_duplicate.
    rewrite list_filter_filter.
    apply (duplicate_after_filter _ (fun r => (key r, col r)) _ i j r1 r2);
      try done; [|congruence].
    split; [done|]. by rewrite <- Hcia. }
  split.
  - intros Hds Hc1 Hc2.
    unfold calculate_liquidity, df_dfp, load_data. cbn [_df_dfp bind].
    by rewrite (Hdup DS_CONTA).
  - intros Hcd. split_and!; intros Hc1.
    + unfold calculate_debt, df_dfp, load_data. cbn [_df_dfp bind].
      rewrite (Hdup CD_CONTA); [done..|]. by rewrite <- Hcd.
    + unfold calculate_efficiency, df_dfp, load_data. cbn [_df_dfp bind].
      rewrite (Hdup CD_CONTA); [done..|]. by rewrite <- Hcd.
    + unfold calculate_profitability, df_dfp, load_data. cbn [_df_dfp bind].
      rewrite (Hdup CD_CONTA); [done..|]. by rewrite <- Hcd.
Qed.

(** *** Accounts missing for one row *)

Lemma add_nan_l x : Float64.add Float64.nan x = Float64.nan.
Proof. done. Qed.

Lemma add_nan_r x : Float64.add x Float64.nan = Float64.nan.
Proof. by destruct x. Qed.

Lemma div_nan_r x : Float64.div x Float64.nan = Float64.nan.
Proof. by destruct x. Qed.

Lemma percent_nan : percent Float64.nan = Float64.nan.
Proof. done. Qed.

Ltac nan_absorbs :=
  repeat first [ rewrite add_nan_l | rewrite add_nan_r | rewrite sub_nan_l
               | rewrite sub_nan_r | rewrite div_nan_l | rewrite div_nan_r
               | rewrite percent_nan ].

Ltac enum_reads H :=
  rewrite !elem_of_cons, elem_of_nil in H; destruct_or!; simplify_eq.

Ltac nan_cell Hp Hi Habs :=
  unfold cell; cbn [columns]; eval_lookup; simpl;
  rewrite ?list_lookup_fmap, ?lookup_zip_with; pivot_cells Hp Hi; simpl;
  rewrite (pivot_cell_absent _ _ _ _ Habs); nan_absorbs; done.

(** X12. In a returned ratio table, a row whose (period, company) has no
    kept row for an account has NaN in every ratio that reads that
    account. *)
Theorem missing_account_gives_nan self df t i k ratio accounts c :
  _df_dfp self = Some df ->
  index t !! i = Some k ->
  c ∈ accounts ->
  (calculate_liquidity self = Ok t ->
   (ratio, accounts) ∈ liquidity_reads ->
   (forall r, r ∈ liquidity_rows df -> key r = k -> DS_CONTA r <> c) ->
   cell t ratio i = Some Float64.nan) /\
  (calculate_debt self = Ok t ->
   (ratio, accounts) ∈ debt_reads ->
   (forall r, r ∈ final_rows debt_codes df -> key r = k -> CD_CONTA r <> c) ->
   cell t ratio i = Some Float64.nan) /\
  (calculate_efficiency self = Ok t ->
   (ratio, accounts) ∈ efficiency_reads ->
   (forall r, r ∈ final_rows efficiency_codes df -> key r = k -> CD_CONTA r <> c) ->
   cell t ratio i = Some Float64.nan) /\
  (calculate_profitability self = Ok t ->
   (ratio, accounts) ∈ profitability_reads ->
   (forall r, r ∈ final_rows profitability_codes df -> key r = k -> CD_CONTA r <> c) ->
   cell t ratio i = Some Float64.nan).
Proof.
  intros Hdf Hi Hc. split_and!.
  - intros (df' & x & cx & pc & ac & es & da & anc & pnc & Hdf' & Hp
            & ? & ? & ? & ? & ? & ? & ? & ->)%calculate_liquidity_spec Hr Habs.
    assert (df' = df) as -> by congruence. cbn [index] in Hi.
    unfold liquidity_reads in Hr. enum_reads Hr; enum_reads Hc;
      nan_cell Hp Hi Habs.
  - intros (df' & x & a & b & c' & d & e & f & g & Hdf' & Hp
            & ? & ? & ? & ? & ? & ? & ? & ->)%calculate_debt_spec Hr Habs.
    assert (df' = df) as -> by congruence. cbn [index] in Hi.
    unfold debt_reads in Hr. enum_reads Hr; enum_reads Hc;
      nan_cell Hp Hi Habs.
  - intros (df' & x & a & b & c' & d & Hdf' & Hp
            & ? & ? & ? & ? & ->)%calculate_efficiency_spec Hr Habs.
    assert (df' = df) as -> by congruence. cbn [index] in Hi.
    unfold efficiency_reads in Hr. enum_reads Hr; enum_reads Hc;
      nan_cell Hp Hi Habs.
  - intros (df' & x & c1 & c2 & c203 & c305 & c308 & c311 & Hdf' & Hp
            & ? & ? & ? & ? & ? & ? & ->)%calculate_profitability_spec Hr Habs.
    assert (df' = df) as -> by congruence. cbn [index] in Hi.
    unfold profitability_reads in Hr. enum_reads Hr; enum_reads Hc;
      nan_cell Hp Hi Habs.
Qed.

(** *** The scenarios, run *)

Example acme_full_ratios :
  calculate_liquidity acme_indicators
  = Ok {| index := [("2023-12-31", "ACME S.A.")];
          columns :=
            [ ("liquidez_imediata", [Float64.div (Float64.of_Z 1) (Float64.of_Z 5)]);
              ("liquidez_seca", [Float64.div (Float64.of_Z 3) (Float64.of_Z 2)]);
              ("liquidez_corrente", [Float64.of_Z 2]);
              ("liquidez_geral", [Float64.of_Z 2]) ] |} /\
  calculate_debt acme_indicators
  = Ok {| index := [("2023-12-31", "ACME S.A.")];
          columns :=
            [ ("divida_pl", [Float64.div (Float64.of_Z 1) (Float64.of_Z 2)]);
              ("divida_ativos", [Float64.div (Float64.of_Z 1) (Float64.of_Z 4)]);
              ("divida_ebit", [Float64.div (Float64.of_Z 1) (Float64.of_Z 3)]);
              ("pl_ativos", [Float64.div (Float64.of_Z 1) (Float64.of_Z 2)]);
              ("passivos_ativos", [Float64.div (Float64.of_Z 1) (Float64.of_Z 2)]) ] |} /\
  calculate_efficiency acme_indicators
  = Ok {| index := [("2023-12-31", "ACME S.A.")];
          columns :=
            [ ("margem_bruta", [Float64.of_Z 40]);
              ("margem_liquida", [Float64.of_Z 5]);
              ("margem_ebit", [Float64.of_Z 30]) ] |}.
Proof. split_and!; vm_compute; reflexivity. Qed.

Lemma calculate_liquidity_correct_witness :
  exists t,
    calculate_liquidity acme_indicators = Ok t /\
    (forall k, k ∈ index t <->
       exists r, r ∈ liquidity_rows acme_full /\ key r = k) /\
    forall i k, index t !! i = Some k ->
      let v := pivot_cell DS_CONTA (liquidity_rows acme_full) k in
      cell t "liquidez_imediata" i =
        Some (Float64.div (v "Caixa e Equivalentes de Caixa") (v "Passivo Circulante")) /\
      cell t "liquidez_seca" i =
        Some (Float64.div
                (Float64.sub (Float64.sub (v "Ativo Circulante") (v "Estoques"))
                   (v "Despesas Antecipadas"))
                (v "Passivo Circulante")) /\
      cell t "liquidez_corrente" i =
        Some (Float64.div (v "Ativo Circulante") (v "Passivo Circulante")) /\
      cell t "liquidez_geral" i =
        Some (Float64.div
                (Float64.add (v "Ativo Circulante") (v "Ativo Não Circulante"))
                (Float64.add (v "Passivo Circulante") (v "Passivo Não Circulante"))).
Proof.
  apply (calculate_liquidity_correct acme_indicators acme_full).
  - reflexivity.
  - solve_dec.
  - apply Forall_forall. solve_dec.
  - solve_dec.
  - solve_dec.
Defined.

Lemma calculate_debt_correct_witness :
  exists t,
    calculate_debt acme_indicators = Ok t /\
    (forall k, k ∈ index t <->
       exists r, r ∈ final_rows debt_codes acme_full /\ key r = k) /\
    forall i k, index t !! i = Some k ->
      let v := pivot_cell CD_CONTA (final_rows debt_codes acme_full) k in
      let divida := Float64.add (v "2.01.04") (v "2.02.01") in
      cell t "divida_pl" i = Some (Float64.div divida (v "2.03")) /\
      cell t "divida_ativos" i = Some (Float64.div divida (v "1")) /\
      cell t "divida_ebit" i = Some (Float64.div divida (v "3.05")) /\
      cell t "pl_ativos" i = Some (Float64.div (v "2.03") (v "1")) /\
      cell t "passivos_ativos" i =
        Some (Float64.div (Float64.add (v "2.01") (v "2.02")) (v "1")).
Proof.
  apply (calculate_debt_correct acme_indicators acme_full).
  - reflexivity.
  - solve_dec.
  - apply Forall_forall. solve_dec.
Defined.

Lemma calculate_efficiency_correct_witness :
  exists t,
    calculate_efficiency acme_indicators = Ok t /\
    (forall k, k ∈ index t <->
       exists r, r ∈ final_rows efficiency_codes acme_full /\ key r = k) /\
    forall i k, index t !! i = Some k ->
      let v := pivot_cell CD_CONTA (final_rows efficiency_codes acme_full) k in
      cell t "margem_bruta" i = Some (percent (Float64.div (v "3.03") (v "3.01"))) /\
      cell t "margem_liquida" i = Some (percent (Float64.div (v "3.11") (v "3.01"))) /\
      cell t "margem_ebit" i = Some (percent (Float64.div (v "3.05") (v "3.01"))).
Proof.
  apply (calculate_efficiency_correct acme_indicators acme_full).
  - reflexivity.
  - solve_dec.
  - apply Forall_forall. solve_dec.
Defined.

Lemma calculate_debt_first_absent_witness :
  calculate_debt (load_data init acme_no_equity [] ["ACME S.A."])
    = Raise (KeyError "2.03").
Proof.
  apply (calculate_debt_first_absent _ acme_no_equity 2).
  - vm_compute. reflexivity.
  - solve_dec.
  - vm_compute. reflexivity.
Defined.

Lemma calculate_efficiency_first_absent_witness :
  calculate_efficiency (load_data init acme_no_revenue [] ["ACME S.A."])
    = Raise (KeyError "3.01").
Proof.
  apply (calculate_efficiency_first_absent _ acme_no_revenue 1).
  - vm_compute. reflexivity.
  - solve_dec.
  - vm_compute. reflexivity.
Defined.

Lemma calculate_profitability_first_absent_witness :
  calculate_profitability (load_data init acme_no_equity [] ["ACME S.A."])
    = Raise (KeyError "2.03").
Proof.
  apply (calculate_profitability_first_absent _ acme_no_equity 4).
  - vm_compute. reflexivity.
  - solve_dec.
  - vm_compute. reflexivity.
Defined.

Lemma ratio_table_shape_witness :
  exists t,
    calculate_debt acme_indicators = Ok t /\
    (columns t).*1 =
      ["divida_pl"; "divida_ativos"; "divida_ebit"; "pl_ativos"; "passivos_ativos"] /\
    well_shaped t.
Proof.
  eexists. split; [vm_compute; reflexivity|].
  apply (ratio_table_shape acme_indicators). vm_compute. reflexivity.
Defined.

Lemma ratio_tables_order_independent_witness :
  calculate_liquidity (load_data init acme_full [] ["ACME S.A."])
    = calculate_liquidity (load_data init [] (reverse acme_full) ["ACME S.A."]) /\
  calculate_debt (load_data init acme_full [] ["ACME S.A."])
    = calculate_debt (load_data init [] (reverse acme_full) ["ACME S.A."]) /\
  calculate_efficiency (load_data init acme_full [] ["ACME S.A."])
    = calculate_efficiency (load_data init [] (reverse acme_full) ["ACME S.A."]) /\
  calculate_profitability (load_data init acme_full [] ["ACME S.A."])
    = calculate_profitability (load_data init [] (reverse acme_full) ["ACME S.A."]).
Proof.
  apply (ratio_tables_order_independent init init acme_full [] [] (reverse acme_full)).
  rewrite app_nil_r, app_nil_l. by rewrite reverse_Permutation.
Defined.

(** The same rows given as [bp] and again as [dre]. *)
Lemma ratio_duplicate_rows_fail_witness :
  calculate_debt (load_data init acme_full acme_full ["ACME S.A."])
    = Raise (ValueError "Index contains duplicate entries, cannot reshape").
Proof.
  destruct (ratio_duplicate_rows_fail init acme_full acme_full ["ACME S.A."] 0 17
              (acme "1" "Ativo Total" (Float64.of_Z 400))
              (acme "1" "Ativo Total" (Float64.of_Z 400)))
    as (_ & H).
  - lia.
  - reflexivity.
  - reflexivity.
  - reflexivity.
  - reflexivity.
  - solve_dec.
  - reflexivity.
  - reflexivity.
  - destruct (H eq_refl) as (Hd & _). apply Hd. solve_dec.
Defined.

Lemma missing_account_gives_nan_witness :
  exists t,
    calculate_liquidity
      (load_data init two_companies [] ["ACME S.A."; "BETA S.A."]) = Ok t /\
    cell t "liquidez_seca" 1 = Some Float64.nan.
Proof.
  eexists. split; [vm_compute; reflexivity|].
  match goal with |- cell ?t _ _ = _ =>
    destruct (missing_account_gives_nan
                (load_data init two_companies [] ["ACME S.A."; "BETA S.A."])
                two_companies t 1 ("2023-12-31", "BETA S.A.") "liquidez_seca"
                ["Ativo Circulante"; "Estoques"; "Despesas Antecipadas";
                 "Passivo Circulante"]
                "Estoques") as (H & _)
  end.
  - reflexivity.
  - reflexivity.
  - solve_dec.
  - apply H.
    + vm_compute. reflexivity.
    + solve_dec.
    + apply (Forall_forall
               (fun r => key r = ("2023-12-31", "BETA S.A.") -> DS_CONTA r <> "Estoques")).
      solve_dec.
Defined.

(** * More of the reshapers *)

Lemma income_statement_rows_label self dre c :
  c ∈ DS_CONTA <$> income_statement_rows self dre ->
  c ∈ [ "Receita de Venda de Bens e/ou Serviços";
        "Custo dos Bens e/ou Serviços Vendidos";
        "Lucro/Prejuízo Consolidado do Período" ].
Proof.
  intros (r & -> & Hr)%list_elem_of_fmap.
  apply list_elem_of_filter in Hr. tauto.
Qed.

Lemma cash_flow_rows_label self dfc c :
  c ∈ DS_CONTA <$> cash_flow_rows self dfc ->
  c ∈ [ "Caixa Líquido Atividades Operacionais";
        "Caixa Líquido Atividades de Investimento";
        "Caixa Líquido Atividades de Financiamento";
        "Aumento (Redução) de Caixa e Equivalentes";
        "Saldo Inicial de Caixa e Equivalentes";
        "Saldo Final de Caixa e Equivalentes" ].
Proof.
  intros (r & -> & Hr)%list_elem_of_fmap.
  apply list_elem_of_filter in Hr. tauto.
Qed.

(** No description a reshaper keeps is the name of the derived column
    or of an index level. *)
Lemma kept_rows_label st self s e rows c :
  kept_rows st self s e = Some rows -> c ∈ DS_CONTA <$> rows ->
  c <> "passivo" /\ c <> "DENOM_CIA" /\ c <> "DT_REFER".
Proof.
  destruct st; simpl.
  - destruct (FP.data_dir self !! bpa_file s e); [|done].
    destruct (FP.data_dir self !! bpp_file s e); [|done].
    intros [= <-] H%balance_sheet_rows_label. set_solver.
  - destruct (FP.data_dir self !! dre_file s e); [|done].
    intros [= <-] H%income_statement_rows_label. set_solver.
  - destruct (FP.data_dir self !! dfc_file s e); [|done].
    intros [= <-] H%cash_flow_rows_label. set_solver.
Qed.

Lemma reset_index_pivot st self s e rows x :
  kept_rows st self s e = Some rows -> pivot DS_CONTA rows = Ok x ->
  reset_index x = Ok x.
Proof.
  intros Hk Hp. apply reset_index_intro;
    intros Hin%(pivot_labels _ _ _ _ Hp)%(kept_rows_label _ _ _ _ _ _ Hk); tauto.
Qed.

(** A reshaper, from the rows it keeps on: the pivot, and for the
    balance sheet the derived column; the index levels always go back
    in. *)
Lemma process_eq st self s e rows :
  kept_rows st self s e = Some rows ->
  process st self s e =
    let* x := pivot DS_CONTA rows in
    match st with
    | BalanceSheet =>
        assign "passivo" (fun x =>
          getitem x "Passivo Total"
          - getitem x "Patrimônio Líquido Consolidado")%series x
    | IncomeStatement | CashFlow => Ok x
    end.
Proof.
  intros Hk. pose proof Hk as Hk'. destruct st; simpl in Hk |- *.
  - destruct (FP.data_dir self !! bpa_file s e) as [bpa|] eqn:Ha; [|done].
    destruct (FP.data_dir self !! bpp_file s e) as [bpp|] eqn:Hb; [|done].
    injection Hk as <-.
    unfold FP.process_balance_sheet, FP._load_statement.
    fold (bpa_file s e). fold (bpp_file s e). rewrite Ha, Hb. cbn [bind].
    fold (balance_sheet_rows self (bpa ++ bpp)).
    destruct (pivot DS_CONTA (balance_sheet_rows self (bpa ++ bpp)))
      as [x|err] eqn:Hp; cbn [bind]; [|done].
    destruct (assign _ _ x) as [y|err] eqn:Hy; cbn [bind]; [|done].
    apply assign_ok in Hy as (s0 & _ & _ & Hcols).
    rewrite reset_index_intro; [done|..]; rewrite Hcols;
      intros [?|Hin%(pivot_labels _ _ _ _ Hp)%(kept_rows_label _ _ _ _ _ _ Hk')]%set_col_labels;
      try done; tauto.
  - destruct (FP.data_dir self !! dre_file s e) as [dre|] eqn:Hd; [|done].
    injection Hk as <-.
    unfold FP.process_income_statement, FP._load_statement.
    fold (dre_file s e). rewrite Hd. cbn [bind].
    fold (income_statement_rows self dre).
    destruct (pivot DS_CONTA (income_statement_rows self dre))
      as [x|err] eqn:Hp; cbn [bind]; [|done].
    by rewrite (reset_index_pivot _ _ _ _ _ _ Hk' Hp).
  - destruct (FP.data_dir self !! dfc_file s e) as [dfc|] eqn:Hd; [|done].
    injection Hk as <-.
    unfold FP.process_cash_flow, FP._load_statement.
    fold (dfc_file s e). rewrite Hd. cbn [bind].
    fold (cash_flow_rows self dfc).
    destruct (pivot DS_CONTA (cash_flow_rows self dfc))
      as [x|err] eqn:Hp; cbn [bind]; [|done].
    by rewrite (reset_index_pivot _ _ _ _ _ _ Hk' Hp).
Qed.

Lemma set_col_new c s cols :
  c ∉ cols.*1 -> set_col c s cols = cols ++ [(c, s)].
Proof.
  induction cols as [|[n s0] cols IH]; [done|]. simpl. intros Hc.
  rewrite decide_False by set_solver. rewrite IH; [done|set_solver].
Qed.

Lemma lookup_col_app_l c s cols cols' :
  lookup_col c cols = Some s -> lookup_col c (cols ++ cols') = Some s.
Proof.
  induction cols as [|[n s0] cols IH]; [done|]. simpl.
  destruct (decide (n = c)); [done|]. apply IH.
Qed.

Lemma lookup_col_app_r c cols cols' :
  lookup_col c cols = None -> lookup_col c (cols ++ cols') = lookup_col c cols'.
Proof.
  induction cols as [|[n s0] cols IH]; [done|]. simpl.
  destruct (decide (n = c)); [done|]. apply IH.
Qed.

(** A table a reshaper returns, from the pivot of the rows it keeps. *)
Lemma process_inv st self s e t :
  process st self s e = Ok t ->
  exists rows x,
    kept_rows st self s e = Some rows /\
    pivot DS_CONTA rows = Ok x /\
    index t = index x /\
    match st with
    | BalanceSheet =>
        exists pt pl,
          lookup_col "Passivo Total" (columns x) = Some pt /\
          lookup_col "Patrimônio Líquido Consolidado" (columns x) = Some pl /\
          columns t = columns x ++ [("passivo", zip_with Float64.sub pt pl)]
    | IncomeStatement | CashFlow => columns t = columns x
    end.
Proof.
  destruct st; simpl.
  - intros (bpa & bpp & x & pt & pl & Ha & Hb & Hp & Hidx & Hpt & Hpl & Hcols)%process_balance_sheet_inv.
    exists (balance_sheet_rows self (bpa ++ bpp)), x. rewrite Ha, Hb.
    split_and!; [done..|]. exists pt, pl. split_and!; [done..|].
    rewrite Hcols. apply set_col_new.
    intros Hin%(pivot_labels _ _ _ _ Hp)%balance_sheet_rows_label. set_solver.
  - intros (dre & Hd & Hp)%process_income_statement_inv.
    exists (income_statement_rows self dre), t. by rewrite Hd.
  - intros (dfc & Hd & Hp)%process_cash_flow_inv.
    exists (cash_flow_rows self dfc), t. by rewrite Hd.
Qed.

(** The cells of the pivot are the cells of the reshaped table. *)
Lemma process_inv_cell st self s e t :
  process st self s e = Ok t ->
  exists rows x,
    kept_rows st self s e = Some rows /\
    pivot DS_CONTA rows = Ok x /\
    index t = index x /\
    forall c i v, cell x c i = Some v -> cell t c i = Some v.
Proof.
  intros (rows & x & Hk & Hp & Hidx & Hcols)%process_inv.
  exists rows, x. split_and!; [done..|]. intros c i v. unfold cell.
  destruct st; [|by rewrite Hcols..].
  destruct Hcols as (pt & pl & _ & _ & ->).
  destruct (lookup_col c (columns x)) as [s0|] eqn:Hs; [|done].
  by rewrite (lookup_col_app_l _ _ _ _ Hs).
Qed.

Lemma pivot_kept_cell col (rows : LongFrame) x r :
  pivot col rows = Ok x -> r ∈ rows ->
  exists i, index x !! i = Some (key r) /\ cell x (col r) i = Some (VL_CONTA r).
Proof.
  intros Hp Hr. pose proof Hp as (Hnd & _)%pivot_ok.
  destruct (index_lookup_key _ _ _ _ Hp Hr) as [i Hi]. exists i. split; [done|].
  destruct (pivot_column_Some _ _ _ (col r) Hp) as [s Hs].
  { apply list_elem_of_fmap. eauto. }
  unfold cell. rewrite Hs. simpl.
  rewrite (pivot_column_cell _ _ _ _ _ _ _ Hp Hs Hi). by rewrite pivot_cell_in.
Qed.

(** X13. Every row a reshaper keeps is found again in the table it
    returns: at the row of its (period, company), in the column of its
    description, stands its value. *)
Theorem reshaped_cell_values st self s e t rows r :
  process st self s e = Ok t ->
  kept_rows st self s e = Some rows ->
  r ∈ rows ->
  exists i, index t !! i = Some (key r) /\
            cell t (DS_CONTA r) i = Some (VL_CONTA r).
Proof.
  intros (rows' & x & Hk' & Hp & Hidx & Hcell)%process_inv_cell Hk Hr.
  assert (rows' = rows) as -> by congruence.
  destruct (pivot_kept_cell _ _ _ _ Hp Hr) as (i & Hi & Hc).
  exists i. rewrite Hidx. eauto.
Qed.

Lemma pivot_labels_sorted col (rows : LongFrame) x :
  pivot col rows = Ok x ->
  StronglySorted str_le (columns x).*1 /\ NoDup (columns x).*1 /\
  forall c, c ∈ (columns x).*1 <-> c ∈ col <$> rows.
Proof.
  intros (_ & _ & ->)%pivot_ok.
  assert (forall (f : string -> Series) (l : list string),
            ((fun c => (c, f c)) <$> l).*1 = l) as ->.
  { intros f l. induction l as [|c l IH]; [done|].
    rewrite !fmap_cons. cbn [fst]. by f_equal. }
  split_and!.
  - apply StronglySorted_merge_sort; apply _.
  - apply NoDup_sort_dups.
  - intros c. apply elem_of_sort_dups.
Qed.

Lemma pivot_columns_length col (rows : LongFrame) x :
  pivot col rows = Ok x ->
  Forall (fun c => length c.2 = length (index x)) (columns x).
Proof.
  intros Hp. pose proof Hp as (_ & _ & ->)%pivot_ok.
  apply Forall_fmap, Forall_forall. intros c _. simpl. by rewrite length_fmap.
Qed.

(** X14. A table a reshaper returns has one row per (period, company)
    of the rows it keeps and one column per description among them, the
    columns in ascending order of description and, for the balance
    sheet, passivo after them; every column has one value per row. *)
Theorem reshaped_table_shape st self s e t :
  process st self s e = Ok t ->
  exists rows labels,
    kept_rows st self s e = Some rows /\
    (columns t).*1 = labels ++ derived_labels st /\
    StronglySorted str_le labels /\ NoDup labels /\
    (forall c, c ∈ labels <-> c ∈ DS_CONTA <$> rows) /\
    (forall k, k ∈ index t <-> k ∈ key <$> rows) /\
    Forall (fun c => length c.2 = length (index t)) (columns t).
Proof.
  intros (rows & x & Hk & Hp & Hidx & Hcols)%process_inv.
  exists rows, (columns x).*1.
  destruct (pivot_labels_sorted _ _ _ Hp) as (Hs & Hn & Hl).
  pose proof (pivot_columns_length _ _ _ Hp) as Hlen.
  split_and!; try done.
  - destruct st; simpl.
    + destruct Hcols as (pt & pl & _ & _ & ->). by rewrite fmap_app.
    + by rewrite Hcols, app_nil_r.
    + by rewrite Hcols, app_nil_r.
  - intros k. rewrite Hidx, (pivot_index _ _ _ _ Hp), list_elem_of_fmap.
    naive_solver.
  - rewrite Hidx. destruct st; [|by rewrite Hcols..].
    destruct Hcols as (pt & pl & Hpt & Hpl & ->).
    apply Forall_app. split; [done|]. repeat constructor. cbn [snd].
    rewrite length_zip_with.
    rewrite (pivot_column_length _ _ _ _ _ Hp Hpt).
    rewrite (pivot_column_length _ _ _ _ _ Hp Hpl). lia.
Qed.

(** X15. A reshaper one of whose files is not there raises
    FileNotFoundError for the first of them in loading order: the
    assets file before the liabilities file for the balance sheet. *)
Theorem reshaper_first_missing_file st self s e i f :
  list_find (fun f => FP.data_dir self !! f = None) (files st s e) = Some (i, f) ->
  process st self s e = Raise (FileNotFoundError f).
Proof.
  intros (Hi & Hf & Hbefore)%list_find_Some.
  destruct st; simpl in Hi |- *.
  - unfold FP.process_balance_sheet, FP._load_statement.
    fold (bpa_file s e). fold (bpp_file s e).
    destruct i as [|[|i]]; [| |done]; injection Hi as <-.
    + by rewrite Hf.
    + destruct (FP.data_dir self !! bpa_file s e) as [bpa|] eqn:Ha.
      * by rewrite Hf.
      * by destruct (Hbefore 0 (bpa_file s e)); [|lia|].
  - unfold FP.process_income_statement, FP._load_statement.
    fold (dre_file s e). destruct i; [|done]. injection Hi as <-. by rewrite Hf.
  - unfold FP.process_cash_flow, FP._load_statement.
    fold (dfc_file s e). destruct i; [|done]. injection Hi as <-. by rewrite Hf.
Qed.

(** X16. With its files there, a reshaper raises the pivot's ValueError
    exactly when two of the rows it keeps share (period, company,
    description), before any column is read; otherwise the income
    statement and the cash flow always return a table, and the balance
    sheet does when both operands of passivo occur among the kept
    descriptions. *)
Theorem reshaper_outcome st self s e rows :
  kept_rows st self s e = Some rows ->
  (~ NoDup (entries DS_CONTA rows) ->
   process st self s e
     = Raise (ValueError "Index contains duplicate entries, cannot reshape")) /\
  (NoDup (entries DS_CONTA rows) ->
   (st = BalanceSheet ->
    forall c, c ∈ passivo_read_order -> c ∈ DS_CONTA <$> rows) ->
   exists t, process st self s e = Ok t).
Proof.
  intros Hk. rewrite (process_eq _ _ _ _ _ Hk). split.
  - intros Hd. by rewrite pivot_duplicate.
  - intros [x Hp]%pivot_NoDup Hread. rewrite Hp. cbn [bind].
    destruct st; [|eauto..].
    destruct (pivot_column_Some _ _ _ "Passivo Total" Hp) as [pt Hpt].
    { apply Hread; [done|]. set_solver. }
    destruct (pivot_column_Some _ _ _ "Patrimônio Líquido Consolidado" Hp)
      as [pl Hpl].
    { apply Hread; [done|]. set_solver. }
    eexists. apply assign_intro. cbv beta. series_expr.
Qed.

(** X17. When the pivot of the balance sheet succeeds but one operand
    of passivo occurs in no kept row, the reshaper raises KeyError for
    the first absent of 'Passivo Total' and 'Patrimônio Líquido
    Consolidado'. *)
Theorem balance_sheet_first_absent self s e rows i c :
  kept_rows BalanceSheet self s e = Some rows ->
  NoDup (entries DS_CONTA rows) ->
  list_find (fun c => c ∉ DS_CONTA <$> rows) passivo_read_order = Some (i, c) ->
  FP.process_balance_sheet self s e = Raise (KeyError c).
Proof.
  intros Hk [x Hp]%pivot_NoDup Hfind.
  change (process BalanceSheet self s e = Raise (KeyError c)).
  rewrite (process_eq _ _ _ _ _ Hk), Hp. cbn [bind].
  destruct (read_before_present _ _ _ _ _ _ Hp Hfind) as [Hc Hbefore].
  apply list_find_Some in Hfind as (Hi & _ & _).
  unfold passivo_read_order in *.
  do 2 (destruct i as [|i]; [injection Hi as <-; have_cols Hbefore;
    apply assign_raise; cbv beta; series_fail|]).
  done.
Qed.

(** X18. Rows that are not final, or that belong to a company outside
    the processor's list, never change what a reshaper returns or
    raises: dropping them from every file beforehand gives the same
    result. *)
Theorem reshapers_ignore_other_rows st self s e :
  process st (relevant_only self) s e = process st self s e.
Proof.
  destruct st; simpl.
  - unfold FP.process_balance_sheet, FP._load_statement. cbn [FP.data_dir FP.companies relevant_only].
    rewrite !lookup_fmap.
    destruct (FP.data_dir self !! _) as [bpa|]; [|done].
    destruct (FP.data_dir self !! _) as [bpp|]; [|done].
    cbn [fmap option_fmap option_map bind].
    rewrite <- filter_app.
    set (P := fun r : FilingRecord => _ /\ _ /\ _).
    assert (filter P (filter (relevant self) (bpa ++ bpp)) = filter P (bpa ++ bpp))
      as ->; [|done].
    rewrite list_filter_filter. apply list_filter_iff.
    unfold P, relevant. tauto.
  - unfold FP.process_income_statement, FP._load_statement. cbn [FP.data_dir FP.companies relevant_only].
    rewrite !lookup_fmap.
    destruct (FP.data_dir self !! _) as [dre|]; [|done].
    cbn [fmap option_fmap option_map bind].
    set (P := fun r : FilingRecord => _ /\ _ /\ _ /\ _).
    assert (filter P (filter (relevant self) dre) = filter P dre) as ->; [|done].
    rewrite list_filter_filter. apply list_filter_iff.
    unfold P, relevant. tauto.
  - unfold FP.process_cash_flow, FP._load_statement. cbn [FP.data_dir FP.companies relevant_only].
    rewrite !lookup_fmap.
    destruct (FP.data_dir self !! _) as [dfc|]; [|done].
    cbn [fmap option_fmap option_map bind].
    set (P := fun r : FilingRecord => _ /\ _ /\ _).
    assert (filter P (filter (relevant self) dfc) = filter P dfc) as ->; [|done].
    rewrite list_filter_filter. apply list_filter_iff.
    unfold P, relevant. tauto.
Qed.

(** X19. A (period, company) of a reshaped table that has no kept row
    with a description the table has a column for holds NaN there; and
    on the balance sheet its passivo is NaN as soon as it lacks the
    'Passivo Total' row or the 'Patrimônio Líquido Consolidado' row. *)
Theorem reshaped_missing_cell st self s e t rows i k c :
  process st self s e = Ok t ->
  kept_rows st self s e = Some rows ->
  index t !! i = Some k ->
  (forall r, r ∈ rows -> key r = k -> DS_CONTA r <> c) ->
  (c ∈ DS_CONTA <$> rows -> cell t c i = Some Float64.nan) /\
  (st = BalanceSheet -> c ∈ passivo_read_order ->
   cell t "passivo" i = Some Float64.nan).
Proof.
  intros Ht Hk Hi Habs.
  pose proof Ht as (rows' & x & Hk' & Hp & Hidx & Hcell)%process_inv_cell.
  assert (rows' = rows) as -> by congruence. rewrite Hidx in Hi.
  pose proof (pivot_cell_absent DS_CONTA rows k c Habs) as Hnan.
  split.
  - intros Hc. apply Hcell.
    destruct (pivot_column_Some _ _ _ c Hp Hc) as [s0 Hs]. unfold cell.
    rewrite Hs. simpl. by rewrite (pivot_column_cell _ _ _ _ _ _ _ Hp Hs Hi), Hnan.
  - intros -> Hc.
    apply process_inv in Ht as (rows' & x' & Hk'' & Hp' & _ & Hcols).
    assert (rows' = rows) as -> by congruence.
    assert (x' = x) as -> by congruence.
    destruct Hcols as (pt & pl & Hpt & Hpl & Hcols).
    unfold cell. rewrite Hcols, lookup_col_app_r.
    2:{ apply (pivot_column_None _ _ _ _ Hp).
        intros Hin%(kept_rows_label _ _ _ _ _ _ Hk). tauto. }
    simpl. rewrite lookup_zip_with.
    rewrite (pivot_column_cell _ _ _ _ _ _ _ Hp Hpt Hi).
    rewrite (pivot_column_cell _ _ _ _ _ _ _ Hp Hpl Hi). simpl.
    unfold passivo_read_order in Hc.
    apply elem_of_cons in Hc as [->|Hc].
    + by rewrite Hnan, sub_nan_l.
    + apply elem_of_cons in Hc as [->|Hc]; [|by apply elem_of_nil in Hc].
      by rewrite Hnan, sub_nan_r.
Qed.
(** *** The reshaper scenarios, run *)

Lemma reshaped_cell_values_witness :
  exists i,
    index mixed_balance_sheet !! i = Some ("2023-12-31", "ACME S.A.") /\
    cell mixed_balance_sheet "Passivo Total" i = Some (Float64.of_Z 400).
Proof.
  apply (reshaped_cell_values BalanceSheet mixed_processor 2023 2023
           mixed_balance_sheet
           (default [] (kept_rows BalanceSheet mixed_processor 2023 2023))
           (acme "2" "Passivo Total" (Float64.of_Z 400))).
  - vm_compute. reflexivity.
  - vm_compute. reflexivity.
  - solve_dec.
Defined.

Lemma reshaped_table_shape_witness :
  exists rows labels,
    kept_rows BalanceSheet mixed_processor 2023 2023 = Some rows /\
    (columns mixed_balance_sheet).*1 = labels ++ ["passivo"] /\
    StronglySorted str_le labels /\ NoDup labels /\
    (forall c, c ∈ labels <-> c ∈ DS_CONTA <$> rows) /\
    (forall k, k ∈ index mixed_balance_sheet <-> k ∈ key <$> rows) /\
    Forall (fun c => length c.2 = length (index mixed_balance_sheet))
      (columns mixed_balance_sheet).
Proof.
  apply (reshaped_table_shape BalanceSheet mixed_processor 2023 2023
           mixed_balance_sheet).
  vm_compute. reflexivity.
Defined.

Lemma reshaper_first_missing_file_witness :
  FP.process_balance_sheet assets_only_processor 2023 2023
    = Raise (FileNotFoundError (bpp_file 2023 2023)).
Proof.
  apply (reshaper_first_missing_file BalanceSheet assets_only_processor
           2023 2023 1).
  vm_compute. reflexivity.
Defined.

Lemma reshaper_outcome_witness :
  FP.process_income_statement statements_processor 2023 2023
    = Raise (ValueError "Index contains duplicate entries, cannot reshape") /\
  exists t, FP.process_cash_flow statements_processor 2023 2023 = Ok t.
Proof.
  split.
  - destruct (reshaper_outcome IncomeStatement statements_processor 2023 2023
                (default [] (kept_rows IncomeStatement statements_processor 2023 2023)))
      as [H _].
    + vm_compute. reflexivity.
    + apply H. solve_dec.
  - destruct (reshaper_outcome CashFlow statements_processor 2023 2023
                (default [] (kept_rows CashFlow statements_processor 2023 2023)))
      as [_ H].
    + vm_compute. reflexivity.
    + apply H; [solve_dec|]. intros [=].
Defined.

Lemma balance_sheet_first_absent_witness :
  FP.process_balance_sheet statements_processor 2023 2023
    = Raise (KeyError "Patrimônio Líquido Consolidado").
Proof.
  apply (balance_sheet_first_absent statements_processor 2023 2023
           (default [] (kept_rows BalanceSheet statements_processor 2023 2023))
           1).
  - vm_compute. reflexivity.
  - solve_dec.
  - vm_compute. reflexivity.
Defined.

(** Without the rows of the bank the table is the same. *)
Example other_rows_ignored :
  FP.process_balance_sheet (relevant_only mixed_processor) 2023 2023
    = Ok mixed_balance_sheet /\
  (filter (relevant mixed_processor) <$> mixed_dir) !! bpa_file 2023 2023
    = Some [ acme "1" "Ativo Total" (Float64.of_Z 400) ].
Proof. split; vm_compute; reflexivity. Qed.

Lemma reshaped_missing_cell_witness :
  exists t,
    FP.process_balance_sheet unordered_processor 2022 2023 = Ok t /\
    index t !! 3 = Some ("2023-12-31", "BETA S.A.") /\
    cell t "Patrimônio Líquido Consolidado" 3 = Some Float64.nan /\
    cell t "passivo" 3 = Some Float64.nan.
Proof.
  eexists. split; [vm_compute; reflexivity|]. split; [reflexivity|].
  match goal with |- cell ?t _ _ = _ /\ _ =>
    destruct (reshaped_missing_cell BalanceSheet unordered_processor 2022 2023 t
                (default [] (kept_rows BalanceSheet unordered_processor 2022 2023))
                3 ("2023-12-31", "BETA S.A.") "Patrimônio Líquido Consolidado")
      as (H1 & H2)
  end.
  - reflexivity.
  - vm_compute. reflexivity.
  - reflexivity.
  - apply (Forall_forall
             (fun r => key r = ("2023-12-31", "BETA S.A.") ->
                       DS_CONTA r <> "Patrimônio Líquido Consolidado")).
    solve_dec.
  - split; [apply H1; solve_dec|apply H2; [reflexivity|solve_dec]].
Defined.

(** *** The columns of a reshaped table *)

Lemma kept_rows_accounts st self s e rows c :
  kept_rows st self s e = Some rows -> c ∈ DS_CONTA <$> rows ->
  c ∈ accounts st.
Proof.
  destruct st; simpl.
  - destruct (FP.data_dir self !! bpa_file s e); [|done].
    destruct (FP.data_dir self !! bpp_file s e); [|done].
    intros [= <-]. apply balance_sheet_rows_label.
  - destruct (FP.data_dir self !! dre_file s e); [|done].
    intros [= <-]. apply income_statement_rows_label.
  - destruct (FP.data_dir self !! dfc_file s e); [|done].
    intros [= <-]. apply cash_flow_rows_label.
Qed.

(** X27. Besides the two index levels, every column of a table a
    reshaper returns is labelled with one of the descriptions the
    reshaper lists, or is the derived passivo: the reshaped tables carry
    no CD_CONTA and no ORDEM_EXERC column, which the ratio engine reads
    from the frames it is loaded with. *)
Theorem reshaped_labels_listed st self s e t :
  process st self s e = Ok t ->
  (forall c, c ∈ (columns t).*1 -> c ∈ accounts st ++ derived_labels st) /\
  ("CD_CONTA" ∉ (columns t).*1) /\ ("ORDEM_EXERC" ∉ (columns t).*1).
Proof.
  intros (rows & x & Hk & Hp & _ & Hcols)%process_inv.
  assert (forall c, c ∈ (columns t).*1 -> c ∈ accounts st ++ derived_labels st)
    as Hl.
  { intros c Hc. apply elem_of_app.
    assert (c ∈ (columns x).*1 \/ c ∈ derived_labels st) as [Hx|Hd].
    { destruct st; [|left; by rewrite <- Hcols..].
      destruct Hcols as (pt & pl & _ & _ & Hcols).
      rewrite Hcols, fmap_app in Hc. by apply elem_of_app in Hc. }
    - left. apply (kept_rows_accounts _ _ _ _ _ _ Hk).
      by apply (pivot_labels _ _ _ _ Hp).
    - by right. }
  split; [done|].
  split; intros Hc%Hl; destruct st; set_solver.
Qed.

Lemma reshaped_labels_listed_witness :
  (forall c, c ∈ (columns mixed_balance_sheet).*1 ->
     c ∈ accounts BalanceSheet ++ derived_labels BalanceSheet) /\
  ("CD_CONTA" ∉ (columns mixed_balance_sheet).*1) /\
  ("ORDEM_EXERC" ∉ (columns mixed_balance_sheet).*1).
Proof.
  apply (reshaped_labels_listed BalanceSheet mixed_processor 2023 2023
           mixed_balance_sheet).
  vm_compute. reflexivity.
Defined.

(** * The collector's files *)

(** ** Names and ranges *)

Lemma str_inj a b : str a = str b -> a = b.
Proof.
  unfold str. intros H. apply DecimalZ.to_int_inj.
  assert (forall z, Z.to_int z <> Decimal.Pos Decimal.Nil /\
                    Z.to_int z <> Decimal.Neg Decimal.Nil) as Hnn.
  { intros [|p|p]; simpl; split; try discriminate;
      intros [= Hp]; by apply DecimalPos.Unsigned.to_uint_nonnil in Hp. }
  apply (f_equal NilZero.int_of_string) in H.
  rewrite !NilZero.isi in H by apply Hnn. by injection H.
Qed.

Lemma length_append (a b : string) :
  String.length (a +:+ b) = String.length a + String.length b.
Proof. induction a as [|x a IH]; simpl; [done|]. by rewrite IH. Qed.

Lemma append_inj_r (a b c : string) : a +:+ c = b +:+ c -> a = b.
Proof.
  revert b. induction a as [|x a IH]; intros [|y b] H.
  - done.
  - apply (f_equal String.length) in H. rewrite !length_append in H.
    simpl in H. lia.
  - apply (f_equal String.length) in H. rewrite !length_append in H.
    simpl in H. lia.
  - change (String x (a +:+ c) = String y (b +:+ c)) in H.
    injection H as -> H. f_equal. by apply IH.
Qed.

Lemma zip_name_inj y y' : zip_name y = zip_name y' -> y = y'.
Proof.
  unfold zip_name. intros H%String.app_inj%append_inj_r. by apply str_inj.
Qed.

Lemma zip_url_inj y y' : zip_url y = zip_url y' -> y = y'.
Proof. unfold zip_url. by intros H%String.app_inj%zip_name_inj. Qed.

Lemma range_app s m e :
  (s <= m <= e)%Z -> range s e = range s m ++ range m e.
Proof.
  intros Hm. unfold range.
  replace (Z.to_nat (e - s)) with (Z.to_nat (m - s) + Z.to_nat (e - m)) by lia.
  rewrite seq_app, fmap_app. f_equal. rewrite Nat.add_0_l.
  assert (seq (Z.to_nat (m - s)) (Z.to_nat (e - m))
          = Nat.add (Z.to_nat (m - s)) <$> seq 0 (Z.to_nat (e - m))) as ->.
  { rewrite fmap_add_seq. f_equal. lia. }
  rewrite <- list_fmap_compose. apply list_fmap_ext. intros _ i _. simpl. lia.
Qed.

Lemma range_one y : range y (y + 1) = [y].
Proof.
  unfold range. replace (Z.to_nat (y + 1 - y)) with 1 by lia. simpl.
  f_equal. lia.
Qed.

Lemma range_nil s e : (e <= s)%Z -> range s e = [].
Proof. intros H. unfold range. by replace (Z.to_nat (e - s)) with 0 by lia. Qed.

(** ** [download_company_info] and the order of the registry *)

Lemma run_companies_sorted info : StronglySorted str_le (run_companies info).
Proof.
  unfold run_companies.
  assert (StronglySorted name_le (download_company_info info)) as Hs.
  { unfold download_company_info. apply StronglySorted_merge_sort; apply _. }
  induction Hs as [|c l Hs IH Hc]; simpl; constructor; [done|].
  apply Forall_fmap. eapply Forall_impl; [exact Hc|]. by intros c'.
Qed.

(** X20. The names [run] writes to companies.csv do not depend on the
    order of the rows of the registry, although the sort of
    [download_company_info] promises no order among rows of equal
    name. *)
Theorem run_companies_order_independent info info' :
  info ≡ₚ info' -> run_companies info = run_companies info'.
Proof.
  intros Hp. apply (StronglySorted_unique str_le).
  - apply run_companies_sorted.
  - apply run_companies_sorted.
  - unfold run_companies. rewrite !download_company_info_perm. by rewrite Hp.
Qed.

(** ** [concatenate_statements] *)

Lemma omap_nil_iff {A B} (f : A -> option B) (l : list A) :
  omap f l = [] <-> forall x, x ∈ l -> f x = None.
Proof.
  induction l as [|a l IH]; simpl.
  - split; [|done]. by intros _ x ?%elem_of_nil.
  - destruct (f a) eqn:Ha.
    + split; [done|]. intros H. rewrite H in Ha; [done|by left].
    + rewrite IH. split.
      * intros H x [->|Hx]%elem_of_cons; auto.
      * intros H x Hx. apply H. by right.
Qed.

Lemma existing_frames_nil (output_dir : Directory) kind s e :
  existing_frames output_dir kind s e = [] <->
  forall y, (s <= y <= e)%Z -> output_dir !! year_file kind y = None.
Proof.
  unfold existing_frames. rewrite omap_nil_iff. split.
  - intros H y Hy. apply H, elem_of_range. lia.
  - intros H y Hy%elem_of_range. apply H. lia.
Qed.

Lemma concatenate_statements_entry output_dir s e types kind :
  concatenate_statements output_dir s e types !! kind =
    if decide (kind ∈ types /\ existing_frames output_dir kind s e <> [])
    then Some (concat (existing_frames output_dir kind s e)) else None.
Proof.
  rewrite concatenate_statements_unfold, statements_loop, lookup_empty.
  destruct (existing_frames output_dir kind s e) eqn:Hk.
  - by rewrite decide_False by tauto.
  - destruct (decide (kind ∈ types)).
    + by rewrite decide_True by done.
    + by rewrite decide_False by tauto.
Qed.

(** X21. The result of [concatenate_statements] has an entry for a kind
    exactly when the kind was requested and one of its files exists for
    a year of [start, end]; the rows of that table are the rows of
    those files, no more and no less.  An inverted range gives no
    entry. *)
Theorem concatenate_statements_rows (output_dir : Directory)
    (start_year end_year : Z) (statement_types : list string) (kind : string) :
  (is_Some (concatenate_statements output_dir start_year end_year
              statement_types !! kind) <->
   kind ∈ statement_types /\
   exists y, (start_year <= y <= end_year)%Z /\
             is_Some (output_dir !! year_file kind y)) /\
  (forall table,
     concatenate_statements output_dir start_year end_year statement_types
       !! kind = Some table ->
     forall r, r ∈ table <->
       exists y df, (start_year <= y <= end_year)%Z /\
         output_dir !! year_file kind y = Some df /\ r ∈ df).
Proof.
  rewrite concatenate_statements_entry. split.
  - assert (existing_frames output_dir kind start_year end_year <> [] <->
            exists y, (start_year <= y <= end_year)%Z /\
                      is_Some (output_dir !! year_file kind y)) as Hex.
    { split.
      - destruct (existing_frames output_dir kind start_year end_year)
          as [|df dfs] eqn:E; [done|]. intros _.
        assert (df ∈ existing_frames output_dir kind start_year end_year)
          as Hin by (rewrite E; left).
        apply list_elem_of_omap in Hin as (y & Hy%elem_of_range & Hdf).
        exists y. split; [lia|eauto].
      - intros (y & Hy & Hs) Hn. rewrite existing_frames_nil in Hn.
        rewrite (Hn y Hy) in Hs. by destruct Hs. }
    case_decide as Hd.
    + split; [|by eauto]. intros _. tauto.
    + split; [by intros [? ?]|]. intros H. destruct Hd. tauto.
  - intros table. case_decide; [|done]. intros [= <-] r.
    apply existing_frames_rows.
Qed.

Lemma concatenate_statements_default output_dir s e types kind :
  default [] (concatenate_statements output_dir s e types !! kind) =
    if decide (kind ∈ types)
    then concat (existing_frames output_dir kind s e) else [].
Proof.
  rewrite concatenate_statements_entry.
  destruct (decide (kind ∈ types)) as [Hk|Hk].
  - destruct (decide (existing_frames output_dir kind s e = [])) as [->|Hn].
    + by rewrite decide_False by tauto.
    + by rewrite decide_True by done.
  - by rewrite decide_False by tauto.
Qed.

(** X22. Concatenating over [start, end] is concatenating over
    [start, mid] and over [mid + 1, end] and putting the second table
    after the first, a kind without a table counting as no rows: the
    rows come in year order. *)
Theorem concatenate_statements_split (output_dir : Directory)
    (start_year mid end_year : Z) (statement_types : list string) (kind : string) :
  (start_year <= mid + 1)%Z -> (mid <= end_year)%Z ->
  default [] (concatenate_statements output_dir start_year end_year
                statement_types !! kind)
  = default [] (concatenate_statements output_dir start_year mid
                  statement_types !! kind)
    ++ default [] (concatenate_statements output_dir (mid + 1) end_year
                     statement_types !! kind).
Proof.
  intros Hs He. rewrite !concatenate_statements_default.
  case_decide; [|done]. unfold existing_frames.
  rewrite (range_app start_year (mid + 1) (end_year + 1)) by lia.
  by rewrite omap_app, concat_app.
Qed.

(** ** [download_dfp] *)

Lemma download_dfp_unfold wget self s e :
  CS.download_dfp wget self s e
  = foldl (download_year wget) (self, []) (range s (e + 1)).
Proof. reflexivity. Qed.

Lemma extract_files_unfold self s e :
  CS.extract_files self s e = foldl extract_year self (range s (e + 1)).
Proof. reflexivity. Qed.

Lemma download_year_spec wget self files y :
  (forall f,
     CS.download_dir (download_year wget (self, files) y).1 !! f =
       if decide (f = zip_name y) then wget (zip_url y)
       else CS.download_dir self !! f) /\
  CS.output_dir (download_year wget (self, files) y).1 = CS.output_dir self /\
  CS.companies_csv (download_year wget (self, files) y).1
    = CS.companies_csv self /\
  (download_year wget (self, files) y).2 =
    files ++ (if decide (is_Some (wget (zip_url y))) then [zip_name y] else []).
Proof.
  unfold download_year.
  destruct (CS.download_dir self !! zip_name y) eqn:Hd;
    destruct (wget (zip_url y)) eqn:Hw; cbn [fst snd CS.download_dir
      CS.output_dir CS.companies_csv]; split_and!; try done.
  all: try (intros f; destruct (decide (f = zip_name y)) as [->|Hne]).
  all: rewrite ?lookup_insert_eq, ?lookup_delete_eq; try done.
  all: rewrite ?lookup_insert_ne, ?lookup_delete_ne by done; try done.
  all: try (rewrite decide_True by eauto; done).
  all: try (rewrite decide_False by (by intros [? ?]); by rewrite app_nil_r).
Qed.

Lemma download_loop wget years self files :
  (forall y, y ∈ years ->
     CS.download_dir (foldl (download_year wget) (self, files) years).1
       !! zip_name y = wget (zip_url y)) /\
  (forall f, f ∉ zip_name <$> years ->
     CS.download_dir (foldl (download_year wget) (self, files) years).1 !! f
       = CS.download_dir self !! f) /\
  CS.output_dir (foldl (download_year wget) (self, files) years).1
    = CS.output_dir self /\
  CS.companies_csv (foldl (download_year wget) (self, files) years).1
    = CS.companies_csv self /\
  (foldl (download_year wget) (self, files) years).2 =
    files ++ (zip_name <$> filter (fun y => is_Some (wget (zip_url y))) years).
Proof.
  induction years as [|y years IH] using rev_ind.
  - simpl. split_and!; try done.
    + by intros y ?%elem_of_nil.
    + by rewrite app_nil_r.
  - rewrite foldl_app. cbn [foldl].
    destruct (foldl (download_year wget) (self, files) years) as [self0 files0].
    cbn [fst snd] in IH. destruct IH as (IH1 & IH2 & IH3 & IH4 & IH5).
    destruct (download_year_spec wget self0 files0 y) as (H1 & H2 & H3 & H4).
    split_and!.
    + intros y' Hy'. rewrite H1.
      destruct (decide (zip_name y' = zip_name y)) as [Hn|Hn].
      * by apply zip_name_inj in Hn as ->.
      * apply IH1. apply elem_of_app in Hy' as [?|Hy'];
          [done|]. apply elem_of_cons in Hy' as [->|Hy']; [done|by apply elem_of_nil in Hy'].
    + intros f Hf. rewrite fmap_app, not_elem_of_app in Hf.
      destruct Hf as [Hf1 Hf2]. rewrite H1, decide_False; [by apply IH2|].
      intros ->. apply Hf2. simpl. by left.
    + by rewrite H2.
    + by rewrite H3.
    + rewrite H4, IH5, filter_app, fmap_app, <- app_assoc. do 2 f_equal.
      rewrite filter_cons, filter_nil.
      by destruct (decide (is_Some (wget (zip_url y)))).
Qed.

(** X23. [download_dfp] returns the archives of the years of
    [start, end] the server sent, in ascending order of year.  After
    it, the archive of such a year in [download_dir] is the one the
    server sent, and there is none when the download failed, whatever
    copy was there before; files of other names and [output_dir] are as
    they were. *)
Theorem download_dfp_correct (wget : string -> option CS.Archive) (self : CS.t)
    (start_year end_year : Z) :
  (CS.download_dfp wget self start_year end_year).2
    = zip_name <$> served wget start_year end_year /\
  (forall y, (start_year <= y <= end_year)%Z ->
     CS.download_dir (CS.download_dfp wget self start_year end_year).1
       !! zip_name y = wget (zip_url y)) /\
  (forall f, (forall y, (start_year <= y <= end_year)%Z -> f <> zip_name y) ->
     CS.download_dir (CS.download_dfp wget self start_year end_year).1 !! f
       = CS.download_dir self !! f) /\
  CS.output_dir (CS.download_dfp wget self start_year end_year).1
    = CS.output_dir self.
Proof.
  rewrite download_dfp_unfold.
  destruct (download_loop wget (range start_year (end_year + 1)) self [])
    as (H1 & H2 & H3 & _ & H5).
  split_and!; [done| | |done].
  - intros y Hy. apply H1, elem_of_range. lia.
  - intros f Hf. apply H2. intros (y & -> & Hy%elem_of_range)%list_elem_of_fmap.
    apply (Hf y); [lia|done].
Qed.

(** ** [extract_files] *)

Lemma extract_year_spec self y :
  CS.download_dir (extract_year self y) = CS.download_dir self /\
  CS.companies_csv (extract_year self y) = CS.companies_csv self /\
  forall f,
    CS.output_dir (extract_year self y) !! f =
      match CS.download_dir self !! zip_name y with
      | Some zf => (zf ∪ CS.output_dir self) !! f
      | None => CS.output_dir self !! f
      end.
Proof.
  unfold extract_year. by destruct (CS.download_dir self !! zip_name y).
Qed.

Lemma extract_loop_dir years self :
  CS.download_dir (foldl extract_year self years) = CS.download_dir self /\
  CS.companies_csv (foldl extract_year self years) = CS.companies_csv self.
Proof.
  revert self. induction years as [|y years IH]; intros self; [done|].
  simpl. destruct (IH (extract_year self y)) as [-> ->].
  destruct (extract_year_spec self y) as (-> & -> & _). done.
Qed.

Lemma extract_loop_untouched years self f :
  (forall y zf, y ∈ years -> CS.download_dir self !! zip_name y = Some zf ->
     zf !! f = None) ->
  CS.output_dir (foldl extract_year self years) !! f = CS.output_dir self !! f.
Proof.
  revert self. induction years as [|y years IH]; intros self Hno; [done|].
  simpl. destruct (extract_year_spec self y) as (Hd & _ & Ho).
  rewrite IH.
  - rewrite Ho. destruct (CS.download_dir self !! zip_name y) as [zf|] eqn:Hz;
      [|done].
    apply lookup_union_r. apply (Hno y); [by left|done].
  - intros y' zf Hy'. rewrite Hd. apply Hno. by right.
Qed.

Lemma extract_loop_last before y after self f zf df :
  CS.download_dir self !! zip_name y = Some zf -> zf !! f = Some df ->
  (forall y' zf', y' ∈ after ->
     CS.download_dir self !! zip_name y' = Some zf' -> zf' !! f = None) ->
  CS.output_dir (foldl extract_year self (before ++ y :: after)) !! f = Some df.
Proof.
  intros Hz Hf Hno. rewrite foldl_app. cbn [foldl].
  destruct (extract_loop_dir before self) as [Hd _].
  destruct (extract_year_spec (foldl extract_year self before) y)
    as (Hd' & _ & Ho).
  rewrite extract_loop_untouched.
  - rewrite Ho, Hd, Hz. by apply lookup_union_Some_l.
  - intros y' zf'. rewrite Hd', Hd. apply Hno.
Qed.

Lemma range_split s y e :
  (s <= y <= e)%Z ->
  range s (e + 1) = range s y ++ y :: range (y + 1) (e + 1).
Proof.
  intros Hy. rewrite (range_app s y (e + 1)) by lia.
  rewrite (range_app y (y + 1) (e + 1)) by lia. by rewrite range_one.
Qed.

(** X24. [extract_files] leaves the archives alone.  A file name that
    no archive of a year of [start, end] holds keeps the file it had,
    if any; a name that some of them hold ends up with the member of
    the latest such year, over whatever was there. *)
Theorem extract_files_correct (self : CS.t) (start_year end_year : Z) (f : string) :
  CS.download_dir (CS.extract_files self start_year end_year)
    = CS.download_dir self /\
  ((forall y zf, (start_year <= y <= end_year)%Z ->
      CS.download_dir self !! zip_name y = Some zf -> zf !! f = None) ->
   CS.output_dir (CS.extract_files self start_year end_year) !! f
     = CS.output_dir self !! f) /\
  (forall y zf df,
     (start_year <= y <= end_year)%Z ->
     CS.download_dir self !! zip_name y = Some zf -> zf !! f = Some df ->
     (forall y' zf', (y < y' <= end_year)%Z ->
        CS.download_dir self !! zip_name y' = Some zf' -> zf' !! f = None) ->
     CS.output_dir (CS.extract_files self start_year end_year) !! f = Some df).
Proof.
  rewrite extract_files_unfold. split_and!.
  - apply extract_loop_dir.
  - intros Hno. apply extract_loop_untouched.
    intros y zf Hy%elem_of_range. apply Hno. lia.
  - intros y zf df Hy Hz Hf Hno. rewrite (range_split _ y) by done.
    apply (extract_loop_last _ _ _ _ _ zf); [done..|].
    intros y' zf' Hy'%elem_of_range. apply Hno. lia.
Qed.

(** ** [run] *)

Lemma run_tables info wget self s e statements :
  (CS.run info wget self s e statements).2 =
    concatenate_statements
      (CS.output_dir
         (collected wget
            {| CS.download_dir := CS.download_dir self;
               CS.output_dir := CS.output_dir self;
               CS.companies_csv := Some (run_companies info) |} s e))
      s e (default default_statements statements).
Proof. by destruct statements. Qed.

Lemma collected_fresh wget self s e f y zf df :
  (s <= y <= e)%Z -> wget (zip_url y) = Some zf -> zf !! f = Some df ->
  (forall y' zf', (y < y' <= e)%Z -> wget (zip_url y') = Some zf' ->
     zf' !! f = None) ->
  CS.output_dir (collected wget self s e) !! f = Some df.
Proof.
  intros Hy Hw Hf Hno. unfold collected. rewrite extract_files_unfold.
  rewrite download_dfp_unfold.
  destruct (download_loop wget (range s (e + 1)) self []) as (H1 & _).
  rewrite (range_split s y e) at 2 by done.
  apply (extract_loop_last _ _ _ _ _ zf); [|done|].
  - rewrite H1; [done|]. apply elem_of_range. lia.
  - intros y' zf' Hy'%elem_of_range. rewrite H1 by (apply elem_of_range; lia).
    apply Hno. lia.
Qed.

Lemma collected_stale wget self s e f :
  (forall y zf, (s <= y <= e)%Z -> wget (zip_url y) = Some zf ->
     zf !! f = None) ->
  CS.output_dir (collected wget self s e) !! f = CS.output_dir self !! f.
Proof.
  intros Hno. unfold collected. rewrite extract_files_unfold.
  rewrite download_dfp_unfold.
  destruct (download_loop wget (range s (e + 1)) self []) as (H1 & _ & H3 & _).
  rewrite extract_loop_untouched; [by rewrite H3|].
  intros y zf Hy. rewrite H1 by done. apply elem_of_range in Hy.
  apply Hno. lia.
Qed.

Lemma table_of_file output_dir s e types kind y df :
  kind ∈ types -> (s <= y <= e)%Z -> output_dir !! year_file kind y = Some df ->
  exists table,
    concatenate_statements output_dir s e types !! kind = Some table /\
    forall r, r ∈ df -> r ∈ table.
Proof.
  intros Hk Hy Hf. rewrite concatenate_statements_entry.
  assert (existing_frames output_dir kind s e <> []) as Hne.
  { rewrite existing_frames_nil. intros Hn. by rewrite (Hn y Hy) in Hf. }
  rewrite decide_True by done. eexists. split; [done|].
  intros r Hr. apply existing_frames_rows. eauto.
Qed.

(** X25. What [run] downloads reaches what it returns: when the server
    sends the archive of a year of [start, end] and the archive holds
    the file of a requested kind for that year, the rows of that file
    are in the table of the kind, unless the archive of a later year of
    the range holds a file of the same name. *)
Theorem run_fresh_rows (info : list CompanyInfo)
    (wget : string -> option CS.Archive) (self : CS.t)
    (start_year end_year : Z) (statements : option (list string))
    (kind : string) (y : Z) (zf : CS.Archive) (df : LongFrame) :
  kind ∈ default default_statements statements ->
  (start_year <= y <= end_year)%Z ->
  wget (zip_url y) = Some zf ->
  zf !! year_file kind y = Some df ->
  (forall y' zf', (y < y' <= end_year)%Z -> wget (zip_url y') = Some zf' ->
     zf' !! year_file kind y = None) ->
  exists table,
    (CS.run info wget self start_year end_year statements).2 !! kind
      = Some table /\
    forall r, r ∈ df -> r ∈ table.
Proof.
  intros Hk Hy Hw Hf Hno. rewrite run_tables.
  eapply (table_of_file _ _ _ _ _ y); [done..|].
  by apply (collected_fresh wget _ start_year end_year (year_file kind y) y zf df).
Qed.

(** X26. [run] reads whatever statement files [output_dir] holds after
    the extraction, not only those it has just extracted: the file of a
    requested kind for a year of [start, end] that was there before and
    that no archive the server sends for the range holds, in particular
    when the download of that year fails, puts its rows in the table of
    the kind. *)
Theorem run_stale_rows (info : list CompanyInfo)
    (wget : string -> option CS.Archive) (self : CS.t)
    (start_year end_year : Z) (statements : option (list string))
    (kind : string) (y : Z) (df : LongFrame) :
  kind ∈ default default_statements statements ->
  (start_year <= y <= end_year)%Z ->
  CS.output_dir self !! year_file kind y = Some df ->
  (forall y' zf', (start_year <= y' <= end_year)%Z ->
     wget (zip_url y') = Some zf' -> zf' !! year_file kind y = None) ->
  exists table,
    (CS.run info wget self start_year end_year statements).2 !! kind
      = Some table /\
    forall r, r ∈ df -> r ∈ table.
Proof.
  intros Hk Hy Hf Hno. rewrite run_tables.
  eapply (table_of_file _ _ _ _ _ y); [done..|].
  by rewrite collected_stale.
Qed.
(** *** The collector scenarios, run *)

Lemma run_companies_order_independent_witness :
  run_companies registry = run_companies (reverse registry).
Proof.
  apply (run_companies_order_independent registry (reverse registry)).
  symmetry. apply reverse_Permutation.
Defined.

Lemma concatenate_statements_split_witness :
  default [] (concatenate_statements backfill_dir 2016 2025 ["BPA_con"]
                !! "BPA_con")
  = default [] (concatenate_statements backfill_dir 2016 2018 ["BPA_con"]
                  !! "BPA_con")
    ++ default [] (concatenate_statements backfill_dir (2018 + 1) 2025
                     ["BPA_con"] !! "BPA_con").
Proof.
  apply (concatenate_statements_split backfill_dir 2016 2018 2025
           ["BPA_con"] "BPA_con"); lia.
Defined.

(** With 2021 and 2023 on the server and 2022 not: the two archives
    are returned, the stale archive of 2022 is gone, and the archive of
    2019, outside the range, is as it was. *)
Lemma download_dfp_correct_witness :
  (CS.download_dfp two_year_server stale_collector 2021 2023).2
    = [zip_name 2021; zip_name 2023] /\
  CS.download_dir (CS.download_dfp two_year_server stale_collector 2021 2023).1
    !! zip_name 2022 = None /\
  CS.download_dir (CS.download_dfp two_year_server stale_collector 2021 2023).1
    !! zip_name 2019 = CS.download_dir stale_collector !! zip_name 2019.
Proof.
  destruct (download_dfp_correct two_year_server stale_collector 2021 2023)
    as (H1 & H2 & H3 & _).
  split_and!.
  - rewrite H1. vm_compute. reflexivity.
  - rewrite H2 by lia. vm_compute. reflexivity.
  - apply H3. intros y Hy Heq%zip_name_inj. lia.
Defined.

(** The member of the archive of 2022 replaces the file of the same
    name that was there. *)
Lemma extract_files_correct_witness :
  CS.output_dir (CS.extract_files stale_collector 2019 2022)
    !! year_file "BPA_con" 2022 = Some [year_row 2020].
Proof.
  destruct (extract_files_correct stale_collector 2019 2022
              (year_file "BPA_con" 2022)) as (_ & _ & H).
  apply (H 2022%Z {[ year_file "BPA_con" 2022 := [year_row 2020] ]}).
  - lia.
  - vm_compute. reflexivity.
  - vm_compute. reflexivity.
  - intros y' zf' Hy'. lia.
Defined.

Lemma run_fresh_rows_witness :
  exists table,
    (CS.run registry two_year_server stale_collector 2021 2023 None).2
      !! "BPA_con" = Some table /\
    forall r, r ∈ [year_row 2021] -> r ∈ table.
Proof.
  apply (run_fresh_rows registry two_year_server stale_collector 2021 2023
           None "BPA_con" 2021
           {[ year_file "BPA_con" 2021 := [year_row 2021] ]}).
  - solve_dec.
  - lia.
  - vm_compute. reflexivity.
  - vm_compute. reflexivity.
  - intros y' zf' Hy' Hw. unfold two_year_server in Hw.
    rewrite decide_False in Hw by (intros ?%zip_url_inj; lia).
    case_decide; [|done]. injection Hw as <-.
    apply lookup_singleton_ne. solve_dec.
Defined.

(** The download of 2022 fails, and the rows of the file of 2022 left
    by an earlier run are in the table. *)
Lemma run_stale_rows_witness :
  exists table,
    (CS.run registry two_year_server stale_collector 2021 2023 None).2
      !! "BPA_con" = Some table /\
    forall r, r ∈ [year_row 2022] -> r ∈ table.
Proof.
  apply (run_stale_rows registry two_year_server stale_collector 2021 2023
           None "BPA_con" 2022).
  - solve_dec.
  - lia.
  - vm_compute. reflexivity.
  - intros y' zf' Hy' Hw. unfold two_year_server in Hw.
    repeat case_decide; try done; injection Hw as <-;
      apply lookup_singleton_ne; solve_dec.
Defined.

(** The whole run on that collector. *)
Example run_two_years :
  (CS.run registry two_year_server stale_collector 2021 2023 None).2
    = {[ "BPA_con" := [year_row 2021; year_row 2022; year_row 2023] ]} /\
  CS.companies_csv
    (CS.run registry two_year_server stale_collector 2021 2023 None).1
    = Some ["ACME S.A."].
Proof. split; vm_compute; reflexivity. Qed.

(** * The ratio engine: which exception *)

Lemma pivot_label_present col (df : LongFrame) x c :
  pivot col df = Ok x -> c ∈ col <$> df -> c ∈ (columns x).*1.
Proof.
  intros (_ & _ & ->)%pivot_ok Hc. rewrite <- list_fmap_compose.
  apply list_elem_of_fmap. exists c. split; [done|].
  by apply elem_of_sort_dups.
Qed.

(** Duplicated entries: the pivot raises, before anything else. *)
Lemma ratio_pivot_duplicate self df :
  _df_dfp self = Some df ->
  (~ NoDup (entries DS_CONTA (liquidity_rows df)) ->
   calculate_liquidity self
     = Raise (ValueError "Index contains duplicate entries, cannot reshape")) /\
  (~ NoDup (entries CD_CONTA (final_rows debt_codes df)) ->
   calculate_debt self
     = Raise (ValueError "Index contains duplicate entries, cannot reshape")) /\
  (~ NoDup (entries CD_CONTA (final_rows efficiency_codes df)) ->
   calculate_efficiency self
     = Raise (ValueError "Index contains duplicate entries, cannot reshape")) /\
  (~ NoDup (entries CD_CONTA (final_rows profitability_codes df)) ->
   calculate_profitability self
     = Raise (ValueError "Index contains duplicate entries, cannot reshape")).
Proof.
  intros Hdf. split_and!; intros Hd.
  - unfold calculate_liquidity, df_dfp. rewrite Hdf. cbn [bind].
    fold (liquidity_rows df). by rewrite pivot_duplicate.
  - unfold calculate_debt, df_dfp. rewrite Hdf. cbn [bind].
    fold debt_codes. fold (final_rows debt_codes df). by rewrite pivot_duplicate.
  - unfold calculate_efficiency, df_dfp. rewrite Hdf. cbn [bind].
    fold efficiency_codes. fold (final_rows efficiency_codes df).
    by rewrite pivot_duplicate.
  - unfold calculate_profitability, df_dfp. rewrite Hdf. cbn [bind].
    fold profitability_codes. fold (final_rows profitability_codes df).
    by rewrite pivot_duplicate.
Qed.

(** A kept description named like an index level: [reset_index] raises,
    before any column is read. *)
Lemma liquidity_index_named self df x :
  _df_dfp self = Some df ->
  pivot DS_CONTA (liquidity_rows df) = Ok x ->
  "DENOM_CIA" ∈ DS_CONTA <$> liquidity_rows df \/
  "DT_REFER" ∈ DS_CONTA <$> liquidity_rows df ->
  exists msg, calculate_liquidity self = Raise (ValueError msg).
Proof.
  intros Hdf Hp Hn.
  unfold calculate_liquidity, df_dfp. rewrite Hdf. cbn [bind].
  fold (liquidity_rows df). rewrite Hp. cbn [bind]. unfold reset_index.
  destruct (decide ("DENOM_CIA" ∈ (columns x).*1)) as [|Hn1]; [by eauto|].
  destruct (decide ("DT_REFER" ∈ (columns x).*1)) as [|Hn2]; [by eauto|].
  destruct Hn as [Hn|Hn]; apply (pivot_label_present _ _ _ _ Hp) in Hn; done.
Qed.

(** With the pivot done and the index reset, the first absent column in
    reading order is the one whose KeyError surfaces. *)
Lemma liquidity_key_error self df x i c :
  _df_dfp self = Some df ->
  pivot DS_CONTA (liquidity_rows df) = Ok x ->
  "DENOM_CIA" ∉ DS_CONTA <$> liquidity_rows df ->
  "DT_REFER" ∉ DS_CONTA <$> liquidity_rows df ->
  list_find (fun c => c ∉ DS_CONTA <$> liquidity_rows df) liquidity_labels
    = Some (i, c) ->
  calculate_liquidity self = Raise (KeyError c).
Proof.
  intros Hdf Hp Hr1 Hr2 Hfind.
  destruct (read_before_present _ _ _ _ _ _ Hp Hfind) as [Hc Hbefore].
  apply list_find_Some in Hfind as (Hi & _ & _).
  unfold calculate_liquidity, df_dfp. rewrite Hdf. cbn [bind].
  fold (liquidity_rows df). rewrite Hp. cbn [bind].
  rewrite reset_index_intro by (intros ?%(pivot_labels _ _ _ _ Hp); done).
  cbn [bind]. destruct x as [idx cols]. cbn [columns index] in *.
  unfold liquidity_labels in *.
  do 7 (destruct i as [|i]; [injection Hi as <-; have_cols Hbefore;
    repeat (step_assign; cbv beta); by fail_assign|]).
  done.
Qed.

Lemma debt_key_error self df x i c :
  _df_dfp self = Some df ->
  pivot CD_CONTA (final_rows debt_codes df) = Ok x ->
  list_find (fun c => c ∉ CD_CONTA <$> final_rows debt_codes df) debt_read_order
    = Some (i, c) ->
  calculate_debt self = Raise (KeyError c).
Proof.
  intros Hdf Hp Hfind.
  destruct (read_before_present _ _ _ _ _ _ Hp Hfind) as [Hc Hbefore].
  apply list_find_Some in Hfind as (Hi & _ & _).
  unfold calculate_debt, df_dfp. rewrite Hdf. cbn [bind].
  fold debt_codes. fold (final_rows debt_codes df). rewrite Hp. cbn [bind].
  rewrite reset_index_intro
    by (intros ?%(pivot_labels _ _ _ _ Hp)%final_rows_code; set_solver).
  cbn [bind]. destruct x as [idx cols]. cbn [columns index] in *.
  unfold debt_read_order in *.
  do 7 (destruct i as [|i]; [injection Hi as <-; have_cols Hbefore;
    repeat (step_assign; cbv beta); by fail_assign|]).
  done.
Qed.

Lemma efficiency_key_error self df x i c :
  _df_dfp self = Some df ->
  pivot CD_CONTA (final_rows efficiency_codes df) = Ok x ->
  list_find (fun c => c ∉ CD_CONTA <$> final_rows efficiency_codes df)
    efficiency_read_order = Some (i, c) ->
  calculate_efficiency self = Raise (KeyError c).
Proof.
  intros Hdf Hp Hfind.
  destruct (read_before_present _ _ _ _ _ _ Hp Hfind) as [Hc Hbefore].
  apply list_find_Some in Hfind as (Hi & _ & _).
  unfold calculate_efficiency, df_dfp. rewrite Hdf. cbn [bind].
  fold efficiency_codes. fold (final_rows efficiency_codes df).
  rewrite Hp. cbn [bind].
  rewrite reset_index_intro
    by (intros ?%(pivot_labels _ _ _ _ Hp)%final_rows_code; set_solver).
  cbn [bind]. destruct x as [idx cols]. cbn [columns index] in *.
  unfold efficiency_read_order in *.
  do 4 (destruct i as [|i]; [injection Hi as <-; have_cols Hbefore;
    repeat (step_assign; cbv beta); by fail_assign|]).
  done.
Qed.

Lemma profitability_key_error self df x i c :
  _df_dfp self = Some df ->
  pivot CD_CONTA (final_rows profitability_codes df) = Ok x ->
  list_find (fun c => c ∉ CD_CONTA <$> final_rows profitability_codes df)
    profitability_read_order = Some (i, c) ->
  calculate_profitability self = Raise (KeyError c).
Proof.
  intros Hdf Hp Hfind.
  destruct (read_before_present _ _ _ _ _ _ Hp Hfind) as [Hc Hbefore].
  apply list_find_Some in Hfind as (Hi & _ & _).
  unfold calculate_profitability, df_dfp. rewrite Hdf. cbn [bind].
  fold profitability_codes. fold (final_rows profitability_codes df).
  rewrite Hp. cbn [bind].
  rewrite reset_index_intro
    by (intros ?%(pivot_labels _ _ _ _ Hp)%final_rows_code; set_solver).
  cbn [bind]. destruct x as [idx cols]. cbn [columns index] in *.
  unfold profitability_read_order in *.
  do 6 (destruct i as [|i]; [injection Hi as <-; have_cols Hbefore;
    repeat (step_assign; cbv beta); by fail_assign|]).
  done.
Qed.

(** An absent label of a list is found by the search for the first
    absent one. *)
Lemma first_absent_exists (present : list string) (order : list string) c :
  c ∈ order -> c ∉ present ->
  exists i c', list_find (fun c => c ∉ present) order = Some (i, c').
Proof.
  intros Hc Habs.
  destruct (list_find_elem_of (fun c => c ∉ present) order c Hc Habs)
    as [[i c'] Hf].
  eauto.
Qed.

(** X4. When the pivot of [calculate_liquidity] succeeds but one of the
    descriptions the ratios read occurs in no kept row, the call raises.
    If no kept description is named DENOM_CIA or DT_REFER, the exception
    is the KeyError of the first absent column in the order the ratios
    read them: Caixa e Equivalentes de Caixa, Passivo Circulante, Ativo
    Circulante, Estoques, Despesas Antecipadas, Ativo Não Circulante,
    Passivo Não Circulante.  If one is, it is the ValueError of
    [reset_index], which runs before any column is read. *)
Theorem calculate_liquidity_first_absent self df i c :
  _df_dfp self = Some df ->
  NoDup (entries DS_CONTA (liquidity_rows df)) ->
  list_find (fun c => c ∉ DS_CONTA <$> liquidity_rows df) liquidity_labels
    = Some (i, c) ->
  ("DENOM_CIA" ∉ DS_CONTA <$> liquidity_rows df ->
   "DT_REFER" ∉ DS_CONTA <$> liquidity_rows df ->
   calculate_liquidity self = Raise (KeyError c)) /\
  ("DENOM_CIA" ∈ DS_CONTA <$> liquidity_rows df \/
   "DT_REFER" ∈ DS_CONTA <$> liquidity_rows df ->
   exists msg, calculate_liquidity self = Raise (ValueError msg)).
Proof.
  intros Hdf [x Hp]%pivot_NoDup Hfind. split.
  - intros Hr1 Hr2. by eapply liquidity_key_error.
  - by eapply liquidity_index_named.
Qed.

Lemma calculate_liquidity_first_absent_witness :
  calculate_liquidity (load_data init acme_no_estoques [] ["ACME S.A."])
    = Raise (KeyError "Estoques") /\
  exists msg,
    calculate_liquidity (load_data init acme_index_named [] ["ACME S.A."])
      = Raise (ValueError msg).
Proof.
  split.
  - destruct (calculate_liquidity_first_absent
                (load_data init acme_no_estoques [] ["ACME S.A."])
                acme_no_estoques 3 "Estoques") as [H _].
    + reflexivity.
    + solve_dec.
    + vm_compute. reflexivity.
    + apply H; solve_dec.
  - destruct (calculate_liquidity_first_absent
                (load_data init acme_index_named [] ["ACME S.A."])
                acme_index_named 3 "Estoques") as [_ H].
    + reflexivity.
    + solve_dec.
    + vm_compute. reflexivity.
    + apply H. right. solve_dec.
Defined.
(** *** Absent accounts, in full *)

(** C3, amended.  When an account a ratio family reads is entirely
    absent from the rows the family keeps, so that the pivot has no such
    column, the computation of that family raises and returns no table:
    the pivot's ValueError when two kept rows share an entry; else, for
    the liquidity family, the ValueError of [reset_index] when a kept
    description is named DENOM_CIA or DT_REFER; else the KeyError of the
    first absent account in the order the ratios read them.  Only an
    account that is missing for one (period, company) of a returned
    table leaves the ratios that read it undefined for that row: they
    are NaN. *)
Theorem absent_account_column self df c :
  _df_dfp self = Some df ->
  (c ∈ liquidity_labels -> c ∉ DS_CONTA <$> liquidity_rows df ->
   (forall t, calculate_liquidity self <> Ok t) /\
   (~ NoDup (entries DS_CONTA (liquidity_rows df)) ->
    calculate_liquidity self
      = Raise (ValueError "Index contains duplicate entries, cannot reshape")) /\
   (NoDup (entries DS_CONTA (liquidity_rows df)) ->
    "DENOM_CIA" ∈ DS_CONTA <$> liquidity_rows df \/
    "DT_REFER" ∈ DS_CONTA <$> liquidity_rows df ->
    exists msg, calculate_liquidity self = Raise (ValueError msg)) /\
   (NoDup (entries DS_CONTA (liquidity_rows df)) ->
    "DENOM_CIA" ∉ DS_CONTA <$> liquidity_rows df ->
    "DT_REFER" ∉ DS_CONTA <$> liquidity_rows df ->
    exists i c',
      list_find (fun c => c ∉ DS_CONTA <$> liquidity_rows df) liquidity_labels
        = Some (i, c') /\
      calculate_liquidity self = Raise (KeyError c'))) /\
  (c ∈ debt_codes -> c ∉ CD_CONTA <$> final_rows debt_codes df ->
   (forall t, calculate_debt self <> Ok t) /\
   (~ NoDup (entries CD_CONTA (final_rows debt_codes df)) ->
    calculate_debt self
      = Raise (ValueError "Index contains duplicate entries, cannot reshape")) /\
   (NoDup (entries CD_CONTA (final_rows debt_codes df)) ->
    exists i c',
      list_find (fun c => c ∉ CD_CONTA <$> final_rows debt_codes df)
        debt_read_order = Some (i, c') /\
      calculate_debt self = Raise (KeyError c'))) /\
  (c ∈ efficiency_codes -> c ∉ CD_CONTA <$> final_rows efficiency_codes df ->
   (forall t, calculate_efficiency self <> Ok t) /\
   (~ NoDup (entries CD_CONTA (final_rows efficiency_codes df)) ->
    calculate_efficiency self
      = Raise (ValueError "Index contains duplicate entries, cannot reshape")) /\
   (NoDup (entries CD_CONTA (final_rows efficiency_codes df)) ->
    exists i c',
      list_find (fun c => c ∉ CD_CONTA <$> final_rows efficiency_codes df)
        efficiency_read_order = Some (i, c') /\
      calculate_efficiency self = Raise (KeyError c'))) /\
  (c ∈ profitability_codes ->
   c ∉ CD_CONTA <$> final_rows profitability_codes df ->
   (forall t, calculate_profitability self <> Ok t) /\
   (~ NoDup (entries CD_CONTA (final_rows profitability_codes df)) ->
    calculate_profitability self
      = Raise (ValueError "Index contains duplicate entries, cannot reshape")) /\
   (NoDup (entries CD_CONTA (final_rows profitability_codes df)) ->
    exists i c',
      list_find (fun c => c ∉ CD_CONTA <$> final_rows profitability_codes df)
        profitability_read_order = Some (i, c') /\
      calculate_profitability self = Raise (KeyError c'))) /\
  (forall t i k ratio accounts,
     index t !! i = Some k -> c ∈ accounts ->
     (calculate_liquidity self = Ok t ->
      (ratio, accounts) ∈ liquidity_reads ->
      (forall r, r ∈ liquidity_rows df -> key r = k -> DS_CONTA r <> c) ->
      cell t ratio i = Some Float64.nan) /\
     (calculate_debt self = Ok t ->
      (ratio, accounts) ∈ debt_reads ->
      (forall r, r ∈ final_rows debt_codes df -> key r = k -> CD_CONTA r <> c) ->
      cell t ratio i = Some Float64.nan) /\
     (calculate_efficiency self = Ok t ->
      (ratio, accounts) ∈ efficiency_reads ->
      (forall r, r ∈ final_rows efficiency_codes df -> key r = k ->
         CD_CONTA r <> c) ->
      cell t ratio i = Some Float64.nan) /\
     (calculate_profitability self = Ok t ->
      (ratio, accounts) ∈ profitability_reads ->
      (forall r, r ∈ final_rows profitability_codes df -> key r = k ->
         CD_CONTA r <> c) ->
      cell t ratio i = Some Float64.nan)).
Proof.
  intros Hdf. destruct (ratio_pivot_duplicate self df Hdf) as (D1 & D2 & D3 & D4).
  split_and!.
  - intros Hc Habs.
    destruct (first_absent_exists _ _ _ Hc Habs) as (i & c' & Hf).
    assert (NoDup (entries DS_CONTA (liquidity_rows df)) ->
            "DENOM_CIA" ∉ DS_CONTA <$> liquidity_rows df ->
            "DT_REFER" ∉ DS_CONTA <$> liquidity_rows df ->
            calculate_liquidity self = Raise (KeyError c')) as Hkey.
    { intros [x Hp]%pivot_NoDup ? ?. by eapply liquidity_key_error. }
    assert (NoDup (entries DS_CONTA (liquidity_rows df)) ->
            "DENOM_CIA" ∈ DS_CONTA <$> liquidity_rows df \/
            "DT_REFER" ∈ DS_CONTA <$> liquidity_rows df ->
            exists msg, calculate_liquidity self = Raise (ValueError msg)) as Hidx.
    { intros [x Hp]%pivot_NoDup ?. by eapply liquidity_index_named. }
    split_and!; [|done|done|by eauto].
    intros t Ht.
    destruct (decide (NoDup (entries DS_CONTA (liquidity_rows df)))) as [Hn|Hn];
      [|by rewrite D1 in Ht].
    destruct (decide ("DENOM_CIA" ∈ DS_CONTA <$> liquidity_rows df)) as [H1|H1].
    { destruct (Hidx Hn) as [msg Hm]; [by left|]. by rewrite Hm in Ht. }
    destruct (decide ("DT_REFER" ∈ DS_CONTA <$> liquidity_rows df)) as [H2|H2].
    { destruct (Hidx Hn) as [msg Hm]; [by right|]. by rewrite Hm in Ht. }
    by rewrite Hkey in Ht.
  - intros Hc Habs.
    assert (c ∈ debt_read_order) as Hc' by (unfold debt_codes in Hc; set_solver).
    destruct (first_absent_exists _ _ _ Hc' Habs) as (i & c' & Hf).
    assert (NoDup (entries CD_CONTA (final_rows debt_codes df)) ->
            calculate_debt self = Raise (KeyError c')) as Hkey.
    { intros [x Hp]%pivot_NoDup. by eapply debt_key_error. }
    split_and!; [|done|by eauto].
    intros t Ht.
    destruct (decide (NoDup (entries CD_CONTA (final_rows debt_codes df))))
      as [Hn|Hn]; [by rewrite Hkey in Ht|by rewrite D2 in Ht].
  - intros Hc Habs.
    assert (c ∈ efficiency_read_order) as Hc'
      by (unfold efficiency_codes in Hc; set_solver).
    destruct (first_absent_exists _ _ _ Hc' Habs) as (i & c' & Hf).
    assert (NoDup (entries CD_CONTA (final_rows efficiency_codes df)) ->
            calculate_efficiency self = Raise (KeyError c')) as Hkey.
    { intros [x Hp]%pivot_NoDup. by eapply efficiency_key_error. }
    split_and!; [|done|by eauto].
    intros t Ht.
    destruct (decide (NoDup (entries CD_CONTA (final_rows efficiency_codes df))))
      as [Hn|Hn]; [by rewrite Hkey in Ht|by rewrite D3 in Ht].
  - intros Hc Habs.
    assert (c ∈ profitability_read_order) as Hc'
      by (unfold profitability_codes in Hc; set_solver).
    destruct (first_absent_exists _ _ _ Hc' Habs) as (i & c' & Hf).
    assert (NoDup (entries CD_CONTA (final_rows profitability_codes df)) ->
            calculate_profitability self = Raise (KeyError c')) as Hkey.
    { intros [x Hp]%pivot_NoDup. by eapply profitability_key_error. }
    split_and!; [|done|by eauto].
    intros t Ht.
    destruct (decide (NoDup (entries CD_CONTA (final_rows profitability_codes df))))
      as [Hn|Hn]; [by rewrite Hkey in Ht|by rewrite D4 in Ht].
  - intros t i k ratio accounts Hi Hc. split_and!.
    + intros (df' & x & cx & pc & ac & es & da & anc & pnc & Hdf' & Hp
              & ? & ? & ? & ? & ? & ? & ? & ->)%calculate_liquidity_spec Hr Habs.
      assert (df' = df) as -> by congruence. cbn [index] in Hi.
      unfold liquidity_reads in Hr. enum_reads Hr; enum_reads Hc;
        nan_cell Hp Hi Habs.
    + intros (df' & x & a & b & c' & d & e & f & g & Hdf' & Hp
              & ? & ? & ? & ? & ? & ? & ? & ->)%calculate_debt_spec Hr Habs.
      assert (df' = df) as -> by congruence. cbn [index] in Hi.
      unfold debt_reads in Hr. enum_reads Hr; enum_reads Hc;
        nan_cell Hp Hi Habs.
    + intros (df' & x & a & b & c' & d & Hdf' & Hp
              & ? & ? & ? & ? & ->)%calculate_efficiency_spec Hr Habs.
      assert (df' = df) as -> by congruence. cbn [index] in Hi.
      unfold efficiency_reads in Hr. enum_reads Hr; enum_reads Hc;
        nan_cell Hp Hi Habs.
    + intros (df' & x & c1 & c2 & c203 & c305 & c308 & c311 & Hdf' & Hp
              & ? & ? & ? & ? & ? & ? & ->)%calculate_profitability_spec Hr Habs.
      assert (df' = df) as -> by congruence. cbn [index] in Hi.
      unfold profitability_reads in Hr. enum_reads Hr; enum_reads Hc;
        nan_cell Hp Hi Habs.
Qed.

Lemma absent_account_column_witness :
  (forall t,
     calculate_liquidity (load_data init acme_no_estoques [] ["ACME S.A."])
       <> Ok t) /\
  calculate_liquidity (load_data init acme_no_estoques [] ["ACME S.A."])
    = Raise (KeyError "Estoques").
Proof.
  destruct (absent_account_column
              (load_data init acme_no_estoques [] ["ACME S.A."])
              acme_no_estoques "Estoques") as (H & _).
  - reflexivity.
  - destruct H as (Hno & _ & _ & Hkey); [solve_dec|solve_dec|].
    split; [exact Hno|].
    destruct Hkey as (i & c' & Hf & Hr); [solve_dec|solve_dec|solve_dec|].
    rewrite Hr. vm_compute in Hf. by injection Hf as <- <-.
Defined.
(** *** Zero denominators, every ratio *)

Lemma div_by_zero n d :
  Float64.is_zero d = true -> quotient_by_zero n (Float64.div n d).
Proof.
  unfold quotient_by_zero. destruct d; try done. intros _. by destruct n.
Qed.

Lemma percent_by_zero n q :
  quotient_by_zero n q -> quotient_by_zero n (percent q).
Proof.
  unfold quotient_by_zero.
  destruct (Float64.is_nan n || Float64.is_zero n); [by intros ->|].
  by destruct q.
Qed.

(** A quotient by zero is NaN or an infinity, never a zero and never a
    finite number. *)
Lemma quotient_by_zero_undefined n q :
  quotient_by_zero n q ->
  Float64.is_nan q || Float64.is_inf q = true /\ Float64.is_zero q = false.
Proof.
  unfold quotient_by_zero.
  destruct (Float64.is_nan n || Float64.is_zero n); [by intros ->|].
  by destruct q.
Qed.

Lemma calculate_debt_ok self df :
  _df_dfp self = Some df ->
  NoDup (entries CD_CONTA (final_rows debt_codes df)) ->
  (forall c, c ∈ debt_codes -> c ∈ CD_CONTA <$> final_rows debt_codes df) ->
  exists t, calculate_debt self = Ok t.
Proof.
  intros Hdf [x Hp]%pivot_NoDup Hall.
  assert (forall c, c ∈ debt_codes -> exists s, lookup_col c (columns x) = Some s)
    as Hcols by (intros c Hc; eapply pivot_column_Some; eauto).
  unfold debt_codes in Hcols.
  destruct (Hcols "2.01.04") as [a Ha]; [set_solver|].
  destruct (Hcols "2.02.01") as [b Hb]; [set_solver|].
  destruct (Hcols "2.03") as [c Hc]; [set_solver|].
  destruct (Hcols "1") as [d Hd]; [set_solver|].
  destruct (Hcols "3.05") as [e He]; [set_solver|].
  destruct (Hcols "2.01") as [f Hf]; [set_solver|].
  destruct (Hcols "2.02") as [g Hg]; [set_solver|].
  eexists. by eapply calculate_debt_eq.
Qed.

Lemma calculate_efficiency_ok self df :
  _df_dfp self = Some df ->
  NoDup (entries CD_CONTA (final_rows efficiency_codes df)) ->
  (forall c, c ∈ efficiency_codes ->
     c ∈ CD_CONTA <$> final_rows efficiency_codes df) ->
  exists t, calculate_efficiency self = Ok t.
Proof.
  intros Hdf [x Hp]%pivot_NoDup Hall.
  assert (forall c, c ∈ efficiency_codes ->
            exists s, lookup_col c (columns x) = Some s)
    as Hcols by (intros c Hc; eapply pivot_column_Some; eauto).
  unfold efficiency_codes in Hcols.
  destruct (Hcols "3.03") as [a Ha]; [set_solver|].
  destruct (Hcols "3.01") as [b Hb]; [set_solver|].
  destruct (Hcols "3.11") as [c Hc]; [set_solver|].
  destruct (Hcols "3.05") as [d Hd]; [set_solver|].
  eexists. by eapply calculate_efficiency_eq.
Qed.

(** The cell of a ratio, computed from the columns of the pivot. *)
Ltac ratio_cell Hp Hi :=
  eexists; split;
  [ unfold cell; cbn [columns]; eval_lookup; simpl;
    rewrite ?list_lookup_fmap, ?lookup_zip_with; pivot_cells Hp Hi; simpl;
    reflexivity
  | first [ by apply div_by_zero | by apply percent_by_zero, div_by_zero ] ].

(** C2, amended.  Values never make a ratio family raise: each family
    returns as soon as no two kept rows share an entry and the accounts
    it reads are present (for liquidity, none named like an index
    level), whatever the values.  In a returned table, a ratio whose
    denominator is zero on a row is the IEEE 754 quotient, also after
    the scaling by 100: NaN when its numerator is zero or NaN, and
    otherwise an infinity.  So for two rows of one (period, company)
    with Passivo Circulante zero, liquidez_corrente is the float64
    quotient of their values: NaN or an infinity, never zero, never a
    finite number. *)
Theorem zero_denominator_quotient self df :
  _df_dfp self = Some df ->
  ((NoDup (entries DS_CONTA (liquidity_rows df)) ->
    (forall c, c ∈ liquidity_labels -> c ∈ DS_CONTA <$> liquidity_rows df) ->
    "DENOM_CIA" ∉ DS_CONTA <$> liquidity_rows df ->
    "DT_REFER" ∉ DS_CONTA <$> liquidity_rows df ->
    exists t, calculate_liquidity self = Ok t) /\
   (NoDup (entries CD_CONTA (final_rows debt_codes df)) ->
    (forall c, c ∈ debt_codes -> c ∈ CD_CONTA <$> final_rows debt_codes df) ->
    exists t, calculate_debt self = Ok t) /\
   (NoDup (entries CD_CONTA (final_rows efficiency_codes df)) ->
    (forall c, c ∈ efficiency_codes ->
       c ∈ CD_CONTA <$> final_rows efficiency_codes df) ->
    exists t, calculate_efficiency self = Ok t) /\
   (NoDup (entries CD_CONTA (final_rows profitability_codes df)) ->
    (forall c, c ∈ profitability_codes ->
       c ∈ CD_CONTA <$> final_rows profitability_codes df) ->
    exists t, calculate_profitability self = Ok t)) /\
  (forall t i k, index t !! i = Some k ->
     (calculate_liquidity self = Ok t ->
      let v := pivot_cell DS_CONTA (liquidity_rows df) k in
      (Float64.is_zero (v "Passivo Circulante") = true ->
       ratio_by_zero t i "liquidez_imediata" (v "Caixa e Equivalentes de Caixa") /\
       ratio_by_zero t i "liquidez_seca"
         (Float64.sub (Float64.sub (v "Ativo Circulante") (v "Estoques"))
            (v "Despesas Antecipadas")) /\
       ratio_by_zero t i "liquidez_corrente" (v "Ativo Circulante")) /\
      (Float64.is_zero
         (Float64.add (v "Passivo Circulante") (v "Passivo Não Circulante")) = true ->
       ratio_by_zero t i "liquidez_geral"
         (Float64.add (v "Ativo Circulante") (v "Ativo Não Circulante")))) /\
     (calculate_debt self = Ok t ->
      let v := pivot_cell CD_CONTA (final_rows debt_codes df) k in
      let divida := Float64.add (v "2.01.04") (v "2.02.01") in
      (Float64.is_zero (v "2.03") = true -> ratio_by_zero t i "divida_pl" divida) /\
      (Float64.is_zero (v "1") = true ->
       ratio_by_zero t i "divida_ativos" divida /\
       ratio_by_zero t i "pl_ativos" (v "2.03") /\
       ratio_by_zero t i "passivos_ativos" (Float64.add (v "2.01") (v "2.02"))) /\
      (Float64.is_zero (v "3.05") = true ->
       ratio_by_zero t i "divida_ebit" divida)) /\
     (calculate_efficiency self = Ok t ->
      let v := pivot_cell CD_CONTA (final_rows efficiency_codes df) k in
      Float64.is_zero (v "3.01") = true ->
      ratio_by_zero t i "margem_bruta" (v "3.03") /\
      ratio_by_zero t i "margem_liquida" (v "3.11") /\
      ratio_by_zero t i "margem_ebit" (v "3.05")) /\
     (calculate_profitability self = Ok t ->
      let v := pivot_cell CD_CONTA (final_rows profitability_codes df) k in
      (Float64.is_zero (v "2") = true ->
       ratio_by_zero t i "roic" (Float64.sub (v "3.05") (v "3.08"))) /\
      (Float64.is_zero (v "2.03") = true -> ratio_by_zero t i "roe" (v "3.11")) /\
      (Float64.is_zero (v "1") = true -> ratio_by_zero t i "roa" (v "3.11")))) /\
  (forall t r_ac r_pc,
     calculate_liquidity self = Ok t ->
     r_ac ∈ liquidity_rows df -> DS_CONTA r_ac = "Ativo Circulante" ->
     r_pc ∈ liquidity_rows df -> DS_CONTA r_pc = "Passivo Circulante" ->
     key r_ac = key r_pc ->
     Float64.is_zero (VL_CONTA r_pc) = true ->
     exists i v,
       index t !! i = Some (key r_pc) /\
       cell t "liquidez_corrente" i = Some v /\
       v = Float64.div (VL_CONTA r_ac) (VL_CONTA r_pc) /\
       Float64.is_nan v || Float64.is_inf v = true /\
       Float64.is_zero v = false /\
       Float64.is_nan v =
         Float64.is_nan (VL_CONTA r_ac) || Float64.is_zero (VL_CONTA r_ac)).
Proof.
  intros Hdf. split_and!.
  - by apply calculate_liquidity_ok.
  - by apply calculate_debt_ok.
  - by apply calculate_efficiency_ok.
  - by apply calculate_profitability_ok.
  - intros t i k Hi. split_and!.
    + intros (df' & x & cx & pc & ac & es & da & anc & pnc & Hdf' & Hp
              & ? & ? & ? & ? & ? & ? & ? & ->)%calculate_liquidity_spec.
      assert (df' = df) as -> by congruence. cbn [index] in Hi. cbv zeta.
      split; [intros Hz; split_and!|intros Hz]; ratio_cell Hp Hi.
    + intros (df' & x & a & b & c' & d & e & f & g & Hdf' & Hp
              & ? & ? & ? & ? & ? & ? & ? & ->)%calculate_debt_spec.
      assert (df' = df) as -> by congruence. cbn [index] in Hi. cbv zeta.
      split_and!; intros Hz; [|split_and!|]; ratio_cell Hp Hi.
    + intros (df' & x & a & b & c' & d & Hdf' & Hp
              & ? & ? & ? & ? & ->)%calculate_efficiency_spec.
      assert (df' = df) as -> by congruence. cbn [index] in Hi. cbv zeta.
      intros Hz. split_and!; ratio_cell Hp Hi.
    + intros (df' & x & c1 & c2 & c203 & c305 & c308 & c311 & Hdf' & Hp
              & ? & ? & ? & ? & ? & ? & ->)%calculate_profitability_spec.
      assert (df' = df) as -> by congruence. cbn [index] in Hi. cbv zeta.
      split_and!; intros Hz; ratio_cell Hp Hi.
  - intros t r_ac r_pc Ht Hac Dac Hpc Dpc Hk Hz.
    pose proof Ht as (df' & x & _ & _ & _ & _ & _ & _ & _ & Hdf' & Hp & Hidx & _)%calculate_liquidity_inv.
    assert (df' = df) as -> by congruence.
    destruct (index_lookup_key _ _ _ _ Hp Hpc) as [i Hi]. rewrite <- Hidx in Hi.
    destruct (liquidity_cells self df t i _ Hdf Ht Hi) as [Hcell _].
    assert (pivot_cell DS_CONTA (liquidity_rows df) (key r_pc) "Passivo Circulante"
              = VL_CONTA r_pc) as Epc.
    { rewrite <- Dpc. apply pivot_cell_in; [|done]. by destruct (pivot_ok _ _ _ Hp). }
    assert (pivot_cell DS_CONTA (liquidity_rows df) (key r_pc) "Ativo Circulante"
              = VL_CONTA r_ac) as Eac.
    { rewrite <- Hk, <- Dac. apply pivot_cell_in; [|done]. by destruct (pivot_ok _ _ _ Hp). }
    cbv zeta in Hcell. rewrite Epc, Eac in Hcell.
    exists i, (Float64.div (VL_CONTA r_ac) (VL_CONTA r_pc)).
    split_and!; try done;
      destruct (VL_CONTA r_pc); try done; by destruct (VL_CONTA r_ac).
Qed.

(** On the scenario with Passivo Circulante 0: the table is returned,
    and the three ratios over Passivo Circulante are infinities. *)
Lemma zero_denominator_quotient_witness :
  exists t,
    calculate_liquidity (load_data init acme_zero_pc [] ["ACME S.A."]) = Ok t /\
    index t !! 0 = Some ("2023-12-31", "ACME S.A.") /\
    (exists q, cell t "liquidez_imediata" 0 = Some q /\ Float64.is_inf q = true) /\
    (exists q, cell t "liquidez_seca" 0 = Some q /\ Float64.is_inf q = true) /\
    (exists q, cell t "liquidez_corrente" 0 = Some q /\ Float64.is_inf q = true).
Proof.
  destruct (zero_denominator_quotient
              (load_data init acme_zero_pc [] ["ACME S.A."]) acme_zero_pc)
    as ((Hret & _) & Hq & _).
  - reflexivity.
  - destruct Hret as [t Ht];
      [solve_dec|apply Forall_forall; solve_dec|solve_dec|solve_dec|].
    exists t. split; [exact Ht|].
    assert (index t !! 0 = Some ("2023-12-31", "ACME S.A.")) as Hi.
    { assert (calculate_liquidity (load_data init acme_zero_pc [] ["ACME S.A."])
              = Ok t) as Ht' by exact Ht.
      vm_compute in Ht'. injection Ht' as <-. reflexivity. }
    split; [exact Hi|].
    destruct (Hq t 0 _ Hi) as (Hl & _). destruct (Hl Ht) as (Hpc & _).
    destruct Hpc as (H1 & H2 & H3); [vm_compute; reflexivity|].
    split_and!.
    + destruct H1 as (q & Hc & Hz). exists q. split; [exact Hc|exact Hz].
    + destruct H2 as (q & Hc & Hz). exists q. split; [exact Hc|exact Hz].
    + destruct H3 as (q & Hc & Hz). exists q. split; [exact Hc|exact Hz].
Defined.
(** *** The derived column, from the kept rows *)

(** C7. With its two files there, the balance-sheet reshaper returns a
    table as soon as no two kept rows share an entry and both 'Passivo
    Total' and 'Patrimônio Líquido Consolidado' occur among the kept
    descriptions.  Every table it returns has exactly the (period,
    company) pairs of the kept rows as its rows, and on each row the
    'Passivo Total' cell and the 'Patrimônio Líquido Consolidado' cell
    are the values of the kept rows of that pair (NaN for a missing one)
    and passivo is their float64 difference: for a 'Passivo Total' row
    and a 'Patrimônio Líquido Consolidado' row of one pair, passivo is
    the first value minus the second. *)
Theorem passivo_correct self start_year end_year bpa bpp :
  FP.data_dir self !! bpa_file start_year end_year = Some bpa ->
  FP.data_dir self !! bpp_file start_year end_year = Some bpp ->
  let rows := balance_sheet_rows self (bpa ++ bpp) in
  (NoDup (entries DS_CONTA rows) ->
   "Passivo Total" ∈ DS_CONTA <$> rows ->
   "Patrimônio Líquido Consolidado" ∈ DS_CONTA <$> rows ->
   exists t, FP.process_balance_sheet self start_year end_year = Ok t) /\
  forall t, FP.process_balance_sheet self start_year end_year = Ok t ->
    (forall k, k ∈ index t <-> exists r, r ∈ rows /\ key r = k) /\
    (forall i k, index t !! i = Some k ->
       let v := pivot_cell DS_CONTA rows k in
       cell t "Passivo Total" i = Some (v "Passivo Total") /\
       cell t "Patrimônio Líquido Consolidado" i
         = Some (v "Patrimônio Líquido Consolidado") /\
       cell t "passivo" i
         = Some (Float64.sub (v "Passivo Total")
                   (v "Patrimônio Líquido Consolidado"))) /\
    (forall r_pt r_pl,
       r_pt ∈ rows -> DS_CONTA r_pt = "Passivo Total" ->
       r_pl ∈ rows -> DS_CONTA r_pl = "Patrimônio Líquido Consolidado" ->
       key r_pt = key r_pl ->
       exists i,
         index t !! i = Some (key r_pt) /\
         cell t "Passivo Total" i = Some (VL_CONTA r_pt) /\
         cell t "Patrimônio Líquido Consolidado" i = Some (VL_CONTA r_pl) /\
         cell t "passivo" i
           = Some (Float64.sub (VL_CONTA r_pt) (VL_CONTA r_pl))).
Proof.
  intros Ha Hb rows. split; [by apply process_balance_sheet_ok|].
  intros t (bpa' & bpp' & x & pt & pl & Ha' & Hb' & Hp & Hidx & Hpt & Hpl & Hcols)%process_balance_sheet_inv.
  assert (bpa' = bpa) as -> by congruence.
  assert (bpp' = bpp) as -> by congruence.
  fold rows in Hp.
  assert (forall i k, index t !! i = Some k ->
            let v := pivot_cell DS_CONTA rows k in
            cell t "Passivo Total" i = Some (v "Passivo Total") /\
            cell t "Patrimônio Líquido Consolidado" i
              = Some (v "Patrimônio Líquido Consolidado") /\
            cell t "passivo" i
              = Some (Float64.sub (v "Passivo Total")
                        (v "Patrimônio Líquido Consolidado"))) as Hcells.
  { intros i k Hi. rewrite Hidx in Hi. cbv zeta.
    pose proof (pivot_column_cell _ _ _ _ _ _ _ Hp Hpt Hi) as Ept.
    pose proof (pivot_column_cell _ _ _ _ _ _ _ Hp Hpl Hi) as Epl.
    unfold cell. rewrite Hcols.
    rewrite !lookup_col_set_col_ne by done. rewrite lookup_col_set_col, Hpt, Hpl.
    simpl. by rewrite lookup_zip_with, Ept, Epl. }
  split_and!; [|done|].
  - intros k. rewrite Hidx. apply (pivot_index _ _ _ _ Hp).
  - intros r_pt r_pl Hr1 D1 Hr2 D2 Hk.
    destruct (index_lookup_key _ _ _ _ Hp Hr1) as [i Hi]. rewrite <- Hidx in Hi.
    exists i. split; [done|].
    destruct (Hcells i _ Hi) as (C1 & C2 & C3). cbv zeta in C1, C2, C3.
    pose proof Hp as (Hnd & _)%pivot_ok.
    assert (pivot_cell DS_CONTA rows (key r_pt) "Passivo Total" = VL_CONTA r_pt)
      as E1 by (rewrite <- D1; by apply pivot_cell_in).
    assert (pivot_cell DS_CONTA rows (key r_pt) "Patrimônio Líquido Consolidado"
            = VL_CONTA r_pl)
      as E2 by (rewrite Hk, <- D2; by apply pivot_cell_in).
    rewrite E1 in C1, C3. rewrite E2 in C2, C3. done.
Qed.

Lemma passivo_correct_witness :
  exists t,
    FP.process_balance_sheet acme_processor 2023 2023 = Ok t /\
    exists i,
      index t !! i = Some ("2023-12-31", "ACME S.A.") /\
      cell t "Passivo Total" i = Some (Float64.of_Z 400) /\
      cell t "Patrimônio Líquido Consolidado" i = Some (Float64.of_Z 150) /\
      cell t "passivo" i
        = Some (Float64.sub (Float64.of_Z 400) (Float64.of_Z 150)).
Proof.
  destruct (passivo_correct acme_processor 2023 2023
              [ acme "1" "Ativo Total" (Float64.of_Z 400);
                acme "1.01" "Ativo Circulante" (Float64.of_Z 100) ]
              [ acme "2" "Passivo Total" (Float64.of_Z 400);
                acme "2.01" "Passivo Circulante" (Float64.of_Z 50);
                acme "2.03" "Patrimônio Líquido Consolidado" (Float64.of_Z 150) ])
    as (Hret & Hrows).
  - vm_compute. reflexivity.
  - vm_compute. reflexivity.
  - destruct Hret as [t Ht]; [solve_dec|solve_dec|solve_dec|].
    exists t. split; [exact Ht|].
    destruct (Hrows t Ht) as (_ & _ & H).
    apply (H (acme "2" "Passivo Total" (Float64.of_Z 400))
             (acme "2.03" "Patrimônio Líquido Consolidado" (Float64.of_Z 150)));
      [solve_dec|reflexivity|solve_dec|reflexivity|reflexivity].
Defined.

(** *** One name on two registry rows *)

(** C9, as the spec states it, fails: a company whose registry holds a
    cancelled row in the sector 'Bancos' and an active row of the same
    name elsewhere is in the universe, and its filings reach the
    reshaped balance sheet. *)
Lemma excluded_row_name_kept :
  (exists c, c ∈ twin_registry /\ DENOM_SOCIAL c = "BANCO X S.A." /\
     SETOR_ATIV c = "Bancos" /\ SIT c <> "ATIVO") /\
  run_companies twin_registry = ["BANCO X S.A."] /\
  (exists t,
     FP.process_balance_sheet twin_processor 2023 2023 = Ok t /\
     index t = [("2023-12-31", "BANCO X S.A.")]) /\
  ~ forall (info : list CompanyInfo) (t : Frame) (name : string),
      reshaped (run_companies info) t \/ ratio_table (run_companies info) t ->
      (exists c, c ∈ info /\ DENOM_SOCIAL c = name /\
         (SETOR_ATIV c ∈ ["Bancos"; "Intermediação Financeira";
                           "Seguradoras e Corretoras"]
          \/ SIT c <> "ATIVO" \/ TP_MERC c <> "BOLSA")) ->
      name ∉ (index t).*2.
Proof.
  assert (exists t,
     FP.process_balance_sheet twin_processor 2023 2023 = Ok t /\
     index t = [("2023-12-31", "BANCO X S.A.")]) as Ht.
  { eexists. split; [vm_compute; reflexivity|reflexivity]. }
  split_and!.
  - eexists. split; [left|]. split_and!; [reflexivity|reflexivity|discriminate].
  - vm_compute. reflexivity.
  - exact Ht.
  - intros Hall. destruct Ht as (t & Ht & Hidx).
    apply (Hall twin_registry t "BANCO X S.A.").
    + left. by apply (reshaped_balance_sheet _ _ twin_processor 2023 2023).
    + eexists. split; [left|]. split; [reflexivity|]. left. simpl. by left.
    + rewrite Hidx. simpl. by left.
Qed.
